(** * EDGAR ingestion pipeline: a shallow embedding and its checked properties

    The development follows the Python sources of the repository:

    - [utils/rate_limit.py]            (module [RateLimit])
    - [utils/sec_database.py]          (module [Database])
    - [utils/index_parser.py]          (modules [IndexParser] and, for the
                                        second copy, [IndexParserCopy])
    - [daily_downloader_inspect.py]    (module [SECDailyIndexDownloader])
    - [edgar_downloader.py]            (module [EDGARDownloader])

    Text is modelled by Rocq strings whose characters are read as the code
    points U+0000..U+00FF.  Python dictionaries whose iteration order is
    observable are association lists with Python's update-in-place
    discipline; the SQLite table [filings] is a finite map keyed by
    [filing_id].  Effects (network, file system, storage, raised exceptions)
    are threaded through an explicit state-and-exception monad whose state
    records the interaction with the outside world. *)

From Stdlib Require Import Ascii String DecimalString ZArith QArith Qminmax Lia Bool List.
From stdpp Require Import gmap strings.
Import ListNotations.

Local Open Scope Z_scope.

(** ** Python string primitives *)

Module Py.

Definition code (c : ascii) : N := N_of_ascii c.

Definition chr_eqb (a b : ascii) : bool := Ascii.eqb a b.

Definition between (lo hi : N) (c : ascii) : bool :=
  (N.leb lo (code c) && N.leb (code c) hi)%bool.

(** [str.isspace] on one character (code points below 256). *)
Definition isspace (c : ascii) : bool :=
  (between 9 13 c || between 28 32 c
   || N.eqb (code c) 133 || N.eqb (code c) 160)%bool.

(** ASCII decimal digit: the regex class [\d] below U+0100. *)
Definition isdecimal (c : ascii) : bool := between 48 57 c.

(** [str.isdigit] on one character: the decimal digits and the
    superscripts U+00B2, U+00B3, U+00B9. *)
Definition isdigit_chr (c : ascii) : bool :=
  (isdecimal c || N.eqb (code c) 178 || N.eqb (code c) 179
   || N.eqb (code c) 185)%bool.

Definition isupper_chr (c : ascii) : bool := between 65 90 c.
Definition islower_chr (c : ascii) : bool := between 97 122 c.
Definition isalpha_ascii (c : ascii) : bool :=
  (isupper_chr c || islower_chr c)%bool.

(** Case mapping of the ASCII letters; other characters are unchanged. *)
Definition upper_chr (c : ascii) : ascii :=
  if islower_chr c then ascii_of_N (code c - 32) else c.
Definition lower_chr (c : ascii) : ascii :=
  if isupper_chr c then ascii_of_N (code c + 32) else c.

Fixpoint upper (s : string) : string :=
  match s with
  | EmptyString => EmptyString
  | String c s' => String (upper_chr c) (upper s')
  end.

Definition len (s : string) : nat := String.length s.

Fixpoint rev_onto (s acc : string) : string :=
  match s with
  | EmptyString => acc
  | String c s' => rev_onto s' (String c acc)
  end.

Definition rev (s : string) : string := rev_onto s EmptyString.

Fixpoint startswith (p s : string) : bool :=
  match p, s with
  | EmptyString, _ => true
  | String a p', String b s' => chr_eqb a b && startswith p' s'
  | String _ _, EmptyString => false
  end.

Definition endswith (suf s : string) : bool := startswith (rev suf) (rev s).

(** [s.endswith((a, b, ...))] with a tuple of suffixes. *)
Definition endswith_any (sufs : list string) (s : string) : bool :=
  existsb (fun suf => endswith suf s) sufs.

Fixpoint drop (n : nat) (s : string) : string :=
  match n, s with
  | O, _ => s
  | S n', String _ s' => drop n' s'
  | S _, EmptyString => EmptyString
  end.

Fixpoint take (n : nat) (s : string) : string :=
  match n, s with
  | O, _ => EmptyString
  | S n', String c s' => String c (take n' s')
  | S _, EmptyString => EmptyString
  end.

(** Python slice [s[a:b]] with arbitrary (possibly negative) bounds. *)
Definition clamp_index (n : nat) (i : Z) : nat :=
  let l := Z.of_nat n in
  let j := if i <? 0 then i + l else i in
  Z.to_nat (Z.max 0 (Z.min l j)).

Definition slice (s : string) (a b : Z) : string :=
  let i := clamp_index (len s) a in
  let j := clamp_index (len s) b in
  take (j - i) (drop i s).

(** [s[a:]] and [s[:b]] *)
Definition slice_from (s : string) (a : Z) : string :=
  drop (clamp_index (len s) a) s.
Definition slice_to (s : string) (b : Z) : string :=
  take (clamp_index (len s) b) s.

(** [sub in s] *)
Fixpoint contains (sub s : string) : bool :=
  startswith sub s ||
  match s with
  | EmptyString => false
  | String _ s' => contains sub s'
  end.

Fixpoint find_from (sub s : string) (i : Z) : Z :=
  if startswith sub s then i
  else match s with
       | EmptyString => -1
       | String _ s' => find_from sub s' (i + 1)
       end.

(** [s.find(sub)]: index of the first occurrence, or -1. *)
Definition find (sub s : string) : Z := find_from sub s 0.

(** [s.replace(old, new)] for a non-empty [old] (every call site of the
    sources passes a non-empty literal); [skip] counts the characters of
    an occurrence of [old] still to be dropped. *)
Fixpoint replace_go (old new s : string) (skip : nat) : string :=
  match s with
  | EmptyString => EmptyString
  | String c s' =>
      match skip with
      | S k => replace_go old new s' k
      | O =>
          if startswith old s
          then new +:+ replace_go old new s' (len old - 1)
          else String c (replace_go old new s' O)
      end
  end.

Definition replace (old new s : string) : string :=
  match old with
  | EmptyString => s
  | _ => replace_go old new s O
  end.

Fixpoint lstrip (s : string) : string :=
  match s with
  | String c s' => if isspace c then lstrip s' else s
  | EmptyString => EmptyString
  end.

Definition rstrip (s : string) : string := rev (lstrip (rev s)).

(** [s.strip()] *)
Definition strip (s : string) : string := rstrip (lstrip s).

(** [s.split(sep)] for a one-character separator: the result is never
    empty. *)
Fixpoint split_go (sep : ascii) (s : string) (cur : string) : list string :=
  match s with
  | EmptyString => [rev cur]
  | String c s' =>
      if chr_eqb c sep then rev cur :: split_go sep s' EmptyString
      else split_go sep s' (String c cur)
  end.

Definition split (sep : ascii) (s : string) : list string :=
  split_go sep s EmptyString.

(** [l[-k]] for [k >= 1]; [None] stands for Python's IndexError. *)
Definition index_neg {A} (l : list A) (k : nat) : option A :=
  match k with
  | O => None
  | S k' => nth_error (List.rev l) k'
  end.

Fixpoint repeat_chr (c : ascii) (n : nat) : string :=
  match n with
  | O => EmptyString
  | S n' => String c (repeat_chr c n')
  end.

(** [s.zfill(width)]: a leading sign stays in front of the padding. *)
Definition zfill (width : nat) (s : string) : string :=
  let pad := repeat_chr "0" (width - len s) in
  match s with
  | String c s' =>
      if (chr_eqb c "+" || chr_eqb c "-")%bool
      then String c (pad +:+ s')
      else pad +:+ s
  | EmptyString => pad
  end.

Fixpoint all_chr (p : ascii -> bool) (s : string) : bool :=
  match s with
  | EmptyString => true
  | String c s' => p c && all_chr p s'
  end.

(** [s.isdigit()] *)
Definition isdigit (s : string) : bool :=
  match s with
  | EmptyString => false
  | _ => all_chr isdigit_chr s
  end.

(** [set(line) == {'-'}] *)
Definition is_dash_line (line : string) : bool :=
  match line with
  | EmptyString => false
  | _ => all_chr (chr_eqb "-") line
  end.

(** Line boundaries recognised by [str.splitlines] below U+0100, apart
    from the two-character boundary CR LF. *)
Definition is_linebreak (c : ascii) : bool :=
  (between 10 13 c || between 28 30 c || N.eqb (code c) 133)%bool.

Fixpoint splitlines_go (s : string) (cur : string) : list string :=
  match s with
  | EmptyString =>
      match cur with
      | EmptyString => []
      | _ => [rev cur]
      end
  | String c s' =>
      if is_linebreak c then
        match s' with
        | String d s'' =>
            if (N.eqb (code c) 13 && N.eqb (code d) 10)%bool
            then rev cur :: splitlines_go s'' EmptyString
            else rev cur :: splitlines_go s' EmptyString
        | EmptyString => [rev cur]
        end
      else splitlines_go s' (String c cur)
  end.

(** [s.splitlines()] *)
Definition splitlines (s : string) : list string :=
  splitlines_go s EmptyString.

(** Python dictionaries with observable insertion order. *)
Definition dict (V : Type) : Type := list (string * V).

Fixpoint dict_get {V} (d : dict V) (k : string) : option V :=
  match d with
  | [] => None
  | (k', v) :: d' => if String.eqb k' k then Some v else dict_get d' k
  end.

Definition dict_mem {V} (d : dict V) (k : string) : bool :=
  match dict_get d k with Some _ => true | None => false end.

(** [d[k] = v]: an existing key keeps its position. *)
Fixpoint dict_set {V} (d : dict V) (k : string) (v : V) : dict V :=
  match d with
  | [] => [(k, v)]
  | (k', v') :: d' =>
      if String.eqb k' k then (k, v) :: d' else (k', v') :: dict_set d' k v
  end.

(** [x in l] for a list of strings. *)
Definition in_list (x : string) (l : list string) : bool :=
  existsb (String.eqb x) l.

(** The double quote character. *)
Definition dquote : ascii := ascii_of_N 34.

(** Truth value of an optional string: [None] and [''] are falsy. *)
Definition truthy (o : option string) : bool :=
  match o with
  | Some (String _ _) => true
  | _ => false
  end.

(** Formatting inside an f-string: [None] prints as the word None. *)
Definition fmt (o : option string) : string :=
  match o with
  | Some s => s
  | None => "None"
  end.

End Py.

(** ** Regular expressions

    A backtracking matcher with the priorities of Python's [re]: ordered
    alternation, greedy and lazy repetition, capture groups.  Repetition is
    over a character class, which is the only form the sources use
    ([\s*], [\d+], [[^>]*], [.*?], ...); counted repetition is written out
    with [times]. *)

Module Re.

Inductive regex : Type :=
| Eps
| Chr (p : ascii -> bool)
| Cat (r1 r2 : regex)
| Alt (r1 r2 : regex)
| Star (greedy : bool) (p : ascii -> bool)
| Group (name : string) (r : regex)
| Bol
| Eol.

(** Spans of the groups that took part in the match, latest first. *)
Definition caps : Type := list (string * (nat * nat)).

Definition is_newline (c : ascii) : bool := N.eqb (Py.code c) 10.

(** [run r i s c k]: match [r] against [s], the input from position [i]
    on, then hand the rest to the continuation [k]; [None] makes the
    caller backtrack. *)
Fixpoint run {R : Type} (r : regex) (i : nat) (s : string) (c : caps)
    (k : nat -> string -> caps -> option R) : option R :=
  match r with
  | Eps => k i s c
  | Chr p =>
      match s with
      | String a s' => if p a then k (S i) s' c else None
      | EmptyString => None
      end
  | Cat r1 r2 => run r1 i s c (fun j t c' => run r2 j t c' k)
  | Alt r1 r2 =>
      match run r1 i s c k with
      | Some x => Some x
      | None => run r2 i s c k
      end
  | Star true p =>
      (fix more (t : string) (j : nat) : option R :=
         match t with
         | String a t' =>
             if p a then
               match more t' (S j) with
               | Some x => Some x
               | None => k j t c
               end
             else k j t c
         | EmptyString => k j t c
         end) s i
  | Star false p =>
      (fix more (t : string) (j : nat) : option R :=
         match k j t c with
         | Some x => Some x
         | None =>
             match t with
             | String a t' => if p a then more t' (S j) else None
             | EmptyString => None
             end
         end) s i
  | Group name r' => run r' i s c (fun j t c' => k j t ((name, (i, j)) :: c'))
  | Bol => if Nat.eqb i 0 then k i s c else None
  | Eol =>
      match s with
      | EmptyString => k i s c
      | String a EmptyString => if is_newline a then k i s c else None
      | _ => None
      end
  end.

(** A match object: the subject, the span of the whole match, the groups. *)
Record Match : Type := mkMatch {
  m_string : string;
  m_start : nat;
  m_end : nat;
  m_caps : caps
}.

Definition match_here (r : regex) (i : nat) (s : string) : option (nat * caps) :=
  run r i s [] (fun j _ c => Some (j, c)).

Fixpoint search_from (r : regex) (full : string) (i : nat) (s : string)
    : option Match :=
  match match_here r i s with
  | Some (j, c) => Some (mkMatch full i j c)
  | None =>
      match s with
      | String _ s' => search_from r full (S i) s'
      | EmptyString => None
      end
  end.

(** [re.search(r, s)] *)
Definition search (r : regex) (s : string) : option Match :=
  search_from r s 0 s.

(** [re.match(r, s)] *)
Definition match_ (r : regex) (s : string) : option Match :=
  match match_here r 0 s with
  | Some (j, c) => Some (mkMatch s 0 j c)
  | None => None
  end.

Fixpoint lookup_cap (c : caps) (name : string) : option (nat * nat) :=
  match c with
  | [] => None
  | (n, sp) :: c' => if String.eqb n name then Some sp else lookup_cap c' name
  end.

(** [m.group(name)]; [None] when the group took no part in the match. *)
Definition group (m : Match) (name : string) : option string :=
  match lookup_cap (m_caps m) name with
  | Some (i, j) => Some (Py.take (j - i) (Py.drop i (m_string m)))
  | None => None
  end.

(** The text of a group that takes part in every match of its pattern. *)
Definition group_text (m : Match) (name : string) : string :=
  match group m name with
  | Some s => s
  | None => EmptyString
  end.

(** [re.findall(r, s)] for a pattern without groups.  The scan resumes
    at the end of each match; [skip] counts the characters of the current
    match still to be passed.  The patterns given to [findall] and [sub]
    in the sources cannot match the empty string. *)
Fixpoint findall_go (r : regex) (i : nat) (s : string) (skip : nat)
    : list string :=
  match skip with
  | S k =>
      match s with
      | String _ s' => findall_go r (S i) s' k
      | EmptyString => []
      end
  | O =>
      match match_here r i s with
      | Some (j, _) =>
          Py.take (j - i) s ::
          match s with
          | String _ s' => findall_go r (S i) s' (j - i - 1)
          | EmptyString => []
          end
      | None =>
          match s with
          | String _ s' => findall_go r (S i) s' O
          | EmptyString => []
          end
      end
  end.

Definition findall (r : regex) (s : string) : list string :=
  findall_go r 0 s 0.

(** [re.sub(r, repl, s)] with a constant replacement. *)
Fixpoint sub_go (r : regex) (repl : string) (i : nat) (s : string)
    (skip : nat) : string :=
  match skip with
  | S k =>
      match s with
      | String _ s' => sub_go r repl (S i) s' k
      | EmptyString => EmptyString
      end
  | O =>
      match match_here r i s with
      | Some (j, _) =>
          repl +:+
          match s with
          | String a s' =>
              if Nat.eqb j i then String a (sub_go r repl (S i) s' O)
              else sub_go r repl (S i) s' (j - i - 1)
          | EmptyString => EmptyString
          end
      | None =>
          match s with
          | String a s' => String a (sub_go r repl (S i) s' O)
          | EmptyString => EmptyString
          end
      end
  end.

Definition sub (r : regex) (repl : string) (s : string) : string :=
  sub_go r repl 0 s 0.

(** *** Pattern combinators *)

Fixpoint cat (rs : list regex) : regex :=
  match rs with
  | [] => Eps
  | [r] => r
  | r :: rs' => Cat r (cat rs')
  end.

(** A literal, case sensitive. *)
Fixpoint lit (s : string) : regex :=
  match s with
  | EmptyString => Eps
  | String c EmptyString => Chr (Py.chr_eqb c)
  | String c s' => Cat (Chr (Py.chr_eqb c)) (lit s')
  end.

Definition ieq (c a : ascii) : bool :=
  Py.chr_eqb (Py.lower_chr c) (Py.lower_chr a).

(** A literal under [re.IGNORECASE]. *)
Fixpoint ilit (s : string) : regex :=
  match s with
  | EmptyString => Eps
  | String c EmptyString => Chr (ieq c)
  | String c s' => Cat (Chr (ieq c)) (ilit s')
  end.

Definition space : ascii -> bool := Py.isspace.                 (* \s *)
Definition nonspace (c : ascii) : bool := negb (Py.isspace c).  (* \S *)
Definition digit : ascii -> bool := Py.isdecimal.               (* \d *)
Definition dot (c : ascii) : bool := negb (is_newline c).       (* .  *)
Definition dotall (c : ascii) : bool := true.         (* . under DOTALL *)
Definition alpha : ascii -> bool := Py.isalpha_ascii.           (* [A-Za-z] *)
Definition other_than (x : ascii) (c : ascii) : bool :=         (* [^x] *)
  negb (Py.chr_eqb x c).

Definition star (p : ascii -> bool) : regex := Star true p.     (* p*  *)
Definition lazy_star (p : ascii -> bool) : regex := Star false p. (* p*? *)
Definition plus (p : ascii -> bool) : regex :=                  (* p+  *)
  Cat (Chr p) (Star true p).
Definition lazy_plus (p : ascii -> bool) : regex :=             (* p+? *)
  Cat (Chr p) (Star false p).
Definition opt (r : regex) : regex := Alt r Eps.                (* r?  *)

Fixpoint times (n : nat) (p : ascii -> bool) : regex :=         (* p{n} *)
  match n with
  | O => Eps
  | S O => Chr p
  | S n' => Cat (Chr p) (times n' p)
  end.

Definition at_least (n : nat) (p : ascii -> bool) : regex :=    (* p{n,} *)
  Cat (times n p) (Star true p).

End Re.

(** ** Exceptions, the outside world, and the monad of effects *)

(** The exception classes that the sources raise, catch or let through.
    [ConnectTimeout] is, as in [requests], both a [Timeout] and a
    [ConnectionError]; [TooManyRedirects] stands for the request
    exceptions that are neither; [OperationalError] is the one of
    [sqlite3]. *)
Inductive exn : Type :=
| KeyError (key : string)
| IndexError
| AttributeError
| ValueError
| UnboundLocalError (var : string)
| ZeroDivisionError
| OSError
| OperationalError
| HTTPError (status : Z)
| ReadTimeout
| ConnectTimeout
| ConnectionError
| TooManyRedirects
| KeyboardInterrupt
| SystemExit (msg : string).

(** [isinstance(e, Exception)]: everything but the two BaseExceptions. *)
Definition is_Exception (e : exn) : bool :=
  match e with
  | KeyboardInterrupt | SystemExit _ => false
  | _ => true
  end.

Definition is_Timeout (e : exn) : bool :=
  match e with
  | ReadTimeout | ConnectTimeout => true
  | _ => false
  end.

Definition is_ConnectionError (e : exn) : bool :=
  match e with
  | ConnectionError | ConnectTimeout => true
  | _ => false
  end.

Definition is_RequestException (e : exn) : bool :=
  match e with
  | HTTPError _ | ReadTimeout | ConnectTimeout | ConnectionError
  | TooManyRedirects => true
  | _ => false
  end.

Definition is_SystemExit (e : exn) : bool :=
  match e with
  | SystemExit _ => true
  | _ => false
  end.

(** [str(e)], used in one log line and one exit message only. *)
Definition exn_str (e : exn) : string :=
  match e with
  | KeyError k => "'" +:+ k +:+ "'"
  | IndexError => "list index out of range"
  | AttributeError => "attribute error"
  | ValueError => "value error"
  | UnboundLocalError v => "local variable '" +:+ v +:+ "' referenced before assignment"
  | ZeroDivisionError => "division by zero"
  | OSError => "os error"
  | OperationalError => "too many SQL variables"
  | HTTPError _ => "http error"
  | ReadTimeout => "read timed out"
  | ConnectTimeout => "connect timed out"
  | ConnectionError => "connection error"
  | TooManyRedirects => "too many redirects"
  | KeyboardInterrupt => ""
  | SystemExit m => m
  end.

(** The result of running a piece of Python: a value or a raised exception. *)
Inductive res (A : Type) : Type :=
| Ok (a : A)
| Raise (e : exn).
Arguments Ok {A} a.
Arguments Raise {A} e.

(** [requests.Response], as far as the sources read it. *)
Record Response : Type := mkResponse {
  status_code : Z;
  text : string
}.

(** What [session.get] does on one call. *)
Inductive Fetch : Type :=
| Resp (r : Response)
| Throws (e : exn).

(** One row of the table [filings]. *)
Record Row : Type := mkRow {
  row_cik : string;
  row_accession_number : string;
  row_form_type : string;
  row_company_name : option string;
  row_ticker : option string;
  row_fiscal_year : option string;
  row_fiscal_period : option string;
  row_filing_date : option string;
  row_period_end_date : option string;
  row_file_path : option string;
  row_file_count : Z;
  row_total_size : Z;
  row_download_status : string;
  row_created_at : string;
  row_updated_at : string
}.

(** Interactions with the outside, most recent first. *)
Inductive Event : Type :=
| EvGet (url : string)
| EvMkdir (path : string) (ok : bool)
| EvWrite (path : string) (ok : bool)
| EvDirSize (path : string)
| EvAdd (filing_id : string) (ok : bool)
| EvDelete (filing_id : string).

Definition is_EvAdd (e : Event) : bool :=
  match e with
  | EvAdd _ _ => true
  | _ => false
  end.

(** The state threaded through the program: the table [filings] and the
    history of interactions. *)
Record World : Type := mkWorld {
  table : gmap string Row;
  trace : list Event
}.

(** The number of interactions so far indexes the answers of the outside. *)
Definition clock (w : World) : nat := length (trace w).

Definition emit (e : Event) (w : World) : World :=
  mkWorld (table w) (e :: trace w).

(** The calls of [add_filing] recorded in a history. *)
Definition adds (w : World) : list Event := List.filter is_EvAdd (trace w).

(** The outside: every answer may depend on the moment it is asked.
    [dir_size] is the sum of the sizes of the entries of a directory,
    [None] when listing it raises [OSError].  [current_timestamp] is
    SQLite's CURRENT_TIMESTAMP and [now_isoformat] is
    [datetime.now().isoformat()].  [max_variable_number] is the number of
    parameters that the SQLite library accepts in one statement
    (SQLITE_MAX_VARIABLE_NUMBER, fixed when the library is built: 999 by
    default before version 3.32, 32766 since). *)
Record Env : Type := mkEnv {
  http_get : nat -> string -> Fetch;
  mkdir_fails : nat -> string -> bool;
  write_fails : nat -> string -> bool;
  dir_size : nat -> string -> option Z;
  db_fails : nat -> bool;
  current_timestamp : nat -> string;
  now_isoformat : nat -> string;
  max_variable_number : positive;
  company_tickers : Py.dict string;
  base_dir : string;
  target_dir : string
}.

(** State and exceptions. *)
Definition M (S A : Type) : Type := S -> res A * S.

Definition ret {S A} (a : A) : M S A := fun s => (Ok a, s).

Definition raise {S A} (e : exn) : M S A := fun s => (Raise e, s).

Definition bind {S A B} (m : M S A) (f : A -> M S B) : M S B :=
  fun s =>
    match m s with
    | (Ok a, s') => f a s'
    | (Raise e, s') => (Raise e, s')
    end.

(** [try: m  except <classes selected by catches>: h] *)
Definition try_except {S A} (m : M S A) (catches : exn -> bool)
    (h : exn -> M S A) : M S A :=
  fun s =>
    match m s with
    | (Raise e, s') => if catches e then h e s' else (Raise e, s')
    | r => r
    end.

Definition modify {S} (f : S -> S) : M S unit := fun s => (Ok tt, f s).

(** A pure computation that may raise. *)
Definition lift_res {S A} (r : res A) : M S A := fun s => (r, s).

(** The value or the exception of a run. *)
Definition outcome {S A} (r : res A * S) : res A := fst r.

(** [o] when present, else the exception [e]. *)
Definition or_raise {A} (o : option A) (e : exn) : res A :=
  match o with
  | Some a => Ok a
  | None => Raise e
  end.

Declare Scope py_scope.
Delimit Scope py_scope with py.
Notation "x <- m ;; k" := (bind m (fun x => k))
  (at level 100, m at next level, right associativity) : py_scope.
Notation "m ;;; k" := (bind m (fun _ => k))
  (at level 100, right associativity) : py_scope.
Local Open Scope py_scope.

(** [for x in xs: body x], stopping at the first exception. *)
Fixpoint for_each {S A} (xs : list A) (body : A -> M S unit) : M S unit :=
  match xs with
  | [] => ret tt
  | x :: xs' => body x ;;; for_each xs' body
  end.

(** [response.raise_for_status()] *)
Definition raise_for_status {S} (r : Response) : M S unit :=
  if (400 <=? status_code r) && (status_code r <? 600)
  then raise (HTTPError (status_code r))
  else ret tt.

(** ** utils/rate_limit.py

    Clock readings and token counts are rationals, where the code
    computes in floating point; [acquire] receives the reading of
    [time.time()] and reports how long it slept.  What is proved of the
    limiter is what rounding keeps: bounds on the tokens and on the time
    slept, and, for a limiter without capacity, a count of tokens that is
    exactly 0 and a sleep that is the one quotient [(1 - 0) / refill_rate]. *)

Module RateLimit.

Record SafeRateLimiter : Type := mkLimiter {
  capacity : Q;
  tokens : Q;
  refill_rate : Q;
  last_refill : Q
}.

(** [SafeRateLimiter.__init__(capacity, refill_rate)] at clock reading
    [now]. *)
Definition init (capacity refill_rate now : Q) : res SafeRateLimiter :=
  Ok (mkLimiter capacity capacity refill_rate now).

(** [SafeRateLimiter()] *)
Definition default (now : Q) : res SafeRateLimiter := init 1%Q 9%Q now.

(** [acquire]: the returned triple is the value, the time slept and the
    limiter afterwards. *)
Definition acquire (l : SafeRateLimiter) (now : Q)
    : res (bool * Q * SafeRateLimiter) :=
  let tokens_to_add := ((now - last_refill l) * refill_rate l)%Q in
  let tokens1 := Qmin (capacity l) (tokens l + tokens_to_add)%Q in
  if Qle_bool 1%Q tokens1 then
    Ok (true, 0%Q,
        mkLimiter (capacity l) (tokens1 - 1)%Q (refill_rate l) now)
  else if Qeq_bool (refill_rate l) 0%Q then Raise ZeroDivisionError
  else
    let wait_time := ((1 - tokens1) / refill_rate l)%Q in
    if Qle_bool 0%Q wait_time then
      Ok (true, wait_time, mkLimiter (capacity l) 0%Q (refill_rate l) now)
    else Raise ValueError. (* time.sleep of a negative length *)

(** Calls of [acquire] one after the other, at the given readings of the
    clock: the value and the time slept of each call, in order, and the
    limiter afterwards. *)
Fixpoint acquire_all (l : SafeRateLimiter) (readings : list Q)
    : res (list (bool * Q) * SafeRateLimiter) :=
  match readings with
  | [] => Ok ([], l)
  | now :: later =>
      match acquire l now with
      | Ok (value, slept, l1) =>
          match acquire_all l1 later with
          | Ok (calls, l2) => Ok ((value, slept) :: calls, l2)
          | Raise e => Raise e
          end
      | Raise e => Raise e
      end
  end.


End RateLimit.

(** ** The HTTP wrapper

    [EDGARDownloader.safe_request] and
    [SECDailyIndexDownloader.safe_request] are the same method, word for
    word.  The limiter's [acquire] that opens it only delays the call and
    is not part of the world state. *)

Definition timeout_response : Response := mkResponse 408 "".

(** The [try] block: the request and the dispatch on the status code. *)
Definition safe_request_try (f : Fetch) : res Response :=
  match f with
  | Throws e => Raise e
  | Resp response =>
      let code := status_code response in
      if code =? 429 then
        Raise (SystemExit "[429 ERROR] Program stopped due to rate limit")
      else if code =? 403 then
        Raise (SystemExit "[403 ERROR] Program stopped due to access forbidden")
      else if code =? 404 then Ok response
      else if code >=? 500 then Ok response
      else if code >=? 400 then Ok response
      else Ok response
  end.

(** The [except] clauses, in the order of the source. *)
Definition safe_request_except (e : exn) : res Response :=
  match e with
  | KeyboardInterrupt =>
      Raise (SystemExit "[KEYBOARD INTERRUPT] Program stopped by user")
  | _ =>
      if is_Timeout e then Ok timeout_response
      else if is_ConnectionError e then
        Raise (SystemExit "[CONNECTION ERROR] Program stopped due to connection error")
      else if is_SystemExit e then Raise e
      else if is_Exception e then
        Raise (SystemExit ("[UNEXPECTED ERROR] Program stopped due to " +:+ exn_str e))
      else Raise e
  end.

Definition safe_request_outcome (f : Fetch) : res Response :=
  match safe_request_try f with
  | Ok r => Ok r
  | Raise e => safe_request_except e
  end.

Definition safe_request (env : Env) (url : string) : M World Response :=
  fun w =>
    (safe_request_outcome (http_get env (clock w) url), emit (EvGet url) w).

(** ** utils/sec_database.py *)

Module Database.

(** The dictionary handed to [add_filing], with the keys its caller
    sets.  [filing_id] is always built by an f-string; the three columns
    declared NOT NULL may receive [None]. *)
Record FilingData : Type := mkFilingData {
  filing_id : string;
  cik : option string;
  accession_number : option string;
  form_type : option string;
  company_name : option string;
  ticker : option string;
  fiscal_year : option string;
  fiscal_period : option string;
  filing_date : option string;
  period_end_date : option string;
  file_path : option string;
  file_count : Z;
  total_size : Z
}.

(** [f"{cik}_{accession_number}"] *)
Definition make_filing_id (cik accession_number : string) : string :=
  cik +:+ "_" +:+ accession_number.

(** The row written by INSERT OR REPLACE; [None] when a NOT NULL column
    would receive NULL.  The statement binds [updated_at]; the columns
    [download_status] and [created_at] take their defaults, 'completed'
    and CURRENT_TIMESTAMP, also when the row replaces an older one. *)
Definition row_of (d : FilingData) (created_at updated_at : string)
    : option Row :=
  match cik d, accession_number d, form_type d with
  | Some c, Some a, Some f =>
      Some (mkRow c a f (company_name d) (ticker d) (fiscal_year d)
              (fiscal_period d) (filing_date d) (period_end_date d)
              (file_path d) (file_count d) (total_size d) "completed"
              created_at updated_at)
  | _, _, _ => None
  end.

(** [is_filing_downloaded]: SELECT 1 FROM filings WHERE filing_id = ? *)
Definition is_filing_downloaded (cik accession_number : string)
    : M World bool :=
  fun w =>
    (Ok (bool_decide (is_Some (table w !! make_filing_id cik accession_number))), w).

(** [add_filing]: any exception of the storage engine is caught, logged
    and turned into [False]. *)
Definition add_filing (env : Env) (filing_data : FilingData) : M World bool :=
  fun w =>
    match db_fails env (clock w),
          row_of filing_data (current_timestamp env (clock w))
                 (now_isoformat env (clock w)) with
    | false, Some row =>
        (Ok true,
         mkWorld (<[filing_id filing_data := row]> (table w))
                 (EvAdd (filing_id filing_data) true :: trace w))
    | _, _ => (Ok false, emit (EvAdd (filing_id filing_data) false) w)
    end.

(** [delete_filing_record]: the number of rows deleted. *)
Definition delete_filing_record (cik accession_number : string)
    : M World Z :=
  fun w =>
    let id := make_filing_id cik accession_number in
    let deleted_count := if bool_decide (is_Some (table w !! id)) then 1 else 0 in
    (Ok deleted_count,
     mkWorld (delete id (table w)) (EvDelete id :: trace w)).

End Database.

(** ** utils/index_parser.py *)

Module IndexParser.

Import Re.

(** The value stored per description: [{'type': ..., 'doc': ...}]. *)
Record Entry : Type := mkEntry {
  type_ : string;
  doc : string
}.

(** [<[^>]+>] *)
Definition tag_re : regex :=
  cat [lit "<"; plus (other_than ">"); lit ">"].

Definition strip_html_tags (text : string) : string := sub tag_re "" text.

(** [<tr[^>]*>.*?</tr>] under DOTALL *)
Definition row_re : regex :=
  cat [lit "<tr"; star (other_than ">"); lit ">"; lazy_star dotall;
       lit "</tr>"].

(** The four cells of a row, under DOTALL, with Q for the double quote:
    [<td[^>]*>.*?</td>\s*]
    [<td[^>]*>(.*?)</td>\s*]
    [<td[^>]*>.*?href=Q([^Q]+)Q[^>]*>.*?</a>.*?</td>\s*]
    [<td[^>]*>(.*?)</td>] *)
Definition cells_re : regex :=
  cat [lit "<td"; star (other_than ">"); lit ">"; lazy_star dotall;
       lit "</td>"; star space;
       lit "<td"; star (other_than ">"); lit ">";
       Group "1" (lazy_star dotall); lit "</td>"; star space;
       lit "<td"; star (other_than ">"); lit ">"; lazy_star dotall;
       lit "href="; Chr (Py.chr_eqb Py.dquote);
       Group "2" (plus (other_than Py.dquote)); Chr (Py.chr_eqb Py.dquote);
       star (other_than ">"); lit ">"; lazy_star dotall; lit "</a>";
       lazy_star dotall; lit "</td>"; star space;
       lit "<td"; star (other_than ">"); lit ">";
       Group "3" (lazy_star dotall); lit "</td>"].

(** [doc=([^&]+)] *)
Definition ix_doc_re : regex :=
  cat [lit "doc="; Group "1" (plus (other_than "&"))].

(** The inline-viewer link [/ix?doc=...] is replaced by its target. *)
Definition normalize_href (raw_href : string) : string :=
  if Py.startswith "/ix?doc=" raw_href then
    match search ix_doc_re raw_href with
    | Some href_match => group_text href_match "1"
    | None => raw_href
    end
  else raw_href.

Definition kept_suffixes : list string := ["htm"; "html"; "txt"].

(** The body of both loops over the rows of a section. *)
Definition add_row (files : Py.dict Entry) (row : string) : Py.dict Entry :=
  match search cells_re row with
  | Some m =>
      let description := strip_html_tags (Py.strip (group_text m "1")) in
      let raw_href := Py.strip (group_text m "2") in
      let href := normalize_href raw_href in
      let file_type := strip_html_tags (Py.strip (group_text m "3")) in
      if Py.endswith_any kept_suffixes href
      then Py.dict_set files description (mkEntry file_type href)
      else files
  | None => files
  end.

Definition doc_section (html_content : string) : string :=
  Py.slice html_content
    (Py.find "<p>Document Format Files</p>" html_content)
    (Py.find "<p>Data Files</p>" html_content).

Definition data_section (html_content : string) : string :=
  Py.slice html_content
    (Py.find "<p>Data Files</p>" html_content)
    (Py.find "<!-- END DOCUMENT DIV -->" html_content).

Record FilingIndex : Type := mkFilingIndex {
  documentFormatFiles : Py.dict Entry;
  dataFiles : Py.dict Entry
}.

Definition extract_sec_filing_data (html_content : string) : FilingIndex :=
  let rows := findall row_re (doc_section html_content) in
  let doc_format_files := fold_left add_row rows [] in
  let rows2 := findall row_re (data_section html_content) in
  let data_files := fold_left add_row rows2 [] in
  mkFilingIndex doc_format_files data_files.

End IndexParser.

(** ** daily_downloader_inspect.py *)

Module SECDailyIndexDownloader.

Import Re.

(** A filing descriptor, the dictionary built by
    [parse_daily_index_line]. *)
Record Filing : Type := mkFiling {
  company_name : string;
  form_type : string;
  cik : string;
  date_filed : string;
  file_name : string;
  accession_number : string
}.

Definition target_forms : list string := ["10-K"; "10-Q"; "10-K/A"; "10-Q/A"].

(** [^(?P<form_type>\S+)\s+(?P<company_name>.+?)\s{2,}(?P<cik>\d+)\s+]
    [(?P<date_filed>\d{8})\s+(?P<file_name>\S+\.txt)$] *)
Definition line_re : regex :=
  cat [Bol; Group "form_type" (plus nonspace); plus space;
       Group "company_name" (lazy_plus dot); at_least 2 space;
       Group "cik" (plus digit); plus space;
       Group "date_filed" (times 8 digit); plus space;
       Group "file_name" (Cat (plus nonspace) (lit ".txt")); Eol].

(** The [try] block of [parse_daily_index_line]; [Ok None] is the
    function returning [None]. *)
Definition parse_daily_index_line_try (line : string) : res (option Filing) :=
  match match_ line_re (Py.strip line) with
  | None => Ok None
  | Some m =>
      let form_type := group_text m "form_type" in
      let company_name := group_text m "company_name" in
      match Py.index_neg (Py.split "/" (group_text m "file_name")) 2 with
      | None => Raise IndexError
      | Some seg =>
          let cik := Py.zfill 10 seg in
          let date_filed := group_text m "date_filed" in
          let file_name := Py.strip (group_text m "file_name") in
          let url :=
            if Py.contains "edgar" file_name
            then "https://www.sec.gov/Archives/" +:+ file_name
            else "https://www.sec.gov/Archives/edgar/" +:+ file_name in
          if Py.in_list form_type target_forms then
            match Py.index_neg (Py.split "/" (Py.strip (group_text m "file_name"))) 1 with
            | None => Raise IndexError
            | Some last =>
                match Py.split "." last with
                | acc :: _ =>
                    Ok (Some (mkFiling company_name form_type cik date_filed url acc))
                | [] => Raise IndexError
                end
            end
          else Ok None
      end
  end.

(** [parse_daily_index_line]: every exception becomes [None]. *)
Definition parse_daily_index_line (line : string) : option Filing :=
  match parse_daily_index_line_try line with
  | Ok r => r
  | Raise e => if is_Exception e then None else None
  end.

(** The first loop: the index after the first line made of dashes only;
    [None] when the loop ends without assigning [data_start]. *)
Fixpoint find_data_start (lines : list string) (i : nat) : option nat :=
  match lines with
  | [] => None
  | line :: rest =>
      if Py.is_dash_line line then Some (S i) else find_data_start rest (S i)
  end.

(** The second loop. *)
Fixpoint collect_filings (lines : list string) (filings : list Filing)
    : list Filing :=
  match lines with
  | [] => filings
  | line :: rest =>
      match parse_daily_index_line line with
      | Some filing =>
          if Py.in_list (form_type filing) target_forms
          then collect_filings rest (filings ++ [filing])
          else collect_filings rest filings
      | None => collect_filings rest filings
      end
  end.

Definition pure_parse_daily_single_index (env : Env) (idx_url : string)
    : M World (list Filing) :=
  try_except
    (response <- safe_request env idx_url ;;
     raise_for_status response ;;;
     let lines := Py.splitlines (text response) in
     match find_data_start lines 0 with
     | None => raise (UnboundLocalError "data_start")
     | Some data_start => ret (collect_filings (skipn data_start lines) [])
     end)
    is_RequestException
    (fun _ => ret []).

End SECDailyIndexDownloader.

(** ** edgar_downloader.py *)

Module EDGARDownloader.

Import Re.

Definition Filing : Type := SECDailyIndexDownloader.Filing.

Definition range (lo hi : ascii) (c : ascii) : bool :=
  Py.between (Py.code lo) (Py.code hi) c.

(** [d[k]] *)
Definition dict_item {V} (d : Py.dict V) (k : string) : res V :=
  or_raise (Py.dict_get d k) (KeyError k).

Definition sec : string := "https://www.sec.gov".

(** [get_tikcer_by_cik] *)
Definition get_tikcer_by_cik (env : Env) (cik : string) : string :=
  match Py.dict_get (company_tickers env) (Py.strip cik) with
  | Some (String c t) => String c t
  | _ => "UNKNOWN"
  end.

(** [value['doc'].split('/')[-1].split(".")[0]] *)
Definition file_stem (doc : string) : string :=
  match Py.index_neg (Py.split "/" doc) 1 with
  | Some last => hd EmptyString (Py.split "." last)
  | None => EmptyString
  end.

Definition complete_key : string := "Complete submission text file".

(** One turn of the loop over [doc_files.items()]; the state is the map
    of URLs and the flag [complete_txt_found]. *)
Definition doc_file_step (st : Py.dict string * bool)
    (item : string * IndexParser.Entry) : Py.dict string * bool :=
  let '(urls, complete_txt_found) := st in
  let '(key, value) := item in
  let target := sec +:+ IndexParser.doc value in
  if String.eqb key complete_key then
    if negb complete_txt_found
    then (Py.dict_set urls "complete_txt" target, true)
    else (urls, complete_txt_found)
  else if Py.isdigit key && Py.isdigit (IndexParser.type_ value) then
    (Py.dict_set urls (file_stem (IndexParser.doc value)) target,
     complete_txt_found)
  else if Py.endswith_any [".htm"; ".html"] (IndexParser.doc value) then
    let url_key := IndexParser.type_ value in
    if negb (Py.contains "nbsp" url_key)
    then (Py.dict_set urls url_key target, complete_txt_found)
    else (Py.dict_set urls key target, complete_txt_found)
  else (urls, complete_txt_found).

(** One turn of the loop over [data_files.items()]. *)
Definition data_file_step (urls : Py.dict string)
    (item : string * IndexParser.Entry) : Py.dict string :=
  let '(key, value) := item in
  let target := sec +:+ IndexParser.doc value in
  let url_key := IndexParser.type_ value in
  if negb (Py.contains "nbsp" url_key) then
    if String.eqb key "EXTRACTED XBRL INSTANCE DOCUMENT" then
      Py.dict_set urls "xbrl_instance" target
    else if Py.isdigit key && Py.isdigit (IndexParser.type_ value) then
      Py.dict_set urls (file_stem (IndexParser.doc value)) target
    else Py.dict_set urls ("xbrl_" +:+ url_key) target
  else Py.dict_set urls ("xbrl_" +:+ key) target.

(** What [required_urls] builds from the text of a fetched index page. *)
Definition urls_of_index (urls : Py.dict string) (filename content : string)
    : Py.dict string :=
  let result := IndexParser.extract_sec_filing_data content in
  let doc_files := IndexParser.documentFormatFiles result in
  let data_files := IndexParser.dataFiles result in
  let st0 :=
    match doc_files with
    | [] => (urls, false)
    | _ =>
        let st :=
          match Py.dict_get doc_files complete_key with
          | Some v =>
              (Py.dict_set urls "complete_txt" (sec +:+ IndexParser.doc v), true)
          | None => (urls, false)
          end in
        fold_left doc_file_step doc_files st
    end in
  let urls1 := fold_left data_file_step data_files (fst st0) in
  if negb (snd st0) then Py.dict_set urls1 "complete_txt" filename else urls1.

(** [required_urls]; [Ok None] is the function returning [None]. *)
Definition required_urls (env : Env) (filename : string)
    : M World (option (Py.dict string)) :=
  seg <- lift_res (or_raise (Py.index_neg (Py.split "/" filename) 2) IndexError) ;;
  let cik := Py.zfill 10 seg in
  last <- lift_res (or_raise (Py.index_neg (Py.split "/" filename) 1) IndexError) ;;
  let accession_number := hd EmptyString (Py.split "." last) in
  let urls : Py.dict string :=
    [("financial_report_xlsx",
      "https://www.sec.gov/Archives/edgar/data/" +:+ cik +:+ "/" +:+
      Py.replace "-" "" accession_number +:+ "/Financial_Report.xlsx")] in
  let index_url := Py.replace ".txt" "-index.htm" filename in
  try_except
    (response <- safe_request env index_url ;;
     if negb (status_code response =? 200) then ret None
     else
       raise_for_status response ;;;
       ret (Some (urls_of_index urls filename (text response))))
    is_Exception
    (fun _ => ret (Some (Py.dict_set urls "complete_txt" filename))).

(** *** Dates *)

Definition to_int (s : string) : Z :=
  fold_left (fun acc c => 10 * acc + (Z.of_N (Py.code c) - 48))
            (list_ascii_of_string (Py.strip s)) 0.

Definition is_leap (y : Z) : bool :=
  ((y mod 4 =? 0) && negb (y mod 100 =? 0)) || (y mod 400 =? 0).

Definition days_in_month (y m : Z) : Z :=
  if m =? 2 then (if is_leap y then 29 else 28)
  else if (m =? 4) || (m =? 6) || (m =? 9) || (m =? 11) then 30
  else 31.

(** The directive patterns of [datetime.strptime]:
    %Y is [\d\d\d\d], %m is [1[0-2]|0[1-9]|[1-9]],
    %d is [3[0-1]|[1-2]\d|0[1-9]|[1-9]| [1-9]]. *)
Definition re_Y : regex := Group "Y" (times 4 digit).
Definition re_m : regex :=
  Group "m" (Alt (Cat (lit "1") (Chr (range "0" "2")))
            (Alt (Cat (lit "0") (Chr (range "1" "9")))
                 (Chr (range "1" "9")))).
Definition re_d : regex :=
  Group "d" (Alt (Cat (lit "3") (Chr (range "0" "1")))
            (Alt (Cat (Chr (range "1" "2")) (Chr digit))
            (Alt (Cat (lit "0") (Chr (range "1" "9")))
            (Alt (Chr (range "1" "9"))
                 (Cat (lit " ") (Chr (range "1" "9"))))))).

Definition month_names : list string :=
  ["jan"; "feb"; "mar"; "apr"; "may"; "jun";
   "jul"; "aug"; "sep"; "oct"; "nov"; "dec"].

(** %b, in the C locale. *)
Definition re_b : regex :=
  Group "b" (fold_right (fun n r => Alt (ilit n) r) (ilit "dec")
               (removelast month_names)).

Fixpoint month_index (names : list string) (b : string) (i : Z) : Z :=
  match names with
  | [] => 0
  | n :: rest =>
      if String.eqb n b then i else month_index rest b (i + 1)
  end.

Fixpoint lower (s : string) : string :=
  match s with
  | EmptyString => EmptyString
  | String c s' => String (Py.lower_chr c) (lower s')
  end.

(** A date as [strptime] accepts it: the whole string must match and the
    day must exist. *)
Definition checked_date (s : string) (r : regex)
    (month_of : Match -> Z) : res (Z * Z * Z) :=
  match match_ r s with
  | None => Raise ValueError
  | Some m =>
      if negb (Nat.eqb (m_end m) (Py.len s)) then Raise ValueError
      else
        let y := to_int (group_text m "Y") in
        let mo := month_of m in
        let d := to_int (group_text m "d") in
        if (1 <=? y) && (1 <=? d) && (d <=? days_in_month y mo)
        then Ok (y, mo, d)
        else Raise ValueError
  end.

(** [datetime.strptime(s, '%Y-%m-%d')] *)
Definition strptime_Y_m_d (s : string) : res (Z * Z * Z) :=
  checked_date s (cat [re_Y; lit "-"; re_m; lit "-"; re_d])
               (fun m => to_int (group_text m "m")).

(** [datetime.strptime(s, '%b %d, %Y')] *)
Definition strptime_b_d_Y (s : string) : res (Z * Z * Z) :=
  checked_date s (cat [re_b; plus space; re_d; lit ","; plus space; re_Y])
               (fun m => month_index month_names (lower (group_text m "b")) 1).

(** [datetime.strptime(s, "%Y%m%d")] *)
Definition strptime_Ymd (s : string) : res (Z * Z * Z) :=
  checked_date s (cat [re_Y; re_m; re_d])
               (fun m => to_int (group_text m "m")).

(** [estimate_10K_fiscal_year]: an integer. *)
Definition estimate_10K_fiscal_year (date_filed : string) : res Z :=
  match strptime_Ymd date_filed with
  | Ok (year, month, _) => if month <=? 5 then Ok (year - 1) else Ok year
  | Raise e => Raise e
  end.

Definition quarter_of (month day : Z) : string :=
  if (month =? 3) && (day >=? 28) then "Q1"
  else if (month =? 6) && (day >=? 28) then "Q2"
  else if (month =? 9) && (day >=? 28) then "Q3"
  else if (month =? 12) && (day >=? 28) then "Q4"
  else if month <=? 4 then "Q1"
  else if month <=? 7 then "Q2"
  else if month <=? 10 then "Q3"
  else "Q4".

(** [determine_QTR_from_date] *)
Definition determine_QTR_from_date (date_str : option string) : string :=
  match date_str with
  | None => "Q1"
  | Some EmptyString => "Q1"
  | Some s =>
      if String.eqb s "None" then "Q1"
      else
        let date_str := Py.strip (Py.replace (String (ascii_of_N 9) EmptyString) ""
                          (Py.replace (String (ascii_of_N 10) EmptyString) "" s)) in
        match strptime_Y_m_d date_str with
        | Ok (_, month, day) => quarter_of month day
        | Raise _ =>
            match strptime_b_d_Y date_str with
            | Ok (_, month, day) => quarter_of month day
            | Raise _ => "Q1"
            end
        end
  end.

(** *** Fiscal metadata *)

(** The six searches of [extract_fiscal_info_from_txt], all under
    IGNORECASE. *)

(** [CONFORMED PERIOD OF REPORT:\s*(\d{8})] *)
Definition re_period_of_report : regex :=
  cat [ilit "CONFORMED PERIOD OF REPORT:"; star space;
       Group "1" (times 8 digit)].

(** [>Document Fiscal Period Focus</a></td>\s*<td class=QtextQ>\s*(Q[1-4])],
    the pattern's two double quotes written Q here. *)
Definition re_fiscal_period : regex :=
  cat [ilit ">Document Fiscal Period Focus</a></td>"; star space;
       ilit "<td class="; Chr (Py.chr_eqb Py.dquote); ilit "text";
       Chr (Py.chr_eqb Py.dquote); lit ">"; star space;
       Group "1" (Cat (Chr (ieq "Q")) (Chr (range "1" "4")))].

(** [>Document Fiscal Year Focus</a></td>\s*<td class=QtextQ>\s*(\d{4})] *)
Definition re_fiscal_year : regex :=
  cat [ilit ">Document Fiscal Year Focus</a></td>"; star space;
       ilit "<td class="; Chr (Py.chr_eqb Py.dquote); ilit "text";
       Chr (Py.chr_eqb Py.dquote); lit ">"; star space;
       Group "1" (times 4 digit)].

(** [CONFORMED SUBMISSION TYPE:\s*(\d+-[A-Za-z]+(?:/[A-Za-z])?)] *)
Definition re_submission_type : regex :=
  cat [ilit "CONFORMED SUBMISSION TYPE:"; star space;
       Group "1" (cat [plus digit; lit "-"; plus alpha;
                       opt (Cat (lit "/") (Chr alpha))])].

(** [COMPANY CONFORMED NAME:\s*(.+)] *)
Definition re_company_name : regex :=
  cat [ilit "COMPANY CONFORMED NAME:"; star space; Group "1" (plus dot)].

(** [FILED AS OF DATE:\s*(\d{8})] *)
Definition re_date_filed : regex :=
  cat [ilit "FILED AS OF DATE:"; star space; Group "1" (times 8 digit)].

(** The dictionary [fiscal_info]; a value [None] is Python's [None]. *)
Definition FiscalInfo : Type := Py.dict (option string).

Definition empty_fiscal_info : FiscalInfo :=
  [("period_end_date", None); ("fiscal_year_end", None);
   ("fiscal_year", None); ("fiscal_period", None);
   ("form_type", None); ("company_name", None)].

(** [d.get(k)]: a missing key reads as [None]. *)
Definition fi_get (d : FiscalInfo) (k : string) : option string :=
  match Py.dict_get d k with
  | Some v => v
  | None => None
  end.

Definition opt_in (o : option string) (l : list string) : bool :=
  match o with
  | Some s => Py.in_list s l
  | None => false
  end.

(** The assignments that follow the six searches. *)
Definition fiscal_info_of_text (content : string) : FiscalInfo :=
  let txt_period_of_report := search re_period_of_report content in
  let txt_fiscal_period := search re_fiscal_period content in
  let txt_fiscal_year := search re_fiscal_year content in
  let txt_submission_type := search re_submission_type content in
  let txt_company_name := search re_company_name content in
  let txt_date_filed := search re_date_filed content in
  let fi0 := empty_fiscal_info in
  let fi1 :=
    match txt_submission_type with
    | Some m => Py.dict_set fi0 "form_type" (Some (Py.upper (group_text m "1")))
    | None => fi0
    end in
  let fi2 :=
    match txt_fiscal_year with
    | Some m => Py.dict_set fi1 "fiscal_year" (Some (group_text m "1"))
    | None => fi1
    end in
  let fi3 :=
    match txt_period_of_report with
    | Some m =>
        let raw_date := group_text m "1" in
        let y := Py.slice_to raw_date 4 in
        let mo := Py.slice raw_date 4 6 in
        let d := Py.slice_from raw_date 6 in
        let a := Py.dict_set fi2 "period_end_date" (Some (y +:+ "-" +:+ mo +:+ "-" +:+ d)) in
        let b := Py.dict_set a "period_end_year" (Some y) in
        let c := if negb (Py.truthy (fi_get b "fiscal_year"))
                 then Py.dict_set b "fiscal_year" (Some y) else b in
        Py.dict_set c "fiscal_year_end" (Some (mo +:+ "-" +:+ d))
    | None => fi2
    end in
  let fi4 :=
    match txt_date_filed with
    | Some m =>
        let raw_date := group_text m "1" in
        let y := Py.slice_to raw_date 4 in
        let a := Py.dict_set fi3 "date_filed_year" (Some y) in
        Py.dict_set a "date_filed"
          (Some (y +:+ "-" +:+ Py.slice raw_date 4 6 +:+ "-" +:+ Py.slice_from raw_date 6))
    | None => fi3
    end in
  let fi5 :=
    match txt_company_name with
    | Some m => Py.dict_set fi4 "company_name" (Some (Py.strip (group_text m "1")))
    | None => fi4
    end in
  if opt_in (fi_get fi5 "form_type") ["10-Q"; "10-Q/A"] then
    match txt_fiscal_period with
    | Some m => Py.dict_set fi5 "fiscal_period" (Some (group_text m "1"))
    | None =>
        if Py.truthy (fi_get fi5 "period_end_date")
        then Py.dict_set fi5 "fiscal_period"
               (Some (determine_QTR_from_date (fi_get fi5 "period_end_date")))
        else fi5
    end
  else if opt_in (fi_get fi5 "form_type") ["10-K"; "10-K/A"] then
    Py.dict_set fi5 "fiscal_period" (Some "FY")
  else fi5.

(** [extract_fiscal_info_from_txt].  Nothing in the [try] block can raise
    once the dictionary is being filled, so the handler always returns it
    as initialised. *)
Definition extract_fiscal_info_from_txt (env : Env) (complete_txt_url : string)
    : M World FiscalInfo :=
  try_except
    (response <- safe_request env complete_txt_url ;;
     raise_for_status response ;;;
     ret (fiscal_info_of_text (text response)))
    is_Exception
    (fun _ => ret empty_fiscal_info).

(** *** File names and folders *)

(** [report_date if report_date and report_date != 'None' and
    report_date is not None else filing_date] *)
Definition pick_date (report_date filing_date : option string) : option string :=
  match report_date with
  | Some s => if Py.truthy report_date && negb (String.eqb s "None")
              then report_date else filing_date
  | None => filing_date
  end.

(** [x.replace(old, new)] on a value that may be [None]. *)
Definition replace_opt (old new : string) (o : option string) : res string :=
  match o with
  | Some s => Ok (Py.replace old new s)
  | None => Raise AttributeError
  end.

Definition backslash : string := String (ascii_of_N 92) EmptyString.

(** [create_filename] *)
Definition create_filename (fiscal_info : FiscalInfo)
    (report_date filing_date : option string) (cik company_name : string)
    : res string :=
  let form := fi_get fiscal_info "form_type" in
  let clean_form :=
    match form with
    | Some (String c t) => Py.replace " " "" (Py.replace "/" "_" (String c t))
    | _ => "UNKNOWN"
    end in
  let company_name :=
    Py.strip (Py.replace backslash "_" (Py.replace "/" "_" company_name)) in
  let finish (clean_date : string) := Ok (clean_date +:+ "_" +:+ company_name) in
  if opt_in form ["10-Q"; "10-Q/A"] then
    if Py.truthy (fi_get fiscal_info "fiscal_year")
       && Py.truthy (fi_get fiscal_info "fiscal_period")
    then
      match dict_item fiscal_info "fiscal_year", dict_item fiscal_info "fiscal_period" with
      | Ok fy, Ok fp =>
          finish (Py.replace "/" "_" (Py.fmt fy +:+ "_" +:+ clean_form +:+ "_" +:+ Py.fmt fp))
      | Raise e, _ => Raise e
      | _, Raise e => Raise e
      end
    else
      match replace_opt "-" "" (pick_date report_date filing_date) with
      | Ok clean_date => finish (Py.replace "/" "_" clean_date)
      | Raise e => Raise e
      end
  else if opt_in form ["10-K"; "10-K/A"] then
    if Py.truthy (fi_get fiscal_info "fiscal_year") then
      match replace_opt "-" "" (fi_get fiscal_info "fiscal_year") with
      | Ok clean_date => finish (Py.replace "/" "_" clean_date +:+ "_" +:+ clean_form)
      | Raise e => Raise e
      end
    else
      match replace_opt "-" "" (pick_date report_date filing_date) with
      | Ok filename_date =>
          match estimate_10K_fiscal_year filename_date with
          | Ok _ => Raise AttributeError (* [.replace] on an integer *)
          | Raise e => Raise e
          end
      | Raise e => Raise e
      end
  else
    match replace_opt "-" "" (pick_date report_date filing_date) with
    | Ok clean_date => finish (Py.replace "/" "_" clean_date)
    | Raise e => Raise e
    end.

Definition path_join (dir name : string) : string := dir +:+ "/" +:+ name.

Fixpoint join (sep : string) (parts : list string) : string :=
  match parts with
  | [] => EmptyString
  | [x] => x
  | x :: rest => x +:+ sep +:+ join sep rest
  end.

(** [path.parent]: the path without its last component. *)
Definition parent (path : string) : string :=
  join "/" (removelast (Py.split "/" path)).

(** [create_folder_path]: the two folders depend on the CIK only; the
    form type the method normalises does not enter them. *)
Definition create_folder_path (env : Env) (cik : string) : string * string :=
  (path_join (base_dir env) cik, path_join (target_dir env) cik).

(** [url.split('.')[-1]] *)
Definition extension (url : string) : string :=
  match Py.index_neg (Py.split "." url) 1 with
  | Some e => e
  | None => EmptyString
  end.

(** *** Downloading one filing *)

(** The dictionary returned by [download_filing]. *)
Record Results : Type := mkResults {
  filing_record : Filing;
  downloaded_files : list string;
  failed_files : list string;
  skipped : bool
}.

(** The variables that the [try] blocks of [download_filing] update in
    place, next to the world; an update made before an exception is
    raised stays. *)
Record Frame : Type := mkFrame {
  world : World;
  downloaded : list string;
  failed : list string;
  has_xbrl_format : Z
}.

Definition liftW {A} (m : M World A) : M Frame A :=
  fun fr =>
    let '(r, w') := m (world fr) in
    (r, mkFrame w' (downloaded fr) (failed fr) (has_xbrl_format fr)).

(** Runs [m] with fresh variables and hands them back with its value. *)
Definition run_frame {A} (m : M Frame A) : M World (A * Frame) :=
  fun w =>
    match m (mkFrame w [] [] 0) with
    | (Ok a, fr) => (Ok (a, fr), world fr)
    | (Raise e, fr) => (Raise e, world fr)
    end.

Definition append_downloaded (path : string) : M Frame unit :=
  modify (fun fr => mkFrame (world fr) (downloaded fr ++ [path]) (failed fr)
                            (has_xbrl_format fr)).

Definition append_failed (what : string) : M Frame unit :=
  modify (fun fr => mkFrame (world fr) (downloaded fr) (failed fr ++ [what])
                            (has_xbrl_format fr)).

Definition set_has_xbrl_format : M Frame unit :=
  modify (fun fr => mkFrame (world fr) (downloaded fr) (failed fr) 1).

(** [path.mkdir(parents=True, exist_ok=True)] *)
Definition mkdir (env : Env) (path : string) : M World unit :=
  fun w =>
    if mkdir_fails env (clock w) path
    then (Raise OSError, emit (EvMkdir path false) w)
    else (Ok tt, emit (EvMkdir path true) w).

(** [with open(path, 'wb') as f: f.write(...)]; the bytes written are
    not part of the model. *)
Definition write_file (env : Env) (path : string) : M World unit :=
  fun w =>
    if write_fails env (clock w) path
    then (Raise OSError, emit (EvWrite path false) w)
    else (Ok tt, emit (EvWrite path true) w).

(** [sum(Path(f).stat().st_size for f in dir.iterdir())] *)
Definition directory_size (env : Env) (dir : string) : M World Z :=
  fun w =>
    match dir_size env (clock w) dir with
    | Some n => (Ok n, emit (EvDirSize dir) w)
    | None => (Raise OSError, emit (EvDirSize dir) w)
    end.

(** What the three download blocks do once the path is known: make the
    folder, fetch, and on status 200 write and record the file. *)
Definition fetch_to (env : Env) (url path : string) : M Frame unit :=
  liftW (mkdir env (parent path)) ;;;
  resp <- liftW (safe_request env url) ;;
  if status_code resp =? 200 then
    liftW (write_file env path) ;;;
    append_downloaded path
  else ret tt.

(** The body of the loop over [urls.items()] of an HTML bundle. *)
Definition html_step (env : Env) (form_type file_name target_dir target_dir2 : string)
    (item : string * string) : M Frame unit :=
  let '(key, url) := item in
  if String.eqb key form_type then
    fetch_to env url
      (path_join target_dir2 (file_name +:+ "_main." +:+ extension url))
  else if Py.contains "xbrl" key then
    set_has_xbrl_format ;;;
    fetch_to env url
      (path_join target_dir
         (file_name +:+ "_" +:+ Py.replace "/" "_" key +:+ "." +:+ extension url))
  else if Py.contains "EX" (Py.upper key) then
    fetch_to env url
      (path_join target_dir2
         (file_name +:+ "_" +:+ Py.replace "/" "_" key +:+ "." +:+ extension url))
  else ret tt.

(** The submission text and the spreadsheet: the request comes before
    the folder is made. *)
Definition fetch_then_mkdir (env : Env) (urls : Py.dict string)
    (key path : string) : M Frame unit :=
  url <- lift_res (dict_item urls key) ;;
  resp <- liftW (safe_request env url) ;;
  liftW (mkdir env (parent path)) ;;;
  if status_code resp =? 200 then
    liftW (write_file env path) ;;;
    append_downloaded path
  else ret tt.

Definition primary_forms : list string := ["10-K"; "10-Q"; "10-K/A"; "10-Q/A"].

Definition download_documents (env : Env)
    (form_type file_name target_dir target_dir2 : string)
    (urls : Py.dict string) : M Frame unit :=
  (if existsb (Py.dict_mem urls) primary_forms then
     try_except
       (for_each urls (html_step env form_type file_name target_dir target_dir2))
       is_Exception (fun _ => append_failed "html")
   else
     try_except
       (fetch_then_mkdir env urls "complete_txt"
          (path_join target_dir2 (file_name +:+ "_full_submission.txt")))
       is_Exception (fun _ => append_failed "txt")) ;;;
  try_except
    (fetch_then_mkdir env urls "financial_report_xlsx"
       (path_join target_dir (file_name +:+ "_financial_report.xlsx")))
    is_Exception (fun _ => append_failed "xlsx").

(** [d.get(k, default)] *)
Definition fi_get_default (d : FiscalInfo) (k : string) (default : string)
    : option string :=
  match Py.dict_get d k with
  | Some v => v
  | None => Some default
  end.

(** The last block: the record is built and added when, and only when,
    the list of downloaded files is not empty. *)
Definition commit (env : Env) (filling : Filing) (fiscal_info : FiscalInfo)
    (company_name ticker file_name target_dir2 : string) (fr : Frame)
    : M World (option Results) :=
  let cik := SECDailyIndexDownloader.cik filling in
  let accession_number := SECDailyIndexDownloader.accession_number filling in
  let results := mkResults filling (downloaded fr) (failed fr) false in
  match downloaded fr with
  | [] => ret (Some results)
  | _ :: _ =>
      total_size <- directory_size env target_dir2 ;;
      let filing_data :=
        Database.mkFilingData
          (Database.make_filing_id cik accession_number)
          (Some cik) (Some accession_number)
          (Some (SECDailyIndexDownloader.form_type filling))
          (Some company_name) (Some ticker)
          (fi_get fiscal_info "fiscal_year")
          (fi_get fiscal_info "fiscal_period")
          (fi_get_default fiscal_info "date_filed"
             (SECDailyIndexDownloader.date_filed filling))
          (fi_get_default fiscal_info "period_end_date"
             (SECDailyIndexDownloader.date_filed filling))
          (Some target_dir2)
          (Z.of_nat (length (downloaded fr)))
          total_size in
      Database.add_filing env filing_data ;;;
      ret (Some results)
  end.

(** [download_filing]; [Ok None] is the function returning [None]. *)
Definition download_filing (env : Env) (filling : Filing)
    : M World (option Results) :=
  let cik := SECDailyIndexDownloader.cik filling in
  let form_type := SECDailyIndexDownloader.form_type filling in
  let accession_number := SECDailyIndexDownloader.accession_number filling in
  already <- Database.is_filing_downloaded cik accession_number ;;
  if (already : bool) then ret (Some (mkResults filling [] [] true))
  else
    let ticker := get_tikcer_by_cik env cik in
    urls_opt <- required_urls env (SECDailyIndexDownloader.file_name filling) ;;
    match urls_opt with
    | None | Some [] => ret None
    | Some urls =>
        complete_txt <- lift_res (dict_item urls "complete_txt") ;;
        fiscal_info <- extract_fiscal_info_from_txt env complete_txt ;;
        name <- lift_res (dict_item fiscal_info "company_name") ;;
        let company_name :=
          if Py.truthy name then Py.fmt name
          else SECDailyIndexDownloader.company_name filling in
        fiscal_year <- lift_res (dict_item fiscal_info "fiscal_year") ;;
        fiscal_period <- lift_res (dict_item fiscal_info "fiscal_period") ;;
        period_end_year <- lift_res (dict_item fiscal_info "period_end_year") ;;
        date_filed_year <- lift_res (dict_item fiscal_info "date_filed_year") ;;
        file_name <- lift_res (create_filename fiscal_info period_end_year
                                 date_filed_year cik company_name) ;;
        let '(target_dir, target_dir2) := create_folder_path env cik in
        done <- run_frame (download_documents env form_type file_name
                             target_dir target_dir2 urls) ;;
        commit env filling fiscal_info company_name ticker file_name
               target_dir2 (snd done)
    end.

End EDGARDownloader.

(** ** utils/index_parser.py, the second copy

    The repository holds a second copy of the parser, next to a second
    copy of the driver.  Its loop over the Data Files rows stores every
    row that matches, whatever the link ends with. *)

Module IndexParserCopy.

Import Re.

(** [str(count)] *)
Definition str_of_count (count : nat) : string :=
  NilEmpty.string_of_uint (Nat.to_uint count).

(** The renaming of empty and repeated descriptions.  The source
    compares the builtin [type], never equal to a string, where it means
    [file_type]: an empty description always takes the file type. *)
Definition rename (doc_format_files : Py.dict IndexParser.Entry)
    (description file_type : string) (count : nat) : string * nat :=
  if String.eqb description EmptyString then (file_type, count)
  else if Py.dict_mem doc_format_files description
       then (str_of_count count, S count)
       else (description, count).

(** The loop body over the Document Format Files rows. *)
Definition add_doc_row (st : Py.dict IndexParser.Entry * nat) (row : string)
    : Py.dict IndexParser.Entry * nat :=
  let '(doc_format_files, count) := st in
  match search IndexParser.cells_re row with
  | Some m =>
      let description :=
        IndexParser.strip_html_tags (Py.strip (Re.group_text m "1")) in
      let file_type :=
        IndexParser.strip_html_tags (Py.strip (Re.group_text m "3")) in
      let raw_href := Py.strip (Re.group_text m "2") in
      let '(description, count) :=
        rename doc_format_files description file_type count in
      let href := IndexParser.normalize_href raw_href in
      if Py.endswith_any IndexParser.kept_suffixes href
      then (Py.dict_set doc_format_files description
              (IndexParser.mkEntry file_type href), count)
      else (doc_format_files, count)
  | None => st
  end.

(** The loop body over the Data Files rows. *)
Definition add_data_row (doc_format_files : Py.dict IndexParser.Entry)
    (st : Py.dict IndexParser.Entry * nat) (row : string)
    : Py.dict IndexParser.Entry * nat :=
  let '(data_files, count) := st in
  match search IndexParser.cells_re row with
  | Some m =>
      let description :=
        IndexParser.strip_html_tags (Py.strip (Re.group_text m "1")) in
      let file_type :=
        IndexParser.strip_html_tags (Py.strip (Re.group_text m "3")) in
      let raw_href := Py.strip (Re.group_text m "2") in
      let '(description, count) :=
        rename doc_format_files description file_type count in
      let href := IndexParser.normalize_href raw_href in
      (Py.dict_set data_files description
         (IndexParser.mkEntry file_type href), count)
  | None => st
  end.

Definition extract_sec_filing_data (html_content : string)
    : IndexParser.FilingIndex :=
  let rows := findall IndexParser.row_re (IndexParser.doc_section html_content) in
  let '(doc_format_files, count) := fold_left add_doc_row rows ([], O) in
  let rows2 := findall IndexParser.row_re (IndexParser.data_section html_content) in
  let '(data_files, _) :=
    fold_left (add_data_row doc_format_files) rows2 ([], count) in
  IndexParser.mkFilingIndex doc_format_files data_files.

End IndexParserCopy.

(** ** Concrete inputs *)

Module Samples.

Definition q : string := String (ascii_of_N 34) EmptyString.
Definition nl : string := String (ascii_of_N 10) EmptyString.

(** A world with an empty table and no history. *)
Definition w0 : World := mkWorld ∅ [].

(** An outside whose server answers by URL alone, whose disk and
    storage never fail, whose folders are empty and whose clock stands
    still. *)
Definition env_of (server : string -> Fetch) : Env :=
  mkEnv (fun _ url => server url) (fun _ _ => false) (fun _ _ => false)
        (fun _ _ => Some 0) (fun _ => false)
        (fun _ => "2023-11-03 12:00:00") (fun _ => "2023-11-03T12:00:00")
        999 [] "sec-xbrl" "sec-data".

Definition status_only (code : Z) : Fetch := Resp (mkResponse code "").

Definition page (content : string) : Fetch := Resp (mkResponse 200 content).

Definition apple_10k : SECDailyIndexDownloader.Filing :=
  SECDailyIndexDownloader.mkFiling "APPLE INC" "10-K" "0000320193" "20231103"
    "https://www.sec.gov/Archives/edgar/data/320193/0000320193-23-000106.txt"
    "0000320193-23-000106".

Definition apple_record : Database.FilingData :=
  Database.mkFilingData "0000320193_0000320193-23-000106"
    (Some "0000320193") (Some "0000320193-23-000106") (Some "10-K")
    (Some "APPLE INC") (Some "AAPL") (Some "2023") (Some "FY")
    (Some "2023-11-03") (Some "2023-09-30") (Some "sec-data/0000320193")
    2 4096.

(** A per-day index file: header, separator, then a 10-K line, an 8-K
    line and a line that does not follow the layout. *)
Definition header_lines : list string :=
  ["Description:           Daily Index of EDGAR Dissemination Feed by Form Type";
   "Last Data Received:    Nov 3, 2023";
   " ";
   "Form Type   Company Name                    CIK         Date Filed  File Name"].

Definition separator : string :=
  "--------------------------------------------------------------------------------".

Definition line_10k : string :=
  "10-K        APPLE INC                       320193      20231103    edgar/data/320193/0000320193-23-000106.txt".

Definition line_8k : string :=
  "8-K         MICROSOFT CORP                  789019      20231103    edgar/data/789019/0000950170-23-058993.txt".

Definition line_malformed : string :=
  "10-Q        BROKEN LINE WITHOUT THE NUMERIC COLUMNS".

Definition unlines (lines : list string) : string :=
  fold_right (fun line rest => line +:+ nl +:+ rest) EmptyString lines.

Definition daily_index : string :=
  unlines (header_lines ++ [separator; line_10k; line_8k; line_malformed]).

Definition daily_index_without_separator : string :=
  "Form Type   Company Name                    CIK         Date Filed  File Name" +:+ nl +:+
  "10-K        APPLE INC                       320193      20231103    edgar/data/320193/0000320193-23-000106.txt" +:+ nl.

(** The head of a submission text of a quarterly report. *)
Definition submission_10q : string :=
  "<SEC-DOCUMENT>0000320193-23-000064.txt : 20230505" +:+ nl +:+
  "ACCESSION NUMBER:		0000320193-23-000064" +:+ nl +:+
  "CONFORMED SUBMISSION TYPE:	10-Q" +:+ nl +:+
  "PUBLIC DOCUMENT COUNT:		53" +:+ nl +:+
  "CONFORMED PERIOD OF REPORT:	20230331" +:+ nl.

(** A submission text without any of the header fields. *)
Definition submission_without_header : string :=
  "<SEC-DOCUMENT>0000320193-23-000106.txt" +:+ nl +:+ "<TYPE>10-K" +:+ nl.

Definition cell (content : string) : string :=
  "<td scope=" +:+ q +:+ "row" +:+ q +:+ ">" +:+ content +:+ "</td>" +:+ nl.

Definition link (href name : string) : string :=
  "<a href=" +:+ q +:+ href +:+ q +:+ ">" +:+ name +:+ "</a>".

Definition table_row (seq description href name type : string) : string :=
  "<tr>" +:+ nl +:+ cell seq +:+ cell description +:+
  cell (link href name) +:+ cell type +:+ cell "1024" +:+ "</tr>" +:+ nl.

Definition xsd_row : string :=
  table_row "4" "XBRL TAXONOMY EXTENSION SCHEMA"
    "/Archives/edgar/data/320193/000032019323000106/aapl-20230930.xsd"
    "aapl-20230930.xsd" "EX-101.SCH".

(** A filing index page: a primary document, the complete submission
    text and a schema in the first table, a schema in the second. *)
Definition index_page : string :=
  "<div id=" +:+ q +:+ "formDiv" +:+ q +:+ ">" +:+ nl +:+
  "<p>Document Format Files</p>" +:+ nl +:+ "<table>" +:+ nl +:+
  table_row "1" "10-K"
    "/ix?doc=/Archives/edgar/data/320193/000032019323000106/aapl-20230930.htm"
    "aapl-20230930.htm" "10-K" +:+
  table_row "2" "XBRL TAXONOMY EXTENSION SCHEMA"
    "/Archives/edgar/data/320193/000032019323000106/aapl-20230930.xsd"
    "aapl-20230930.xsd" "EX-101.SCH" +:+
  table_row "&nbsp;" "Complete submission text file"
    "/Archives/edgar/data/320193/000032019323000106/0000320193-23-000106.txt"
    "0000320193-23-000106.txt" "&nbsp;" +:+
  "</table>" +:+ nl +:+ "</div>" +:+ nl +:+
  "<p>Data Files</p>" +:+ nl +:+ "<table>" +:+ nl +:+
  xsd_row +:+
  "</table>" +:+ nl +:+ "<!-- END DOCUMENT DIV -->" +:+ nl.

Definition index_url : string :=
  "https://www.sec.gov/Archives/edgar/data/320193/0000320193-23-000106-index.htm".

(** A server whose every page is a submission text without header
    fields. *)
Definition headerless_server (url : string) : Fetch :=
  page submission_without_header.

(** The head of the submission text of an annual report. *)
Definition submission_10k : string :=
  "<SEC-DOCUMENT>0000320193-23-000106.txt : 20231103" +:+ nl +:+
  "ACCESSION NUMBER:		0000320193-23-000106" +:+ nl +:+
  "CONFORMED SUBMISSION TYPE:	10-K" +:+ nl +:+
  "CONFORMED PERIOD OF REPORT:	20230930" +:+ nl +:+
  "FILED AS OF DATE:		20231103" +:+ nl +:+
  "		COMPANY CONFORMED NAME:			Apple Inc." +:+ nl.

(** A server with the index page, every other URL answering with the
    submission text. *)
Definition archive_server (url : string) : Fetch :=
  if String.eqb url index_url then page index_page else page submission_10k.

(** The same archive, which stops serving after the index page and the
    submission text have been read once: every document fetch fails. *)
Definition env_documents_fail : Env :=
  mkEnv (fun n url => if (n <? 2)%nat then archive_server url else status_only 404)
        (fun _ _ => false) (fun _ _ => false)
        (fun _ _ => Some 0) (fun _ => false)
        (fun _ => "2023-11-03 12:00:00") (fun _ => "2023-11-03T12:00:00")
        999 [] "sec-xbrl" "sec-data".

End Samples.

(** ** Invariants used in the proofs *)

(** What the loops of [required_urls] keep true of the map and the flag:
    no key is ever removed, and the flag is raised only with
    [complete_txt] in the map. *)
Definition urls_inv (k : string) (st : Py.dict string * bool) : Prop :=
  Py.dict_mem (fst st) k = true
  /\ (snd st = true -> Py.dict_mem (fst st) "complete_txt" = true).

(** The files written so far, most recent first. *)
Fixpoint written_paths (t : list Event) : list string :=
  match t with
  | [] => []
  | EvWrite path true :: t' => path :: written_paths t'
  | _ :: t' => written_paths t'
  end.

Definition writes (w : World) : list string := written_paths (trace w).

(** [m], started in a state that satisfies [P], ends in a state and with
    a result that satisfy [Q]. *)
Definition hoare {S A} (P : S -> Prop) (m : M S A) (Q : res A -> S -> Prop)
    : Prop :=
  forall s, P s -> Q (fst (m s)) (snd (m s)).

(** A computation that keeps an invariant, whatever its result. *)
Definition keeps {S A} (I : S -> Prop) (m : M S A) : Prop :=
  hoare I m (fun _ s => I s).

(** Nothing was stored, added or written since [w0]. *)
Definition same_store (w0 w : World) : Prop :=
  table w = table w0 /\ adds w = adds w0 /\ writes w = writes w0.

(** Inside the download blocks: the store is as in [w0], and the files
    written since [w0] are exactly the ones listed as downloaded. *)
Definition frame_inv (w0 : World) (fr : EDGARDownloader.Frame) : Prop :=
  table (EDGARDownloader.world fr) = table w0
  /\ adds (EDGARDownloader.world fr) = adds w0
  /\ writes (EDGARDownloader.world fr)
     = List.rev (EDGARDownloader.downloaded fr) ++ writes w0.

(** What a call of [download_filing] started in [w] may end with: either
    nothing was added to the store, and a returned result, if any, lists
    no file and no file was written; or a result listing the files written
    during the call was returned after one call of [add_filing]. *)
Definition download_post (w : World)
    (r : res (option EDGARDownloader.Results)) (s : World) : Prop :=
  (table s = table w /\ adds s = adds w
   /\ forall results, r = Ok (Some results) ->
        EDGARDownloader.downloaded_files results = [] /\ writes s = writes w)
  \/ (exists results id ok,
        r = Ok (Some results)
        /\ EDGARDownloader.downloaded_files results <> []
        /\ EDGARDownloader.skipped results = false
        /\ writes s = List.rev (EDGARDownloader.downloaded_files results) ++ writes w
        /\ adds s = EvAdd id ok :: adds w).

(** From the moment [t0] on no request is answered with status 200:
    every fetch fails, with another status, a timeout or an exception. *)
Definition fetches_fail_from (env : Env) (t0 : nat) : Prop :=
  forall t url r,
    (t0 <= t)%nat -> http_get env t url = Resp r -> status_code r <> 200.

(** Inside the download blocks when every fetch fails: the moment [t0]
    is past and no file is listed as downloaded. *)
Definition failing_inv (t0 : nat) (fr : EDGARDownloader.Frame) : Prop :=
  (t0 <= clock (EDGARDownloader.world fr))%nat
  /\ EDGARDownloader.downloaded fr = [].

(** ** utils/sec_database.py, the other queries *)

Module DatabaseQueries.

(** Both batch checks build [WHERE filing_id IN (?,?,...)] with one
    parameter per id of the list, repetitions included, and pass the whole
    list at once; SQLite refuses a statement with more parameters than it
    accepts, and [sqlite3] raises [OperationalError], which neither
    method catches. *)
Definition too_many_variables (env : Env) (ids : list string) : bool :=
  (Pos.to_nat (max_variable_number env) <? length ids)%nat.

(** [batch_check_downloaded] *)
Definition batch_check_downloaded (env : Env) (filing_ids : list string)
    : M World (gset string) :=
  fun w =>
    match filing_ids with
    | [] => (Ok ∅, w)
    | _ :: _ =>
        if too_many_variables env filing_ids then (Raise OperationalError, w)
        else
          (Ok (list_to_set
                 (List.filter (fun id => bool_decide (is_Some (table w !! id)))
                              filing_ids)), w)
    end.

(** [self._cache_size_limit] *)
Definition cache_size_limit : nat := Z.to_nat 10000.

(** The first loop of [are_filings_downloaded_batch]: cached answers go to
    the results, the other ids are kept for the query. *)
Definition split_cached (cache : gmap string bool) (filing_ids : list string)
    : gmap string bool * list string :=
  fold_left
    (fun (st : gmap string bool * list string) id =>
       match cache !! id with
       | Some b => (<[id := b]> (fst st), snd st)
       | None => (fst st, snd st ++ [id])
       end)
    filing_ids (∅, []).

(** One turn of the second loop: the answer of the query is recorded, and
    cached when the cache has room. *)
Definition record_uncached (w : World)
    (st : gmap string bool * gmap string bool) (filing_id : string)
    : gmap string bool * gmap string bool :=
  let is_downloaded := bool_decide (is_Some (table w !! filing_id)) in
  (<[filing_id := is_downloaded]> (fst st),
   if (size (snd st) <? cache_size_limit)%nat
   then <[filing_id := is_downloaded]> (snd st)
   else snd st).

(** [are_filings_downloaded_batch]: the results, or the exception of
    the query, and the cache afterwards.  The cache is the field
    [_downloaded_cache] of the database object; the query runs before the
    second loop, so a refused query leaves the cache as it was. *)
Definition are_filings_downloaded_batch (env : Env)
    (cache : gmap string bool) (filing_ids : list string) (w : World)
    : res (gmap string bool) * gmap string bool :=
  match filing_ids with
  | [] => (Ok ∅, cache)
  | _ :: _ =>
      let '(results, uncached_ids) := split_cached cache filing_ids in
      match uncached_ids with
      | [] => (Ok results, cache)
      | _ :: _ =>
          if too_many_variables env uncached_ids
          then (Raise OperationalError, cache)
          else
            let st := fold_left (record_uncached w) uncached_ids
                                (results, cache) in
            (Ok (fst st), snd st)
      end
  end.

(** [get_fiscal_info]: the four columns of a recorded filing, when its
    fiscal year and period are set and its form type starts with [10-];
    [None] is the method returning [None]. *)
Definition get_fiscal_info (cik accession_number : string)
    : M World (option (string * string * string * option string)) :=
  fun w =>
    (Ok match table w !! Database.make_filing_id cik accession_number with
        | Some row =>
            if Py.truthy (row_fiscal_year row)
               && Py.truthy (row_fiscal_period row)
               && Py.startswith "10-" (row_form_type row)
            then Some (Py.fmt (row_fiscal_year row), Py.fmt (row_fiscal_period row),
                       row_form_type row, row_ticker row)
            else None
        | None => None
        end, w).

(** The dictionary returned by [get_stats]. *)
Record Stats : Type := mkStats {
  total_filings : nat;
  unique_companies : nat;
  years_covered : nat;
  form_types : gmap string nat
}.

Definition rows (w : World) : list Row := (map_to_list (table w)).*2.

(** GROUP BY form_type with COUNT, one row at a time. *)
Definition count_form (counts : gmap string nat) (row : Row) : gmap string nat :=
  <[row_form_type row := S (default O (counts !! row_form_type row))]> counts.

(** [get_stats]; COUNT(DISTINCT fiscal_year) leaves NULL out. *)
Definition get_stats : M World Stats :=
  fun w =>
    (Ok (mkStats
           (length (rows w))
           (size (list_to_set (row_cik <$> rows w) : gset string))
           (size (list_to_set (omap row_fiscal_year (rows w)) : gset string))
           (fold_left count_form (rows w) ∅)), w).

(** The sum of the counts of a breakdown. *)
Definition total_count (counts : gmap string nat) : nat :=
  map_fold (fun _ n acc => (n + acc)%nat) O counts.

(** A cache that agrees with the table. *)
Definition cache_consistent (cache : gmap string bool) (w : World) : Prop :=
  forall id b, cache !! id = Some b -> b = bool_decide (is_Some (table w !! id)).

End DatabaseQueries.

(** ** daily_downloader_inspect.py, the drivers

    [get_idx_link] reads the same in both copies of the file.
    [pure_parse_daily_index] and [download_year_range] are those of the
    copy whose driver takes the dictionary that [download_filing] returns.
    The anchors that BeautifulSoup finds in a page are a parameter:
    [anchors page] lists the [href] attributes of the [a] elements of
    [page], in document order. *)

Module DailyIndexDriver.

Import Re.

(** [for x in xs: acc = body acc x], stopping at the first exception. *)
Fixpoint for_fold {S A B} (xs : list A) (acc : B) (body : B -> A -> M S B)
    : M S B :=
  match xs with
  | [] => ret acc
  | x :: xs' => bind (body acc x) (fun acc' => for_fold xs' acc' body)
  end.

Definition base_url : string := "https://www.sec.gov/Archives/edgar/daily-index".

(** [f"{n}"] for an integer. *)
Definition str_of_int (n : Z) : string := NilZero.string_of_int (Z.to_int n).

(** [^form\.\d+\.idx$] *)
Definition form_pattern : regex :=
  cat [Bol; lit "form."; plus digit; lit ".idx"; Eol].

(** [f"{self.base_url}/{year}/QTR{quarter}/"] *)
Definition quarter_url (year quarter : Z) : string :=
  base_url +:+ "/" +:+ str_of_int year +:+ "/QTR" +:+ str_of_int quarter +:+ "/".

Definition matches_form_pattern (href : string) : bool :=
  match match_ form_pattern href with
  | Some _ => true
  | None => false
  end.

(** [get_idx_link] *)
Definition get_idx_link (anchors : string -> list string) (env : Env)
    (year quarter : Z) : M World (list string) :=
  let url := quarter_url year quarter in
  try_except
    (bind (safe_request env url) (fun response =>
     bind (raise_for_status response) (fun _ =>
     ret (map (fun href => url +:+ href)
              (List.filter matches_form_pattern (anchors (text response)))))))
    is_RequestException
    (fun _ => ret []).

(** The counters of a run. *)
Record Stats : Type := mkStats {
  downloaded : Z;
  skipped : Z;
  failed : Z;
  errors : Z;
  total_found : Z
}.

Definition zero_stats : Stats := mkStats 0 0 0 0 0.

(** [idx_url.split('/')[-1].split(".")[1]], the day shown in the log. *)
Definition idx_label (idx_url : string) : res string :=
  match Py.index_neg (Py.split "/" idx_url) 1 with
  | Some last => or_raise (nth_error (Py.split "." last) 1) IndexError
  | None => Raise IndexError
  end.

(** The body of the loop over the filings of one index file. *)
Definition process_filing (env : Env) (idx_url : string) (stats : Stats)
    (filing : SECDailyIndexDownloader.Filing) : M World Stats :=
  let stats := mkStats (downloaded stats) (skipped stats) (failed stats)
                       (errors stats) (total_found stats + 1) in
  bind (lift_res (idx_label idx_url)) (fun _ =>
  bind (Database.is_filing_downloaded (SECDailyIndexDownloader.cik filing)
          (SECDailyIndexDownloader.accession_number filing)) (fun already =>
  if (already : bool) then
    ret (mkStats (downloaded stats) (skipped stats + 1) (failed stats)
                 (errors stats) (total_found stats))
  else
    bind (EDGARDownloader.download_filing env filing) (fun result =>
    match result with
    | Some results =>
        match EDGARDownloader.downloaded_files results with
        | _ :: _ =>
            ret (mkStats (downloaded stats + 1) (skipped stats) (failed stats)
                         (errors stats) (total_found stats))
        | [] =>
            ret (mkStats (downloaded stats) (skipped stats) (failed stats + 1)
                         (errors stats) (total_found stats))
        end
    | None =>
        ret (mkStats (downloaded stats) (skipped stats) (failed stats + 1)
                     (errors stats) (total_found stats))
    end))).

(** The body of the loop over the index files. *)
Definition process_index (env : Env) (stats : Stats) (idx_url : string)
    : M World Stats :=
  bind (SECDailyIndexDownloader.pure_parse_daily_single_index env idx_url)
    (fun filings =>
  bind (lift_res (idx_label idx_url)) (fun _ =>
  for_fold filings stats (process_filing env idx_url))).

(** [pure_parse_daily_index] *)
Definition pure_parse_daily_index (env : Env) (all_idx_url : list string)
    : M World Stats :=
  for_fold all_idx_url zero_stats (process_index env).

(** [for key in a: a[key] += b[key]] *)
Definition add_stats (a b : Stats) : Stats :=
  mkStats (downloaded a + downloaded b) (skipped a + skipped b)
          (failed a + failed b) (errors a + errors b)
          (total_found a + total_found b).

(** The quarters that [download_year_range] passes over. *)
Definition skipped_quarter (year quarter : Z) : bool :=
  ((year =? 1994) && ((quarter =? 1) || (quarter =? 2)))
  || ((year =? 2025) && (quarter =? 4)).

(** The body of the loop over the quarters of a year. *)
Definition process_quarter (anchors : string -> list string) (env : Env)
    (year : Z) (year_stats : Stats) (quarter : Z) : M World Stats :=
  if skipped_quarter year quarter then ret year_stats
  else
    bind (get_idx_link anchors env year quarter) (fun idx_links =>
    match idx_links with
    | [] => ret year_stats
    | _ :: _ =>
        bind (pure_parse_daily_index env idx_links) (fun quarter_stats =>
        ret (add_stats year_stats quarter_stats))
    end).

(** The body of the loop over the years. *)
Definition process_year (anchors : string -> list string) (env : Env)
    (overall_stats : Stats) (year : Z) : M World Stats :=
  bind (for_fold [1; 2; 3; 4] zero_stats (process_quarter anchors env year))
    (fun year_stats => ret (add_stats overall_stats year_stats)).

(** [range(lo, hi)] *)
Definition range (lo hi : Z) : list Z :=
  map (fun i => lo + Z.of_nat i) (seq 0 (Z.to_nat (hi - lo))).

(** [download_year_range] *)
Definition download_year_range (anchors : string -> list string) (env : Env)
    (start_year end_year : Z) : M World Stats :=
  for_fold (range start_year (end_year + 1)) zero_stats
           (process_year anchors env).

(** The counters add up. *)
Definition balanced (stats : Stats) : Prop :=
  total_found stats = downloaded stats + skipped stats + failed stats
  /\ errors stats = 0
  /\ 0 <= downloaded stats /\ 0 <= skipped stats /\ 0 <= failed stats.

End DailyIndexDriver.

(** What a run returns, when it returns, satisfies [J]. *)
Definition returns {S A} (m : M S A) (J : A -> Prop) : Prop :=
  hoare (fun _ => True) m
        (fun r _ => match r with Ok a => J a | Raise _ => True end).

(** Every record of [w0] is still in the table, unchanged. *)
Definition records_kept (w0 w : World) : Prop := table w0 ⊆ table w.

(** What a call of [download_filing] for the filing [id], started in [w],
    leaves: the records of [w], and at most one more call of
    [add_filing], for [id], after whose success [id] is recorded. *)
Definition recorded_post (w : World) (id : string)
    (r : res (option EDGARDownloader.Results)) (s : World) : Prop :=
  table w ⊆ table s
  /\ (adds s = adds w
      \/ exists ok, adds s = EvAdd id ok :: adds w
                    /\ (ok = true -> is_Some (table s !! id))).

(** A quarter whose listing links one daily index, the sample one. *)
Module DriverSamples.

Definition anchors (page : string) : list string :=
  ["../"; "form.20231103.idx"; "master.20231103.idx"].

Definition server (url : string) : Fetch :=
  if Py.endswith "form.20231103.idx" url then Samples.page Samples.daily_index
  else if Py.endswith "/" url then Samples.page "listing"
  else Samples.archive_server url.

Definition env : Env := Samples.env_of server.

End DriverSamples.

(** * Properties *)

(** ** FilingStore *)

Lemma lookup_after_add (env : Env) (d : Database.FilingData) (w : World) :
  fst (Database.add_filing env d w) = Ok true ->
  is_Some (table (snd (Database.add_filing env d w)) !! Database.filing_id d).
Proof.
  unfold Database.add_filing.
  destruct (db_fails env (clock w));
    destruct (Database.row_of d (current_timestamp env (clock w))
                (now_isoformat env (clock w))) as [row|];
    simpl; intros H; try discriminate.
  rewrite lookup_insert_eq. by eexists.
Qed.

Lemma absent_after_delete (cik acc : string) (w : World) :
  fst (Database.is_filing_downloaded cik acc
         (snd (Database.delete_filing_record cik acc w))) = Ok false.
Proof.
  unfold Database.is_filing_downloaded, Database.delete_filing_record; simpl.
  rewrite lookup_delete_eq.
  rewrite bool_decide_eq_false_2; [reflexivity|].
  intros [x Hx]; discriminate.
Qed.

(** C3. Right after a successful [add_filing] of a record whose
    [filing_id] is [cik_accession], [is_filing_downloaded cik accession]
    answers true; right after [delete_filing_record cik accession], in any
    state of the store, it answers false. *)
Theorem is_downloaded_after_add_and_after_delete
    (env : Env) (d : Database.FilingData) (cik acc : string) (w w2 : World) :
  Database.filing_id d = Database.make_filing_id cik acc ->
  fst (Database.add_filing env d w) = Ok true ->
  fst (Database.is_filing_downloaded cik acc
         (snd (Database.add_filing env d w))) = Ok true
  /\ fst (Database.is_filing_downloaded cik acc
            (snd (Database.delete_filing_record cik acc w2))) = Ok false.
Proof.
  intros Hid Hadd. split.
  - unfold Database.is_filing_downloaded; simpl.
    rewrite <- Hid.
    rewrite bool_decide_eq_true_2; [reflexivity|].
    by apply lookup_after_add.
  - apply absent_after_delete.
Qed.

Lemma is_downloaded_after_add_and_after_delete_witness :
  Database.filing_id Samples.apple_record
    = Database.make_filing_id "0000320193" "0000320193-23-000106"
  /\ fst (Database.add_filing (Samples.env_of (fun _ => Samples.status_only 404))
            Samples.apple_record Samples.w0) = Ok true
  /\ fst (Database.is_filing_downloaded "0000320193" "0000320193-23-000106"
            (snd (Database.add_filing (Samples.env_of (fun _ => Samples.status_only 404))
                    Samples.apple_record Samples.w0))) = Ok true
  /\ fst (Database.is_filing_downloaded "0000320193" "0000320193-23-000106"
            (snd (Database.delete_filing_record "0000320193" "0000320193-23-000106"
                    Samples.w0))) = Ok false.
Proof.
  assert (H1 : Database.filing_id Samples.apple_record
    = Database.make_filing_id "0000320193" "0000320193-23-000106") by reflexivity.
  assert (H2 : fst (Database.add_filing (Samples.env_of (fun _ => Samples.status_only 404))
            Samples.apple_record Samples.w0) = Ok true) by reflexivity.
  split; [exact H1|]. split; [exact H2|].
  exact (is_downloaded_after_add_and_after_delete
           (Samples.env_of (fun _ => Samples.status_only 404))
           Samples.apple_record "0000320193" "0000320193-23-000106"
           Samples.w0 Samples.w0 H1 H2).
Defined.

(** ** RateLimiter *)






(** The clock must not go back: read at 5 and then at 3, the second call
    sleeps longer than [1/r]. *)
Lemma capacity_zero_clock_going_back :
  RateLimit.acquire_all (RateLimit.mkLimiter 0%Q 0%Q 9%Q 0%Q) [5%Q; 3%Q]
  = Ok ([(true, (1 - Qmin 0 (0 + (5 - 0) * 9)) / 9);
         (true, (1 - Qmin 0 (0 + (3 - 5) * 9)) / 9)]%Q,
        RateLimit.mkLimiter 0%Q 0%Q 9%Q 3%Q)
  /\ ((1 - Qmin 0 (0 + (3 - 5) * 9)) / 9 == 19 / 9)%Q.
Proof. split; reflexivity. Qed.



(** ** HttpClient *)

Lemma safe_request_run (env : Env) (url : string) (w : World) :
  safe_request env url w
  = (safe_request_outcome (http_get env (clock w) url), emit (EvGet url) w).
Proof. reflexivity. Qed.

Lemma safe_request_status (r : Response) :
  safe_request_outcome (Resp r)
  = if (status_code r =? 429) || (status_code r =? 403)
    then safe_request_outcome (Resp r) else Ok r.
Proof.
  unfold safe_request_outcome, safe_request_try.
  destruct (status_code r =? 429); [reflexivity|].
  destruct (status_code r =? 403); [reflexivity|]. simpl.
  destruct (status_code r =? 404); [reflexivity|].
  destruct (status_code r >=? 500); [reflexivity|].
  destruct (status_code r >=? 400); reflexivity.
Qed.

(** A request ends with a response or with [SystemExit], nothing else. *)
Lemma safe_request_outcome_cases (f : Fetch) :
  (exists r, safe_request_outcome f = Ok r)
  \/ (exists msg, safe_request_outcome f = Raise (SystemExit msg)).
Proof.
  destruct f as [r|e].
  - rewrite safe_request_status.
    unfold safe_request_outcome, safe_request_try.
    destruct (status_code r =? 429); simpl; [right; eauto|].
    destruct (status_code r =? 403); simpl; [right; eauto|].
    left; eauto.
  - destruct e; simpl; eauto.
Qed.

(** C2, as stated, fails: a request exception that is neither a timeout
    nor a connection error stops the program too. *)
Lemma safe_request_stops_on_other_exceptions :
  ~ (forall (env : Env) (url : string) (w : World),
       (exists msg, outcome (safe_request env url w) = Raise (SystemExit msg))
       <-> ((exists r, http_get env (clock w) url = Resp r
                       /\ (status_code r = 429 \/ status_code r = 403))
            \/ (exists e, http_get env (clock w) url = Throws e
                          /\ is_ConnectionError e = true)
            \/ http_get env (clock w) url = Throws KeyboardInterrupt)).
Proof.
  intros H.
  destruct (H (Samples.env_of (fun _ => Throws TooManyRedirects))
              Samples.index_url Samples.w0) as [Hfatal _].
  destruct Hfatal as [[r [Hr _]] | [[e [He Hc]] | Hk]].
  - eexists. reflexivity.
  - discriminate Hr.
  - injection He as <-. discriminate Hc.
  - discriminate Hk.
Qed.

(** C2, amended.  [safe_request] stops the program (raises [SystemExit])
    exactly when the status is 429 or 403 or the request raises anything
    but a timeout: a connection error, a user interrupt, or any other
    exception.  On a timeout it returns the synthetic response of status
    408, and for every other status it returns the response itself.  It
    never ends in another way. *)
Theorem safe_request_policy (env : Env) (url : string) (w : World) :
  ((exists msg, outcome (safe_request env url w) = Raise (SystemExit msg))
   <-> ((exists r, http_get env (clock w) url = Resp r
                   /\ (status_code r = 429 \/ status_code r = 403))
        \/ (exists e, http_get env (clock w) url = Throws e
                      /\ is_Timeout e = false)))
  /\ (forall e, http_get env (clock w) url = Throws e -> is_Timeout e = true ->
        outcome (safe_request env url w) = Ok timeout_response)
  /\ status_code timeout_response = 408
  /\ (forall r, http_get env (clock w) url = Resp r ->
        status_code r <> 429 -> status_code r <> 403 ->
        outcome (safe_request env url w) = Ok r)
  /\ ((exists r, outcome (safe_request env url w) = Ok r)
      \/ (exists msg, outcome (safe_request env url w) = Raise (SystemExit msg))).
Proof.
  rewrite safe_request_run. unfold outcome; simpl.
  destruct (http_get env (clock w) url) as [r|e] eqn:Hf.
  - assert (Hok : status_code r <> 429 -> status_code r <> 403 ->
                  safe_request_outcome (Resp r) = Ok r).
    { intros H1 H2. rewrite safe_request_status.
      apply Z.eqb_neq in H1, H2. rewrite H1, H2. reflexivity. }
    repeat split.
    + intros [msg Hm]. left. exists r. split; [reflexivity|].
      destruct (Z.eq_dec (status_code r) 429) as [|N1]; [tauto|].
      destruct (Z.eq_dec (status_code r) 403) as [|N2]; [tauto|].
      rewrite (Hok N1 N2) in Hm. discriminate Hm.
    + intros [[r' [Hr' Hs]] | [e [He _]]]; [|discriminate He].
      injection Hr' as <-.
      unfold safe_request_outcome, safe_request_try.
      destruct Hs as [Hs|Hs]; rewrite Hs; simpl; eauto.
    + intros e He; discriminate He.
    + intros r' Hr'. injection Hr' as <-. exact Hok.
    + apply safe_request_outcome_cases.
  - repeat split.
    + intros [msg Hm]. right. exists e. split; [reflexivity|].
      destruct e; simpl in *; try reflexivity; discriminate Hm.
    + intros [[r [Hr _]] | [e' [He' Ht]]]; [discriminate Hr|].
      injection He' as <-.
      destruct e; simpl in *; try discriminate Ht; eauto.
    + intros e' He' Ht. injection He' as <-.
      destruct e; simpl in *; try discriminate Ht; reflexivity.
    + intros r Hr; discriminate Hr.
    + apply safe_request_outcome_cases.
Qed.

(** ** IndexPageParser *)

Lemma find_data_start_none (lines : list string) (i : nat) :
  existsb Py.is_dash_line lines = false ->
  SECDailyIndexDownloader.find_data_start lines i = None.
Proof.
  revert i. induction lines as [|line rest IH]; intros i H; simpl in *.
  - reflexivity.
  - apply orb_false_elim in H as [H1 H2]. rewrite H1. by apply IH.
Qed.

Lemma find_data_start_some (lines : list string) (i : nat) :
  existsb Py.is_dash_line lines = true ->
  exists n, SECDailyIndexDownloader.find_data_start lines i = Some n.
Proof.
  revert i. induction lines as [|line rest IH]; intros i H; simpl in *.
  - discriminate.
  - destruct (Py.is_dash_line line); [eauto|]. by apply IH.
Qed.

(** The separator is found right after a header without one. *)
Lemma find_data_start_app (header : list string) (dashes : string)
    (rest : list string) (i : nat) :
  forallb (fun h => negb (Py.is_dash_line h)) header = true ->
  Py.is_dash_line dashes = true ->
  SECDailyIndexDownloader.find_data_start (header ++ dashes :: rest) i
  = Some (S (length header + i)).
Proof.
  revert i. induction header as [|h header IH]; intros i Hh Hd; simpl in *.
  - rewrite Hd. reflexivity.
  - apply andb_prop in Hh as [H1 H2].
    apply negb_true_iff in H1. rewrite H1.
    rewrite (IH (S i) H2 Hd). f_equal. lia.
Qed.

Lemma skipn_past_header (header : list string) (dashes : string)
    (rest : list string) :
  skipn (S (length header + 0)) (header ++ dashes :: rest) = rest.
Proof.
  rewrite Nat.add_0_r.
  induction header as [|h header IH]; simpl; [reflexivity | exact IH].
Qed.

(** A fetched index file reaches the two loops. *)
Lemma pure_parse_fetched (env : Env) (idx_url : string) (w : World) (r : Response) :
  http_get env (clock w) idx_url = Resp r ->
  (status_code r <? 400) || (600 <=? status_code r) = true ->
  outcome (SECDailyIndexDownloader.pure_parse_daily_single_index env idx_url w)
  = match SECDailyIndexDownloader.find_data_start (Py.splitlines (text r)) 0 with
    | None => Raise (UnboundLocalError "data_start")
    | Some data_start =>
        Ok (SECDailyIndexDownloader.collect_filings
              (skipn data_start (Py.splitlines (text r))) [])
    end.
Proof.
  intros Hf Hs.
  unfold SECDailyIndexDownloader.pure_parse_daily_single_index,
    try_except, bind, outcome.
  rewrite safe_request_run, Hf, safe_request_status.
  assert (H429 : (status_code r =? 429) = false) by lia.
  assert (H403 : (status_code r =? 403) = false) by lia.
  rewrite H429, H403. simpl.
  unfold raise_for_status.
  assert (Hr : (400 <=? status_code r) && (status_code r <? 600) = false) by lia.
  rewrite Hr. unfold ret.
  destruct (SECDailyIndexDownloader.find_data_start (Py.splitlines (text r)) 0);
    reflexivity.
Qed.

(** A well-formed line of another form type yields no descriptor. *)
Lemma parse_line_other_form (line form : string) :
  option_map (fun m => Re.group_text m "form_type")
    (Re.match_ SECDailyIndexDownloader.line_re (Py.strip line)) = Some form ->
  Py.in_list form SECDailyIndexDownloader.target_forms = false ->
  SECDailyIndexDownloader.parse_daily_index_line line = None.
Proof.
  intros Hm Hform.
  unfold SECDailyIndexDownloader.parse_daily_index_line,
    SECDailyIndexDownloader.parse_daily_index_line_try.
  destruct (Re.match_ SECDailyIndexDownloader.line_re (Py.strip line)) as [m|];
    [|discriminate Hm].
  simpl in Hm. injection Hm as Hm. rewrite Hm, Hform.
  destruct (Py.index_neg _ 2); reflexivity.
Qed.

Lemma parse_line_no_match (line : string) :
  Re.match_ SECDailyIndexDownloader.line_re (Py.strip line) = None ->
  SECDailyIndexDownloader.parse_daily_index_line line = None.
Proof.
  intros Hm.
  unfold SECDailyIndexDownloader.parse_daily_index_line,
    SECDailyIndexDownloader.parse_daily_index_line_try.
  rewrite Hm. reflexivity.
Qed.

(** C8. An index file made of a header, a line of dashes and three data
    lines (a well-formed 10-K line, a well-formed 8-K line, a line that
    does not match the layout) parses to exactly one descriptor, the
    10-K: the 8-K is outside the target forms and the malformed line is
    skipped, without any exception. *)
Theorem parse_index_file_keeps_the_10K
    (env : Env) (idx_url : string) (w : World) (r : Response)
    (header : list string) (dashes l1 l2 l3 : string)
    (d1 : SECDailyIndexDownloader.Filing) :
  http_get env (clock w) idx_url = Resp r ->
  status_code r = 200 ->
  Py.splitlines (text r) = header ++ [dashes; l1; l2; l3] ->
  forallb (fun h => negb (Py.is_dash_line h)) header = true ->
  Py.is_dash_line dashes = true ->
  SECDailyIndexDownloader.parse_daily_index_line l1 = Some d1 ->
  SECDailyIndexDownloader.form_type d1 = "10-K" ->
  option_map (fun m => Re.group_text m "form_type")
    (Re.match_ SECDailyIndexDownloader.line_re (Py.strip l2)) = Some "8-K" ->
  Re.match_ SECDailyIndexDownloader.line_re (Py.strip l3) = None ->
  outcome (SECDailyIndexDownloader.pure_parse_daily_single_index env idx_url w)
  = Ok [d1].
Proof.
  intros Hf Hs Hlines Hh Hd H1 Hk H2 H3.
  rewrite (pure_parse_fetched env idx_url w r Hf) by (rewrite Hs; reflexivity).
  rewrite Hlines, (find_data_start_app header dashes [l1; l2; l3] 0 Hh Hd).
  rewrite skipn_past_header. simpl.
  rewrite H1, Hk. simpl.
  rewrite (parse_line_other_form l2 "8-K" H2 eq_refl).
  rewrite (parse_line_no_match l3 H3). reflexivity.
Qed.

Lemma parse_index_file_keeps_the_10K_witness :
  outcome (SECDailyIndexDownloader.pure_parse_daily_single_index
             (Samples.env_of (fun _ => Samples.page Samples.daily_index))
             "https://www.sec.gov/Archives/edgar/daily-index/2023/QTR4/form.20231103.idx"
             Samples.w0)
  = Ok [Samples.apple_10k].
Proof.
  apply (parse_index_file_keeps_the_10K
           (Samples.env_of (fun _ => Samples.page Samples.daily_index))
           "https://www.sec.gov/Archives/edgar/daily-index/2023/QTR4/form.20231103.idx"
           Samples.w0 (mkResponse 200 Samples.daily_index)
           Samples.header_lines Samples.separator
           Samples.line_10k Samples.line_8k Samples.line_malformed
           Samples.apple_10k);
    vm_compute; reflexivity.
Defined.

(** C10. For a fetched index file, [pure_parse_daily_single_index] returns
    a list of descriptors when some line of the text consists of dashes
    only, and otherwise ends with an unbound-variable error on
    [data_start] instead of returning. *)
Theorem pure_parse_returns_iff_separator
    (env : Env) (idx_url : string) (w : World) (r : Response) :
  http_get env (clock w) idx_url = Resp r ->
  (status_code r <? 400) || (600 <=? status_code r) = true ->
  (existsb Py.is_dash_line (Py.splitlines (text r)) = true ->
     exists filings,
       outcome (SECDailyIndexDownloader.pure_parse_daily_single_index env idx_url w)
       = Ok filings)
  /\ (existsb Py.is_dash_line (Py.splitlines (text r)) = false ->
        outcome (SECDailyIndexDownloader.pure_parse_daily_single_index env idx_url w)
        = Raise (UnboundLocalError "data_start")).
Proof.
  intros Hf Hs.
  rewrite (pure_parse_fetched env idx_url w r Hf Hs). split; intros H.
  - destruct (find_data_start_some _ 0 H) as [n Hn]. rewrite Hn. eauto.
  - rewrite (find_data_start_none _ 0 H). reflexivity.
Qed.

Lemma pure_parse_returns_iff_separator_witness :
  http_get (Samples.env_of (fun _ => Samples.page Samples.daily_index_without_separator))
           (clock Samples.w0) "form.20231103.idx"
  = Resp (mkResponse 200 Samples.daily_index_without_separator)
  /\ outcome (SECDailyIndexDownloader.pure_parse_daily_single_index
                (Samples.env_of (fun _ => Samples.page Samples.daily_index_without_separator))
                "form.20231103.idx" Samples.w0)
     = Raise (UnboundLocalError "data_start").
Proof.
  split; [reflexivity|].
  apply (pure_parse_returns_iff_separator
           (Samples.env_of (fun _ => Samples.page Samples.daily_index_without_separator))
           "form.20231103.idx" Samples.w0
           (mkResponse 200 Samples.daily_index_without_separator)
           eq_refl eq_refl).
  vm_compute. reflexivity.
Defined.

(** ** DocumentDiscovery *)

Lemma split_go_not_nil (sep : ascii) (s cur : string) :
  Py.split_go sep s cur <> [].
Proof.
  revert cur. induction s as [|c s IH]; intros cur; simpl.
  - discriminate.
  - destruct (Py.chr_eqb c sep); [discriminate | apply IH].
Qed.

Lemma last_segment_exists (sep : ascii) (s : string) :
  exists last, Py.index_neg (Py.split sep s) 1 = Some last.
Proof.
  unfold Py.index_neg, Py.split.
  pose proof (split_go_not_nil sep s EmptyString) as H.
  destruct (Py.split_go sep s EmptyString) as [|x l] eqn:E; [contradiction|].
  destruct (List.rev (x :: l)) as [|y l'] eqn:Er.
  - apply (f_equal (@length string)) in Er.
    rewrite length_rev in Er. discriminate Er.
  - exists y. reflexivity.
Qed.

Lemma dict_mem_set {V} (d : Py.dict V) (k k' : string) (v : V) :
  Py.dict_mem (Py.dict_set d k v) k' = String.eqb k k' || Py.dict_mem d k'.
Proof.
  unfold Py.dict_mem.
  induction d as [|[k0 v0] d IH]; simpl.
  - destruct (String.eqb k k'); reflexivity.
  - destruct (String.eqb k0 k) eqn:E0; simpl.
    + apply String.eqb_eq in E0. subst k0.
      destruct (String.eqb k k'); reflexivity.
    + destruct (String.eqb k0 k') eqn:E1; simpl.
      * destruct (String.eqb k k'); reflexivity.
      * exact IH.
Qed.

Lemma dict_mem_set_keeps {V} (d : Py.dict V) (k k' : string) (v : V) :
  Py.dict_mem d k' = true -> Py.dict_mem (Py.dict_set d k v) k' = true.
Proof. intros H. rewrite dict_mem_set, H. apply orb_true_r. Qed.

Lemma dict_mem_set_same {V} (d : Py.dict V) (k : string) (v : V) :
  Py.dict_mem (Py.dict_set d k v) k = true.
Proof. rewrite dict_mem_set, String.eqb_refl. reflexivity. Qed.

Lemma doc_file_step_inv (k : string) (st : Py.dict string * bool)
    (item : string * IndexParser.Entry) :
  urls_inv k st -> urls_inv k (EDGARDownloader.doc_file_step st item).
Proof.
  destruct st as [urls found], item as [key value].
  unfold urls_inv, EDGARDownloader.doc_file_step; simpl.
  intros [Hk Hc].
  repeat match goal with
         | |- context [if ?b then _ else _] => destruct b eqn:?
         end; simpl; split;
    auto using @dict_mem_set_keeps, @dict_mem_set_same;
    try (intros; discriminate).
Qed.

Lemma doc_files_fold_inv (k : string) (items : Py.dict IndexParser.Entry)
    (st : Py.dict string * bool) :
  urls_inv k st -> urls_inv k (fold_left EDGARDownloader.doc_file_step items st).
Proof.
  revert st. induction items as [|item items IH]; intros st H; simpl.
  - exact H.
  - apply IH, doc_file_step_inv, H.
Qed.

Lemma data_file_step_keeps (k : string) (urls : Py.dict string)
    (item : string * IndexParser.Entry) :
  Py.dict_mem urls k = true ->
  Py.dict_mem (EDGARDownloader.data_file_step urls item) k = true.
Proof.
  destruct item as [key value]. unfold EDGARDownloader.data_file_step.
  intros H.
  repeat match goal with
         | |- context [if ?b then _ else _] => destruct b
         end; apply dict_mem_set_keeps, H.
Qed.

Lemma data_files_fold_keeps (k : string) (items : Py.dict IndexParser.Entry)
    (urls : Py.dict string) :
  Py.dict_mem urls k = true ->
  Py.dict_mem (fold_left EDGARDownloader.data_file_step items urls) k = true.
Proof.
  revert urls. induction items as [|item items IH]; intros urls H; simpl.
  - exact H.
  - apply IH, data_file_step_keeps, H.
Qed.

(** A parsed index page always yields both [complete_txt] and the keys
    the map started with. *)
Lemma urls_of_index_keys (urls : Py.dict string) (filename content k : string) :
  Py.dict_mem urls k = true ->
  Py.dict_mem (EDGARDownloader.urls_of_index urls filename content) k = true
  /\ Py.dict_mem (EDGARDownloader.urls_of_index urls filename content)
       "complete_txt" = true.
Proof.
  intros Hk. unfold EDGARDownloader.urls_of_index.
  set (doc_files := IndexParser.documentFormatFiles _).
  set (data_files := IndexParser.dataFiles _).
  set (st0 := match doc_files with [] => _ | _ => _ end).
  assert (Hinv : urls_inv k st0 /\ urls_inv "complete_txt" st0
                 \/ (urls_inv k st0 /\ snd st0 = false)).
  { unfold st0. destruct doc_files as [|item items] eqn:E.
    - right. split; [split; [exact Hk | intros; discriminate] | reflexivity].
    - destruct (Py.dict_get (item :: items) EDGARDownloader.complete_key).
      + left. split; apply doc_files_fold_inv; split; simpl;
          auto using @dict_mem_set_keeps, @dict_mem_set_same.
      + destruct (snd (fold_left EDGARDownloader.doc_file_step (item :: items)
                         (urls, false))) eqn:Es.
        * left. split; [apply doc_files_fold_inv; split;
                        [exact Hk | intros; discriminate]|].
          pose proof (doc_files_fold_inv k (item :: items) (urls, false)) as Hf.
          destruct Hf as [_ Hc]; [split; [exact Hk | intros; discriminate]|].
          split; [exact (Hc Es) | intros _; exact (Hc Es)].
        * right. split; [|first [exact Es | reflexivity]].
          apply doc_files_fold_inv. split; [exact Hk | intros; discriminate]. }
  destruct Hinv as [[[Hk0 _] [Hc0 _]] | [[Hk0 _] Hs]].
  - destruct (negb (snd st0)); split;
      auto using @dict_mem_set_keeps, @dict_mem_set_same, data_files_fold_keeps.
  - rewrite Hs. simpl. split;
      auto using @dict_mem_set_keeps, @dict_mem_set_same, data_files_fold_keeps.
Qed.

(** C4, as stated, fails: when the index page is not found,
    [required_urls] returns [None], not a degraded map. *)
Lemma required_urls_returns_none_on_404 :
  http_get (Samples.env_of (fun _ => Samples.status_only 404))
           (clock Samples.w0) Samples.index_url
  = Resp (mkResponse 404 "")
  /\ Py.replace ".txt" "-index.htm"
       (SECDailyIndexDownloader.file_name Samples.apple_10k) = Samples.index_url
  /\ outcome (EDGARDownloader.required_urls
                (Samples.env_of (fun _ => Samples.status_only 404))
                (SECDailyIndexDownloader.file_name Samples.apple_10k)
                Samples.w0)
     = Ok None.
Proof. repeat split; vm_compute; reflexivity. Qed.

Lemma dict_get_set {V} (d : Py.dict V) (k k' : string) (v : V) :
  Py.dict_get (Py.dict_set d k v) k'
  = if String.eqb k k' then Some v else Py.dict_get d k'.
Proof.
  induction d as [|[k0 v0] d IH]; simpl.
  - reflexivity.
  - destruct (String.eqb k0 k) eqn:E0; simpl.
    + apply String.eqb_eq in E0. subst k0.
      destruct (String.eqb k k'); reflexivity.
    + rewrite IH. destruct (String.eqb k0 k') eqn:E1; [|reflexivity].
      apply String.eqb_eq in E1. subst k0. rewrite String.eqb_sym, E0.
      reflexivity.
Qed.

(** What [safe_request] makes of each answer of the server. *)
Lemma safe_request_outcome_ok (r : Response) :
  status_code r <> 429 -> status_code r <> 403 ->
  safe_request_outcome (Resp r) = Ok r.
Proof.
  intros H1 H2. rewrite safe_request_status.
  apply Z.eqb_neq in H1, H2. rewrite H1, H2. reflexivity.
Qed.

Lemma safe_request_outcome_timeout (e : exn) :
  is_Timeout e = true -> safe_request_outcome (Throws e) = Ok timeout_response.
Proof. destruct e; simpl; intros H; try discriminate H; reflexivity. Qed.

Lemma safe_request_outcome_fatal_status (r : Response) :
  status_code r = 429 \/ status_code r = 403 ->
  exists msg, safe_request_outcome (Resp r) = Raise (SystemExit msg).
Proof.
  unfold safe_request_outcome, safe_request_try.
  intros [H|H]; rewrite H; simpl; eauto.
Qed.

Lemma safe_request_outcome_fatal_exn (e : exn) :
  is_Timeout e = false ->
  exists msg, safe_request_outcome (Throws e) = Raise (SystemExit msg).
Proof. destruct e; simpl; intros H; try discriminate H; eauto. Qed.

(** Without a row described as the complete submission text file, the
    flag of [required_urls] is never raised. *)
Lemma dict_get_none_keys {V} (d : Py.dict V) (k : string) :
  Py.dict_get d k = None ->
  List.Forall (fun item => String.eqb (fst item) k = false) d.
Proof.
  induction d as [|[k0 v0] d IH]; simpl; intros H; constructor.
  - simpl. destruct (String.eqb k0 k); [discriminate H | reflexivity].
  - apply IH. destruct (String.eqb k0 k); [discriminate H | exact H].
Qed.

Lemma doc_files_fold_flag (items : Py.dict IndexParser.Entry)
    (urls : Py.dict string) :
  List.Forall (fun item => String.eqb (fst item) EDGARDownloader.complete_key = false)
              items ->
  snd (fold_left EDGARDownloader.doc_file_step items (urls, false)) = false.
Proof.
  intros H. revert urls. induction H as [|[key value] items Hkey _ IH];
    intros urls; [reflexivity|].
  cbn [fold_left]. simpl in Hkey.
  unfold EDGARDownloader.doc_file_step at 2. rewrite Hkey.
  repeat match goal with
         | |- context [if ?b then _ else _] => destruct b
         end; apply IH.
Qed.

Lemma urls_of_index_fallback (urls : Py.dict string) (filename content : string) :
  Py.dict_get (IndexParser.documentFormatFiles
                 (IndexParser.extract_sec_filing_data content))
              EDGARDownloader.complete_key = None ->
  Py.dict_get (EDGARDownloader.urls_of_index urls filename content)
              "complete_txt" = Some filename.
Proof.
  intros Hnone. unfold EDGARDownloader.urls_of_index.
  set (doc_files := IndexParser.documentFormatFiles _) in *.
  set (data_files := IndexParser.dataFiles _).
  set (st0 := match doc_files with [] => _ | _ => _ end).
  assert (Hflag : snd st0 = false).
  { unfold st0. destruct doc_files as [|item items] eqn:E; [reflexivity|].
    rewrite Hnone. apply doc_files_fold_flag, dict_get_none_keys, Hnone. }
  rewrite Hflag. cbn [negb]. rewrite dict_get_set. reflexivity.
Qed.

(** [download_filing], for a filing that is not recorded, ends as
    [required_urls] does when that returns [None] or raises. *)
Lemma download_filing_without_urls (env : Env)
    (filling : EDGARDownloader.Filing) (w : World) :
  table w !! Database.make_filing_id (SECDailyIndexDownloader.cik filling)
               (SECDailyIndexDownloader.accession_number filling) = None ->
  outcome (EDGARDownloader.required_urls env
             (SECDailyIndexDownloader.file_name filling) w) = Ok None ->
  outcome (EDGARDownloader.download_filing env filling w) = Ok None.
Proof.
  intros Hnone H.
  unfold EDGARDownloader.download_filing, bind at 1,
    Database.is_filing_downloaded.
  rewrite bool_decide_eq_false_2
    by (rewrite Hnone; intros [x Hx]; discriminate Hx).
  cbv beta iota. unfold bind at 1. unfold outcome in *.
  destruct (EDGARDownloader.required_urls env
              (SECDailyIndexDownloader.file_name filling) w)
    as [[[urls|]|e] w']; cbn [fst] in H; try discriminate H.
  reflexivity.
Qed.

Lemma download_filing_stops_with_urls (env : Env)
    (filling : EDGARDownloader.Filing) (w : World) (e : exn) :
  table w !! Database.make_filing_id (SECDailyIndexDownloader.cik filling)
               (SECDailyIndexDownloader.accession_number filling) = None ->
  outcome (EDGARDownloader.required_urls env
             (SECDailyIndexDownloader.file_name filling) w) = Raise e ->
  outcome (EDGARDownloader.download_filing env filling w) = Raise e.
Proof.
  intros Hnone H.
  unfold EDGARDownloader.download_filing, bind at 1,
    Database.is_filing_downloaded.
  rewrite bool_decide_eq_false_2
    by (rewrite Hnone; intros [x Hx]; discriminate Hx).
  cbv beta iota. unfold bind at 1. unfold outcome in *.
  destruct (EDGARDownloader.required_urls env
              (SECDailyIndexDownloader.file_name filling) w)
    as [[[urls|]|e'] w']; cbn [fst] in H; try discriminate H.
  injection H as ->. reflexivity.
Qed.

(** C4, amended.  For a filing URL with at least two path segments, what
    [required_urls] does is decided by the fetch of the derived
    [-index.htm] page.  On a response whose status is not 200 (429 and
    403 apart) and on a timeout it returns [None], no map at all, and
    [download_filing], called for a filing with this URL that is not
    recorded, then returns [None] too.  On status 429 or 403 and on any
    exception other than a timeout the program stops, in [required_urls]
    and so in [download_filing].  On status 200 it returns a map that
    contains both [complete_txt] and [financial_report_xlsx]; and when no
    row of the page is described as the complete submission text file,
    [complete_txt] is the input URL itself. *)
Theorem required_urls_by_index_fetch
    (env : Env) (filename seg : string) (w : World) :
  Py.index_neg (Py.split "/" filename) 2 = Some seg ->
  (forall r,
     http_get env (clock w) (Py.replace ".txt" "-index.htm" filename) = Resp r ->
     status_code r <> 200 -> status_code r <> 429 -> status_code r <> 403 ->
     outcome (EDGARDownloader.required_urls env filename w) = Ok None
     /\ forall filling,
          SECDailyIndexDownloader.file_name filling = filename ->
          table w !! Database.make_filing_id
                       (SECDailyIndexDownloader.cik filling)
                       (SECDailyIndexDownloader.accession_number filling) = None ->
          outcome (EDGARDownloader.download_filing env filling w) = Ok None)
  /\ (forall e,
        http_get env (clock w) (Py.replace ".txt" "-index.htm" filename) = Throws e ->
        is_Timeout e = true ->
        outcome (EDGARDownloader.required_urls env filename w) = Ok None
        /\ forall filling,
             SECDailyIndexDownloader.file_name filling = filename ->
             table w !! Database.make_filing_id
                          (SECDailyIndexDownloader.cik filling)
                          (SECDailyIndexDownloader.accession_number filling) = None ->
             outcome (EDGARDownloader.download_filing env filling w) = Ok None)
  /\ (forall r,
        http_get env (clock w) (Py.replace ".txt" "-index.htm" filename) = Resp r ->
        status_code r = 429 \/ status_code r = 403 ->
        exists msg,
          outcome (EDGARDownloader.required_urls env filename w)
          = Raise (SystemExit msg)
          /\ forall filling,
               SECDailyIndexDownloader.file_name filling = filename ->
               table w !! Database.make_filing_id
                            (SECDailyIndexDownloader.cik filling)
                            (SECDailyIndexDownloader.accession_number filling) = None ->
               outcome (EDGARDownloader.download_filing env filling w)
               = Raise (SystemExit msg))
  /\ (forall e,
        http_get env (clock w) (Py.replace ".txt" "-index.htm" filename) = Throws e ->
        is_Timeout e = false ->
        exists msg,
          outcome (EDGARDownloader.required_urls env filename w)
          = Raise (SystemExit msg)
          /\ forall filling,
               SECDailyIndexDownloader.file_name filling = filename ->
               table w !! Database.make_filing_id
                            (SECDailyIndexDownloader.cik filling)
                            (SECDailyIndexDownloader.accession_number filling) = None ->
               outcome (EDGARDownloader.download_filing env filling w)
               = Raise (SystemExit msg))
  /\ (forall r,
        http_get env (clock w) (Py.replace ".txt" "-index.htm" filename) = Resp r ->
        status_code r = 200 ->
        exists urls,
          outcome (EDGARDownloader.required_urls env filename w) = Ok (Some urls)
          /\ Py.dict_mem urls "complete_txt" = true
          /\ Py.dict_mem urls "financial_report_xlsx" = true
          /\ (Py.dict_get
                (IndexParser.documentFormatFiles
                   (IndexParser.extract_sec_filing_data (text r)))
                EDGARDownloader.complete_key = None ->
              Py.dict_get urls "complete_txt" = Some filename)).
Proof.
  intros Hseg.
  destruct (last_segment_exists "/" filename) as [last Hlast].
  assert (Hrun : forall f,
    http_get env (clock w) (Py.replace ".txt" "-index.htm" filename) = f ->
    outcome (EDGARDownloader.required_urls env filename w)
    = match safe_request_outcome f with
      | Ok response =>
          if negb (status_code response =? 200) then Ok None
          else if (400 <=? status_code response) && (status_code response <? 600)
               then Ok (Some (Py.dict_set
                      [("financial_report_xlsx",
                        "https://www.sec.gov/Archives/edgar/data/" +:+ Py.zfill 10 seg +:+ "/" +:+
                        Py.replace "-" "" (hd EmptyString (Py.split "." last)) +:+
                        "/Financial_Report.xlsx")] "complete_txt" filename))
               else Ok (Some (EDGARDownloader.urls_of_index
                      [("financial_report_xlsx",
                        "https://www.sec.gov/Archives/edgar/data/" +:+ Py.zfill 10 seg +:+ "/" +:+
                        Py.replace "-" "" (hd EmptyString (Py.split "." last)) +:+
                        "/Financial_Report.xlsx")] filename (text response)))
      | Raise e => if is_Exception e then
                     Ok (Some (Py.dict_set
                      [("financial_report_xlsx",
                        "https://www.sec.gov/Archives/edgar/data/" +:+ Py.zfill 10 seg +:+ "/" +:+
                        Py.replace "-" "" (hd EmptyString (Py.split "." last)) +:+
                        "/Financial_Report.xlsx")] "complete_txt" filename))
                   else Raise e
      end).
  { intros f Hf.
    unfold EDGARDownloader.required_urls, outcome, bind, lift_res, try_except.
    rewrite Hseg, Hlast. unfold or_raise. cbv beta iota.
    rewrite safe_request_run, Hf.
    destruct (safe_request_outcome f) as [response|e]; simpl.
    - destruct (negb (status_code response =? 200)); [reflexivity|].
      unfold raise_for_status.
      destruct ((400 <=? status_code response) && (status_code response <? 600));
        reflexivity.
    - destruct (is_Exception e); reflexivity. }
  assert (Hcaller : forall result,
    outcome (EDGARDownloader.required_urls env filename w) = result ->
    forall filling,
      SECDailyIndexDownloader.file_name filling = filename ->
      table w !! Database.make_filing_id
                   (SECDailyIndexDownloader.cik filling)
                   (SECDailyIndexDownloader.accession_number filling) = None ->
      (result = Ok None ->
       outcome (EDGARDownloader.download_filing env filling w) = Ok None)
      /\ (forall e, result = Raise e ->
            outcome (EDGARDownloader.download_filing env filling w) = Raise e)).
  { intros result Hres filling Hname Habsent. subst filename result. split.
    - apply download_filing_without_urls, Habsent.
    - intros e. apply download_filing_stops_with_urls, Habsent. }
  split; [|split; [|split; [|split]]].
  - intros r Hf H200 H429 H403.
    assert (Hnone : outcome (EDGARDownloader.required_urls env filename w) = Ok None).
    { rewrite (Hrun _ Hf), (safe_request_outcome_ok r H429 H403).
      apply Z.eqb_neq in H200. rewrite H200. reflexivity. }
    split; [exact Hnone|]. intros filling Hname Habsent.
    exact (proj1 (Hcaller _ eq_refl filling Hname Habsent) Hnone).
  - intros e Hf Ht.
    assert (Hnone : outcome (EDGARDownloader.required_urls env filename w) = Ok None).
    { rewrite (Hrun _ Hf), (safe_request_outcome_timeout e Ht). reflexivity. }
    split; [exact Hnone|]. intros filling Hname Habsent.
    exact (proj1 (Hcaller _ eq_refl filling Hname Habsent) Hnone).
  - intros r Hf Hs.
    destruct (safe_request_outcome_fatal_status r Hs) as [msg Hm].
    assert (Hstop : outcome (EDGARDownloader.required_urls env filename w)
                    = Raise (SystemExit msg)).
    { rewrite (Hrun _ Hf), Hm. reflexivity. }
    exists msg. split; [exact Hstop|]. intros filling Hname Habsent.
    exact (proj2 (Hcaller _ eq_refl filling Hname Habsent) _ Hstop).
  - intros e Hf Ht.
    destruct (safe_request_outcome_fatal_exn e Ht) as [msg Hm].
    assert (Hstop : outcome (EDGARDownloader.required_urls env filename w)
                    = Raise (SystemExit msg)).
    { rewrite (Hrun _ Hf), Hm. reflexivity. }
    exists msg. split; [exact Hstop|]. intros filling Hname Habsent.
    exact (proj2 (Hcaller _ eq_refl filling Hname Habsent) _ Hstop).
  - intros r Hf H200.
    assert (H429 : status_code r <> 429) by lia.
    assert (H403 : status_code r <> 403) by lia.
    rewrite (Hrun _ Hf), (safe_request_outcome_ok r H429 H403).
    rewrite H200. simpl.
    eexists. split; [reflexivity|].
    destruct (urls_of_index_keys
                [("financial_report_xlsx",
                  "https://www.sec.gov/Archives/edgar/data/" +:+ Py.zfill 10 seg +:+ "/" +:+
                  Py.replace "-" "" (hd EmptyString (Py.split "." last)) +:+
                  "/Financial_Report.xlsx")]
                filename (text r) "financial_report_xlsx" eq_refl) as [H1 H2].
    split; [assumption|]. split; [assumption|].
    apply urls_of_index_fallback.
Qed.

Lemma required_urls_by_index_fetch_witness :
  outcome (EDGARDownloader.required_urls
             (Samples.env_of (fun _ => Samples.status_only 404))
             (SECDailyIndexDownloader.file_name Samples.apple_10k) Samples.w0)
  = Ok None
  /\ outcome (EDGARDownloader.download_filing
                (Samples.env_of (fun _ => Samples.status_only 404))
                Samples.apple_10k Samples.w0)
     = Ok None.
Proof.
  destruct (proj1 (required_urls_by_index_fetch
                     (Samples.env_of (fun _ => Samples.status_only 404))
                     (SECDailyIndexDownloader.file_name Samples.apple_10k)
                     "320193" Samples.w0 eq_refl)
                  (mkResponse 404 "") eq_refl) as [H1 H2];
    try (simpl; discriminate).
  split; [exact H1|]. apply H2; reflexivity.
Defined.

Lemma dict_set_In {V} (d : Py.dict V) (k k' : string) (v v' : V) :
  In (k', v') (Py.dict_set d k v) -> (k', v') = (k, v) \/ In (k', v') d.
Proof.
  induction d as [|[k0 v0] d IH]; simpl.
  - intros [H|[]]. left. symmetry. exact H.
  - destruct (String.eqb k0 k); simpl.
    + intros [H|H]; [left; symmetry; exact H | right; right; exact H].
    + intros [H|H]; [right; left; exact H|].
      destruct (IH H) as [E|E]; [left; exact E | right; right; exact E].
Qed.

(** A row enters a section only with a link that ends in one of the three
    listed suffixes. *)
Lemma add_row_suffix (files : Py.dict IndexParser.Entry) (row : string) :
  (forall k e, In (k, e) files ->
     Py.endswith_any IndexParser.kept_suffixes (IndexParser.doc e) = true) ->
  forall k e, In (k, e) (IndexParser.add_row files row) ->
    Py.endswith_any IndexParser.kept_suffixes (IndexParser.doc e) = true.
Proof.
  intros Hfiles k e. unfold IndexParser.add_row.
  destruct (Re.search IndexParser.cells_re row) as [m|]; [|apply Hfiles].
  destruct (Py.endswith_any IndexParser.kept_suffixes
              (IndexParser.normalize_href (Py.strip (Re.group_text m "2"))))
    eqn:E; [|apply Hfiles].
  intros Hin. apply dict_set_In in Hin as [Heq|Hin]; [|eapply Hfiles; exact Hin].
  injection Heq as _ ->. exact E.
Qed.

Lemma add_rows_suffix (rows : list string) (files : Py.dict IndexParser.Entry) :
  (forall k e, In (k, e) files ->
     Py.endswith_any IndexParser.kept_suffixes (IndexParser.doc e) = true) ->
  forall k e, In (k, e) (fold_left IndexParser.add_row rows files) ->
    Py.endswith_any IndexParser.kept_suffixes (IndexParser.doc e) = true.
Proof.
  revert files. induction rows as [|row rows IH]; intros files H; simpl.
  - exact H.
  - apply IH. apply add_row_suffix, H.
Qed.

(** C5 is not met by the parser in use: its Data Files loop applies the
    same suffix test as the Document Format Files loop.  Whatever the
    page, each entry of either section has a link ending in [htm], [html]
    or [txt]; on the sample page the Data Files table holds one typed row,
    a schema of type EX-101.SCH with an [.xsd] link, and the parsed Data
    Files section is empty. *)
Theorem data_files_drop_other_suffixes :
  (forall html k e,
     In (k, e) (IndexParser.documentFormatFiles
                  (IndexParser.extract_sec_filing_data html))
     \/ In (k, e) (IndexParser.dataFiles
                     (IndexParser.extract_sec_filing_data html)) ->
     Py.endswith_any ["htm"; "html"; "txt"] (IndexParser.doc e) = true)
  /\ map (fun row =>
            option_map (fun m => (Re.group_text m "3",
                                  Re.group_text m "2"))
                       (Re.search IndexParser.cells_re row))
         (Re.findall IndexParser.row_re
            (IndexParser.data_section Samples.index_page))
     = [Some ("EX-101.SCH",
              "/Archives/edgar/data/320193/000032019323000106/aapl-20230930.xsd")]
  /\ IndexParser.dataFiles (IndexParser.extract_sec_filing_data Samples.index_page)
     = [].
Proof.
  split; [|split; vm_compute; reflexivity].
  intros html k e [H|H]; revert H; apply add_rows_suffix; intros ? ? [].
Qed.

(** The second copy of the parser keeps the same row. *)
Lemma parser_copy_keeps_the_schema :
  IndexParser.dataFiles (IndexParserCopy.extract_sec_filing_data Samples.index_page)
  = [("XBRL TAXONOMY EXTENSION SCHEMA",
      IndexParser.mkEntry "EX-101.SCH"
        "/Archives/edgar/data/320193/000032019323000106/aapl-20230930.xsd")].
Proof. vm_compute. reflexivity. Qed.

(** ** FiscalMetadataExtractor *)

(** On a page served with status 200 the extractor returns what the six
    searches find in its text. *)
Lemma extract_fiscal_info_fetched (env : Env) (url : string) (w : World)
    (r : Response) :
  http_get env (clock w) url = Resp r ->
  status_code r = 200 ->
  outcome (EDGARDownloader.extract_fiscal_info_from_txt env url w)
  = Ok (EDGARDownloader.fiscal_info_of_text (text r)).
Proof.
  intros Hf Hs.
  unfold EDGARDownloader.extract_fiscal_info_from_txt, try_except, bind, outcome.
  rewrite safe_request_run, Hf, safe_request_status, Hs.
  change ((200 =? 429) || (200 =? 403)) with false. cbv beta iota.
  unfold raise_for_status. rewrite Hs. reflexivity.
Qed.

(** C7. For a submission text whose header reads CONFORMED SUBMISSION
    TYPE: 10-Q and CONFORMED PERIOD OF REPORT: 20230331, and which carries
    neither fiscal-year nor fiscal-period tag, the extractor yields form
    type 10-Q, fiscal year 2023 (the first four digits of the period of
    report) and fiscal period Q1, the quarter the date mapping gives for
    31 March. *)
Theorem extract_10Q_of_march_31
    (env : Env) (url : string) (w : World) (r : Response) :
  http_get env (clock w) url = Resp r ->
  status_code r = 200 ->
  option_map (fun m => Re.group_text m "1")
    (Re.search EDGARDownloader.re_submission_type (text r)) = Some "10-Q" ->
  option_map (fun m => Re.group_text m "1")
    (Re.search EDGARDownloader.re_period_of_report (text r)) = Some "20230331" ->
  Re.search EDGARDownloader.re_fiscal_year (text r) = None ->
  Re.search EDGARDownloader.re_fiscal_period (text r) = None ->
  exists fiscal_info,
    outcome (EDGARDownloader.extract_fiscal_info_from_txt env url w) = Ok fiscal_info
    /\ EDGARDownloader.fi_get fiscal_info "form_type" = Some "10-Q"
    /\ EDGARDownloader.fi_get fiscal_info "fiscal_year" = Some "2023"
    /\ EDGARDownloader.fi_get fiscal_info "fiscal_period" = Some "Q1"
    /\ EDGARDownloader.fi_get fiscal_info "period_end_date" = Some "2023-03-31"
    /\ EDGARDownloader.determine_QTR_from_date (Some "2023-03-31") = "Q1"
    /\ EDGARDownloader.strptime_Y_m_d "2023-03-31" = Ok (2023, 3, 31)
    /\ (3 =? 3) && (31 >=? 28) = true.
Proof.
  intros Hf Hs Htype Hperiod Hyear Hfocus.
  eexists. split; [apply (extract_fiscal_info_fetched env url w r Hf Hs)|].
  unfold EDGARDownloader.fiscal_info_of_text.
  rewrite Hyear, Hfocus.
  destruct (Re.search EDGARDownloader.re_submission_type (text r)) as [mt|];
    [|discriminate Htype].
  destruct (Re.search EDGARDownloader.re_period_of_report (text r)) as [mp|];
    [|discriminate Hperiod].
  simpl in Htype, Hperiod. injection Htype as Htype. injection Hperiod as Hperiod.
  rewrite Htype, Hperiod.
  destruct (Re.search EDGARDownloader.re_date_filed (text r));
    destruct (Re.search EDGARDownloader.re_company_name (text r));
    vm_compute; repeat split; reflexivity.
Qed.

Lemma extract_10Q_of_march_31_witness :
  exists fiscal_info,
    outcome (EDGARDownloader.extract_fiscal_info_from_txt
               (Samples.env_of (fun _ => Samples.page Samples.submission_10q))
               "https://www.sec.gov/Archives/edgar/data/320193/0000320193-23-000064.txt"
               Samples.w0) = Ok fiscal_info
    /\ EDGARDownloader.fi_get fiscal_info "form_type" = Some "10-Q"
    /\ EDGARDownloader.fi_get fiscal_info "fiscal_year" = Some "2023"
    /\ EDGARDownloader.fi_get fiscal_info "fiscal_period" = Some "Q1"
    /\ EDGARDownloader.fi_get fiscal_info "period_end_date" = Some "2023-03-31"
    /\ EDGARDownloader.determine_QTR_from_date (Some "2023-03-31") = "Q1"
    /\ EDGARDownloader.strptime_Y_m_d "2023-03-31" = Ok (2023, 3, 31)
    /\ (3 =? 3) && (31 >=? 28) = true.
Proof.
  apply (extract_10Q_of_march_31
           (Samples.env_of (fun _ => Samples.page Samples.submission_10q))
           "https://www.sec.gov/Archives/edgar/data/320193/0000320193-23-000064.txt"
           Samples.w0 (mkResponse 200 Samples.submission_10q));
    vm_compute; reflexivity.
Defined.

(** The extractor ends with a dictionary or with [SystemExit]: no other
    exception leaves it. *)
Lemma extract_fiscal_info_never_raises (env : Env) (url : string) (w : World) :
  (exists fiscal_info,
     outcome (EDGARDownloader.extract_fiscal_info_from_txt env url w) = Ok fiscal_info)
  \/ (exists msg,
        outcome (EDGARDownloader.extract_fiscal_info_from_txt env url w)
        = Raise (SystemExit msg)).
Proof.
  unfold EDGARDownloader.extract_fiscal_info_from_txt, try_except, bind, outcome.
  rewrite safe_request_run.
  destruct (safe_request_outcome_cases (http_get env (clock w) url))
    as [[r Hr]|[msg Hm]].
  - rewrite Hr. left. unfold raise_for_status.
    destruct ((400 <=? status_code r) && (status_code r <? 600)); simpl; eauto.
  - rewrite Hm. right. simpl. eauto.
Qed.

(** A failed fetch of the submission text leaves every field empty. *)
Lemma extract_fiscal_info_degrades (env : Env) (url : string) (w : World)
    (r : Response) :
  http_get env (clock w) url = Resp r ->
  400 <= status_code r < 600 ->
  status_code r <> 429 -> status_code r <> 403 ->
  outcome (EDGARDownloader.extract_fiscal_info_from_txt env url w)
  = Ok EDGARDownloader.empty_fiscal_info.
Proof.
  intros Hf Hs H429 H403.
  unfold EDGARDownloader.extract_fiscal_info_from_txt, try_except, bind, outcome.
  rewrite safe_request_run, Hf, safe_request_status.
  apply Z.eqb_neq in H429, H403. rewrite H429, H403. cbv [orb]. cbv beta iota.
  unfold raise_for_status.
  assert (Hr : (400 <=? status_code r) && (status_code r <? 600) = true) by lia.
  rewrite Hr. reflexivity.
Qed.

(** Without the period of report the dictionary has no key
    [period_end_year]. *)
Lemma no_period_no_key (content : string) :
  Re.search EDGARDownloader.re_period_of_report content = None ->
  Py.dict_get (EDGARDownloader.fiscal_info_of_text content) "period_end_year"
  = None.
Proof.
  intros H. unfold EDGARDownloader.fiscal_info_of_text. rewrite H.
  destruct (Re.search EDGARDownloader.re_submission_type content) as [mt|];
    destruct (Re.search EDGARDownloader.re_fiscal_year content);
    destruct (Re.search EDGARDownloader.re_date_filed content);
    destruct (Re.search EDGARDownloader.re_company_name content);
    destruct (Re.search EDGARDownloader.re_fiscal_period content);
    cbn -[EDGARDownloader.opt_in Py.upper];
    repeat match goal with
           | |- context [if ?b then _ else _] => destruct b
           end; reflexivity.
Qed.

(** C6 is not met by [download_filing].  The extractor itself degrades as
    claimed, but the step that consumes its result reads the key
    [period_end_year], which exists only when the period of report was
    found: for a filing whose submission text has no header fields the
    call ends with an uncaught [KeyError]; with the period of report but
    no filing date it ends with a [KeyError] on [date_filed_year]. *)
Theorem download_filing_raises_without_fiscal_header :
  Re.search EDGARDownloader.re_period_of_report Samples.submission_without_header
  = None
  /\ EDGARDownloader.fiscal_info_of_text Samples.submission_without_header
     = EDGARDownloader.empty_fiscal_info
  /\ outcome (EDGARDownloader.download_filing
                (Samples.env_of Samples.headerless_server)
                Samples.apple_10k Samples.w0)
     = Raise (KeyError "period_end_year")
  /\ outcome (EDGARDownloader.download_filing
                (Samples.env_of (fun _ => Samples.page Samples.submission_10q))
                Samples.apple_10k Samples.w0)
     = Raise (KeyError "date_filed_year").
Proof. repeat split; vm_compute; reflexivity. Qed.

(** *** The abort on a missing header, in general *)

Lemma safe_request_200 (env : Env) (url : string) (w : World) (r : Response) :
  http_get env (clock w) url = Resp r ->
  status_code r = 200 ->
  safe_request env url w = (Ok r, emit (EvGet url) w).
Proof.
  intros Hf Hs. rewrite safe_request_run, Hf, safe_request_status, Hs.
  reflexivity.
Qed.

Lemma required_urls_run_200 (env : Env) (filename seg : string) (w : World)
    (r : Response) :
  Py.index_neg (Py.split "/" filename) 2 = Some seg ->
  http_get env (clock w) (Py.replace ".txt" "-index.htm" filename) = Resp r ->
  status_code r = 200 ->
  exists urls,
    EDGARDownloader.required_urls env filename w
    = (Ok (Some urls), emit (EvGet (Py.replace ".txt" "-index.htm" filename)) w)
    /\ Py.dict_mem urls "complete_txt" = true.
Proof.
  intros Hseg Hf Hs.
  destruct (last_segment_exists "/" filename) as [last Hlast].
  unfold EDGARDownloader.required_urls, bind, lift_res, try_except.
  rewrite Hseg, Hlast. unfold or_raise. cbv beta iota.
  rewrite (safe_request_200 env _ w r Hf Hs), Hs.
  change (negb (200 =? 200)) with false. cbv beta iota.
  unfold raise_for_status. rewrite Hs.
  change ((400 <=? 200) && (200 <? 600)) with false. cbv beta iota.
  unfold ret. eexists. split; [reflexivity|].
  match goal with
  | |- Py.dict_mem (EDGARDownloader.urls_of_index ?u ?f ?c) _ = true =>
      exact (proj2 (urls_of_index_keys u f c "financial_report_xlsx" eq_refl))
  end.
Qed.

Lemma extract_run_200 (env : Env) (url : string) (w : World) (r : Response) :
  http_get env (clock w) url = Resp r ->
  status_code r = 200 ->
  EDGARDownloader.extract_fiscal_info_from_txt env url w
  = (Ok (EDGARDownloader.fiscal_info_of_text (text r)), emit (EvGet url) w).
Proof.
  intros Hf Hs.
  unfold EDGARDownloader.extract_fiscal_info_from_txt, try_except, bind.
  rewrite (safe_request_200 env url w r Hf Hs).
  unfold raise_for_status. rewrite Hs. reflexivity.
Qed.

(** The three keys read before [period_end_year] are always there. *)
Lemma fiscal_info_base_keys (content : string) :
  Py.dict_mem (EDGARDownloader.fiscal_info_of_text content) "company_name" = true
  /\ Py.dict_mem (EDGARDownloader.fiscal_info_of_text content) "fiscal_year" = true
  /\ Py.dict_mem (EDGARDownloader.fiscal_info_of_text content) "fiscal_period" = true.
Proof.
  unfold EDGARDownloader.fiscal_info_of_text.
  repeat match goal with
         | |- context [match ?x with Some _ => _ | None => _ end] =>
             is_var x; destruct x
         | |- context [Re.search ?r content] =>
             let m := fresh "m" in
             generalize (Re.search r content); intros m
         | |- context [if ?b then _ else _] => destruct b
         end;
    repeat split;
    repeat (rewrite dict_mem_set; rewrite ?orb_true_r; try reflexivity);
    reflexivity.
Qed.

Lemma dict_mem_item {V} (d : Py.dict V) (k : string) :
  Py.dict_mem d k = true -> exists v, EDGARDownloader.dict_item d k = Ok v.
Proof.
  unfold Py.dict_mem, EDGARDownloader.dict_item.
  destruct (Py.dict_get d k) as [v|]; [eauto | discriminate].
Qed.

(** Whatever the archive serves, if no text it serves carries the period
    of report, no filing that is not yet recorded can be processed:
    [download_filing] ends with the [KeyError]. *)
Lemma download_filing_needs_the_period_of_report
    (env : Env) (filling : EDGARDownloader.Filing) (seg : string) (w : World) :
  table w !! Database.make_filing_id (SECDailyIndexDownloader.cik filling)
               (SECDailyIndexDownloader.accession_number filling) = None ->
  Py.index_neg (Py.split "/" (SECDailyIndexDownloader.file_name filling)) 2
  = Some seg ->
  (forall n url, exists r,
      http_get env n url = Resp r /\ status_code r = 200
      /\ Re.search EDGARDownloader.re_period_of_report (text r) = None) ->
  outcome (EDGARDownloader.download_filing env filling w)
  = Raise (KeyError "period_end_year").
Proof.
  intros Habsent Hseg Hserver.
  unfold EDGARDownloader.download_filing, outcome.
  unfold bind at 1. unfold Database.is_filing_downloaded at 1.
  rewrite Habsent.
  rewrite bool_decide_eq_false_2 by (intros [x Hx]; discriminate Hx).
  destruct (Hserver (clock w)
              (Py.replace ".txt" "-index.htm" (SECDailyIndexDownloader.file_name filling)))
    as [r1 [Hf1 [Hs1 _]]].
  destruct (required_urls_run_200 env _ seg w r1 Hseg Hf1 Hs1) as [urls [Hrun Hkey]].
  unfold bind at 1. rewrite Hrun.
  destruct urls as [|item urls]; [discriminate Hkey|].
  destruct (dict_mem_item _ _ Hkey) as [u Hu].
  unfold bind at 1. unfold lift_res at 1. rewrite Hu.
  set (w1 := emit _ w).
  destruct (Hserver (clock w1) u) as [r2 [Hf2 [Hs2 Hnone]]].
  unfold bind at 1. rewrite (extract_run_200 env u w1 r2 Hf2 Hs2).
  destruct (fiscal_info_base_keys (text r2)) as [K1 [K2 K3]].
  destruct (dict_mem_item _ _ K1) as [v1 E1].
  destruct (dict_mem_item _ _ K2) as [v2 E2].
  destruct (dict_mem_item _ _ K3) as [v3 E3].
  unfold bind at 1. unfold lift_res at 1. rewrite E1.
  unfold bind at 1. unfold lift_res at 1. rewrite E2.
  unfold bind at 1. unfold lift_res at 1. rewrite E3.
  unfold bind at 1. unfold lift_res at 1.
  unfold EDGARDownloader.dict_item at 1.
  rewrite (no_period_no_key (text r2) Hnone). reflexivity.
Qed.

(** ** DownloadOrchestrator *)

Section Hoare.

Context {S : Type}.

Lemma hoare_ret {A} (P : S -> Prop) (a : A) (Q : res A -> S -> Prop) :
  (forall s, P s -> Q (Ok a) s) -> hoare P (ret a) Q.
Proof. intros H s Hs. apply H, Hs. Qed.

Lemma hoare_lift_res {A} (P : S -> Prop) (r : res A) (Q : res A -> S -> Prop) :
  (forall s, P s -> Q r s) -> hoare P (lift_res r) Q.
Proof. intros H s Hs. apply H, Hs. Qed.

Lemma hoare_bind {A B} (P : S -> Prop) (m : M S A) (f : A -> M S B)
    (R : res A -> S -> Prop) (Q : res B -> S -> Prop) :
  hoare P m R ->
  (forall a, hoare (R (Ok a)) (f a) Q) ->
  (forall e s, R (Raise e) s -> Q (Raise e) s) ->
  hoare P (bind m f) Q.
Proof.
  intros Hm Hf He s Hs. specialize (Hm s Hs). unfold bind.
  destruct (m s) as [[a|e] s']; simpl in *.
  - apply Hf, Hm.
  - apply He, Hm.
Qed.

Lemma keeps_ret {A} (I : S -> Prop) (a : A) : keeps I (ret a).
Proof. intros s Hs. exact Hs. Qed.

Lemma keeps_lift_res {A} (I : S -> Prop) (r : res A) : keeps I (lift_res r).
Proof. intros s Hs. exact Hs. Qed.

Lemma keeps_bind {A B} (I : S -> Prop) (m : M S A) (f : A -> M S B) :
  keeps I m -> (forall a, keeps I (f a)) -> keeps I (bind m f).
Proof.
  intros Hm Hf. apply (hoare_bind I m f (fun _ s => I s)); auto.
Qed.

Lemma keeps_try {A} (I : S -> Prop) (m : M S A) (c : exn -> bool)
    (h : exn -> M S A) :
  keeps I m -> (forall e, keeps I (h e)) -> keeps I (try_except m c h).
Proof.
  intros Hm Hh s Hs. specialize (Hm s Hs). unfold try_except.
  destruct (m s) as [[a|e] s']; simpl in *; [exact Hm|].
  destruct (c e); [apply Hh, Hm | exact Hm].
Qed.

Lemma keeps_for_each {A} (I : S -> Prop) (xs : list A) (body : A -> M S unit) :
  (forall x, keeps I (body x)) -> keeps I (for_each xs body).
Proof.
  intros Hb. induction xs as [|x xs IH]; simpl.
  - apply keeps_ret.
  - apply keeps_bind; [apply Hb | intros _; exact IH].
Qed.

(** Once the invariant is all that the postcondition asks of a raised
    exception, a step that keeps it can be passed. *)
Lemma hoare_bind_keeps {A B} (I : S -> Prop) (m : M S A) (f : A -> M S B)
    (Q : res B -> S -> Prop) :
  keeps I m ->
  (forall a, hoare I (f a) Q) ->
  (forall e s, I s -> Q (Raise e) s) ->
  hoare I (bind m f) Q.
Proof.
  intros Hm Hf He. apply (hoare_bind I m f (fun _ s => I s)); auto.
Qed.

End Hoare.

Lemma hoare_pre {S A} (P P' : S -> Prop) (F : Prop) (m : M S A)
    (Q : res A -> S -> Prop) :
  (forall s, P s -> P' s /\ F) -> (F -> hoare P' m Q) -> hoare P m Q.
Proof.
  intros H1 H2 s Hs. destruct (H1 s Hs) as [Hp Hf]. apply H2; assumption.
Qed.

(** *** Steps that leave the store alone *)

Lemma same_store_emit (w0 w : World) (e : Event) :
  is_EvAdd e = false ->
  (forall path, e <> EvWrite path true) ->
  same_store w0 w -> same_store w0 (emit e w).
Proof.
  intros Ha Hw [Ht [Had Hwr]]. unfold same_store, adds, writes, emit in *; simpl.
  rewrite Ha. repeat split; try assumption.
  destruct e as [| | path [] | | |]; try exact Hwr.
  exfalso. exact (Hw path eq_refl).
Qed.

Lemma safe_request_quiet (env : Env) (url : string) (w0 : World) :
  keeps (same_store w0) (safe_request env url).
Proof.
  intros w H. rewrite safe_request_run. simpl.
  apply same_store_emit; [reflexivity | discriminate | exact H].
Qed.

Lemma mkdir_quiet (env : Env) (path : string) (w0 : World) :
  keeps (same_store w0) (EDGARDownloader.mkdir env path).
Proof.
  intros w H. unfold EDGARDownloader.mkdir.
  destruct (mkdir_fails env (clock w) path); simpl;
    (apply same_store_emit; [reflexivity | discriminate | exact H]).
Qed.

Lemma directory_size_quiet (env : Env) (dir : string) (w0 : World) :
  keeps (same_store w0) (EDGARDownloader.directory_size env dir).
Proof.
  intros w H. unfold EDGARDownloader.directory_size.
  destruct (dir_size env (clock w) dir); simpl;
    (apply same_store_emit; [reflexivity | discriminate | exact H]).
Qed.

Lemma is_filing_downloaded_quiet (cik acc : string) (w0 : World) :
  keeps (same_store w0) (Database.is_filing_downloaded cik acc).
Proof. intros w H. exact H. Qed.

Lemma raise_for_status_quiet {S} (I : S -> Prop) (r : Response) :
  keeps I (raise_for_status r).
Proof.
  intros s H. unfold raise_for_status.
  destruct ((400 <=? status_code r) && (status_code r <? 600)); exact H.
Qed.

Lemma required_urls_quiet (env : Env) (filename : string) (w0 : World) :
  keeps (same_store w0) (EDGARDownloader.required_urls env filename).
Proof.
  unfold EDGARDownloader.required_urls.
  apply keeps_bind; [apply keeps_lift_res | intros seg].
  apply keeps_bind; [apply keeps_lift_res | intros last].
  apply keeps_try; [|intros e; apply keeps_ret].
  apply keeps_bind; [apply safe_request_quiet | intros response].
  destruct (negb (status_code response =? 200)); [apply keeps_ret|].
  apply keeps_bind; [apply raise_for_status_quiet | intros _; apply keeps_ret].
Qed.

Lemma extract_fiscal_info_quiet (env : Env) (url : string) (w0 : World) :
  keeps (same_store w0) (EDGARDownloader.extract_fiscal_info_from_txt env url).
Proof.
  unfold EDGARDownloader.extract_fiscal_info_from_txt.
  apply keeps_try; [|intros e; apply keeps_ret].
  apply keeps_bind; [apply safe_request_quiet | intros response].
  apply keeps_bind; [apply raise_for_status_quiet | intros _; apply keeps_ret].
Qed.

(** *** The download blocks *)

Lemma liftW_keeps {A} (m : M World A) (w0 : World) :
  (forall w1, keeps (same_store w1) m) ->
  keeps (frame_inv w0) (EDGARDownloader.liftW m).
Proof.
  intros Hm fr [Ht [Ha Hw]]. unfold EDGARDownloader.liftW.
  pose proof (Hm (EDGARDownloader.world fr) (EDGARDownloader.world fr)) as H.
  destruct (m (EDGARDownloader.world fr)) as [r w'] eqn:E.
  unfold same_store in H. simpl in H.
  destruct H as [Ht' [Ha' Hw']]; [repeat split|].
  unfold frame_inv; simpl. rewrite Ht', Ha', Hw'. repeat split; assumption.
Qed.

(** Writing a file and listing it go together. *)
Lemma write_and_record_keeps (env : Env) (path : string) (w0 : World) :
  keeps (frame_inv w0)
    (bind (EDGARDownloader.liftW (EDGARDownloader.write_file env path))
          (fun _ => EDGARDownloader.append_downloaded path)).
Proof.
  intros fr [Ht [Ha Hw]].
  unfold bind, EDGARDownloader.liftW, EDGARDownloader.write_file,
    EDGARDownloader.append_downloaded, modify.
  destruct (write_fails env (clock (EDGARDownloader.world fr)) path);
    unfold frame_inv, adds, writes in *; simpl.
  - repeat split; assumption.
  - rewrite rev_app_distr. simpl. rewrite <- Hw. repeat split; assumption.
Qed.

Lemma append_failed_keeps (what : string) (w0 : World) :
  keeps (frame_inv w0) (EDGARDownloader.append_failed what).
Proof. intros fr H. exact H. Qed.

Lemma set_has_xbrl_format_keeps (w0 : World) :
  keeps (frame_inv w0) EDGARDownloader.set_has_xbrl_format.
Proof. intros fr H. exact H. Qed.

Lemma fetch_to_keeps (env : Env) (url path : string) (w0 : World) :
  keeps (frame_inv w0) (EDGARDownloader.fetch_to env url path).
Proof.
  unfold EDGARDownloader.fetch_to.
  apply keeps_bind; [apply liftW_keeps; intros; apply mkdir_quiet | intros _].
  apply keeps_bind; [apply liftW_keeps; intros; apply safe_request_quiet | intros resp].
  destruct (status_code resp =? 200);
    [apply write_and_record_keeps | apply keeps_ret].
Qed.

Lemma fetch_then_mkdir_keeps (env : Env) (urls : Py.dict string)
    (key path : string) (w0 : World) :
  keeps (frame_inv w0) (EDGARDownloader.fetch_then_mkdir env urls key path).
Proof.
  unfold EDGARDownloader.fetch_then_mkdir.
  apply keeps_bind; [apply keeps_lift_res | intros url].
  apply keeps_bind; [apply liftW_keeps; intros; apply safe_request_quiet | intros resp].
  apply keeps_bind; [apply liftW_keeps; intros; apply mkdir_quiet | intros _].
  destruct (status_code resp =? 200);
    [apply write_and_record_keeps | apply keeps_ret].
Qed.

Lemma html_step_keeps (env : Env) (form_type file_name d1 d2 : string)
    (item : string * string) (w0 : World) :
  keeps (frame_inv w0) (EDGARDownloader.html_step env form_type file_name d1 d2 item).
Proof.
  destruct item as [key url]. unfold EDGARDownloader.html_step.
  destruct (String.eqb key form_type); [apply fetch_to_keeps|].
  destruct (Py.contains "xbrl" key).
  - apply keeps_bind; [apply set_has_xbrl_format_keeps | intros _; apply fetch_to_keeps].
  - destruct (Py.contains "EX" (Py.upper key)); [apply fetch_to_keeps | apply keeps_ret].
Qed.

Lemma download_documents_keeps (env : Env) (form_type file_name d1 d2 : string)
    (urls : Py.dict string) (w0 : World) :
  keeps (frame_inv w0)
    (EDGARDownloader.download_documents env form_type file_name d1 d2 urls).
Proof.
  unfold EDGARDownloader.download_documents.
  apply keeps_bind.
  - destruct (existsb (Py.dict_mem urls) EDGARDownloader.primary_forms).
    + apply keeps_try; [|intros e; apply append_failed_keeps].
      apply keeps_for_each. intros item. apply html_step_keeps.
    + apply keeps_try; [|intros e; apply append_failed_keeps].
      apply fetch_then_mkdir_keeps.
  - intros _. apply keeps_try; [|intros e; apply append_failed_keeps].
    apply fetch_then_mkdir_keeps.
Qed.

(** *** The commit *)

Lemma download_post_raise (w s : World) (e : exn) :
  table s = table w -> adds s = adds w -> download_post w (Raise e) s.
Proof. intros Ht Ha. left. repeat split; try assumption; discriminate. Qed.

Lemma download_post_none (w s : World) :
  same_store w s -> download_post w (Ok None) s.
Proof. intros [Ht [Ha _]]. left. repeat split; try assumption; discriminate. Qed.

Lemma run_frame_post {A} (m : M EDGARDownloader.Frame A) (w : World) :
  keeps (frame_inv w) m ->
  hoare (same_store w) (EDGARDownloader.run_frame m)
    (fun r s =>
       match r with
       | Ok (_, fr) => frame_inv w fr /\ EDGARDownloader.world fr = s
       | Raise _ => table s = table w /\ adds s = adds w
       end).
Proof.
  intros Hm w1 [Ht [Ha Hw]]. unfold EDGARDownloader.run_frame.
  assert (H0 : frame_inv w (EDGARDownloader.mkFrame w1 [] [] 0))
    by (unfold frame_inv; simpl; auto).
  specialize (Hm _ H0).
  destruct (m (EDGARDownloader.mkFrame w1 [] [] 0)) as [[a|e] fr]; simpl in *.
  - split; [exact Hm | reflexivity].
  - destruct Hm as [Ht' [Ha' _]]. split; assumption.
Qed.

Lemma commit_post (env : Env) (filling : EDGARDownloader.Filing)
    (fiscal_info : EDGARDownloader.FiscalInfo)
    (company_name ticker file_name dir2 : string)
    (fr : EDGARDownloader.Frame) (w : World) :
  frame_inv w fr ->
  download_post w
    (fst (EDGARDownloader.commit env filling fiscal_info company_name ticker
            file_name dir2 fr (EDGARDownloader.world fr)))
    (snd (EDGARDownloader.commit env filling fiscal_info company_name ticker
            file_name dir2 fr (EDGARDownloader.world fr))).
Proof.
  intros [Ht [Ha Hw]]. unfold EDGARDownloader.commit.
  destruct (EDGARDownloader.downloaded fr) as [|p ps] eqn:Ed.
  - left. simpl in *. split; [assumption|]. split; [assumption|].
    intros results H. injection H as <-. simpl. split; [reflexivity | exact Hw].
  - unfold bind, EDGARDownloader.directory_size.
    destruct (dir_size env (clock (EDGARDownloader.world fr)) dir2) as [n|]; simpl.
    + unfold Database.add_filing. simpl.
      match goal with
      | |- context [db_fails env ?c] => destruct (db_fails env c)
      end; simpl.
      * right. eexists _, _, _. unfold adds, writes in *; simpl.
        rewrite Ha, Hw. repeat split. discriminate.
      * right. eexists _, _, _. unfold adds, writes in *; simpl.
        rewrite Ha, Hw. repeat split. discriminate.
    + apply download_post_raise; unfold adds in *; simpl; assumption.
Qed.

Lemma download_filing_post (env : Env) (filling : EDGARDownloader.Filing)
    (w : World) :
  hoare (same_store w) (EDGARDownloader.download_filing env filling)
        (download_post w).
Proof.
  assert (Hraise : forall e s, same_store w s -> download_post w (Raise e) s).
  { intros e s [Ht [Ha _]]. apply download_post_raise; assumption. }
  unfold EDGARDownloader.download_filing.
  apply hoare_bind_keeps; [apply is_filing_downloaded_quiet | | exact Hraise].
  intros [|].
  { apply hoare_ret. intros s [Ht [Ha Hw]]. left.
    split; [assumption|]. split; [assumption|].
    intros results H. injection H as <-. simpl. split; [reflexivity | exact Hw]. }
  apply hoare_bind_keeps; [apply required_urls_quiet | | exact Hraise].
  intros [[|item urls]|]; try (apply hoare_ret; apply download_post_none).
  apply hoare_bind_keeps; [apply keeps_lift_res | | exact Hraise]. intros complete_txt.
  apply hoare_bind_keeps; [apply extract_fiscal_info_quiet | | exact Hraise].
  intros fiscal_info.
  apply hoare_bind_keeps; [apply keeps_lift_res | | exact Hraise]. intros name.
  apply hoare_bind_keeps; [apply keeps_lift_res | | exact Hraise]. intros fiscal_year.
  apply hoare_bind_keeps; [apply keeps_lift_res | | exact Hraise]. intros fiscal_period.
  apply hoare_bind_keeps; [apply keeps_lift_res | | exact Hraise]. intros period_end_year.
  apply hoare_bind_keeps; [apply keeps_lift_res | | exact Hraise]. intros date_filed_year.
  apply hoare_bind_keeps; [apply keeps_lift_res | | exact Hraise]. intros file_name.
  unfold EDGARDownloader.create_folder_path.
  eapply hoare_bind.
  - apply run_frame_post. apply download_documents_keeps.
  - intros [[] fr] s [Hinv Hs]. subst s. apply commit_post, Hinv.
  - intros e s [Ht Ha]. apply download_post_raise; assumption.
Qed.

(** *** When every document fetch fails *)

Lemma safe_request_outcome_resp (f : Fetch) (resp : Response) :
  safe_request_outcome f = Ok resp -> f = Resp resp \/ resp = timeout_response.
Proof.
  destruct f as [r|e].
  - rewrite safe_request_status.
    destruct ((status_code r =? 429) || (status_code r =? 403)) eqn:E.
    + unfold safe_request_outcome, safe_request_try.
      apply orb_prop in E as [E|E].
      * rewrite E. simpl. discriminate.
      * rewrite E. destruct (status_code r =? 429); simpl; discriminate.
    + intros H. injection H as ->. left. reflexivity.
  - destruct e; simpl; intros H; try discriminate H;
      injection H as <-; right; reflexivity.
Qed.

Lemma failed_request (env : Env) (url : string) (t0 : nat) :
  fetches_fail_from env t0 ->
  hoare (failing_inv t0) (EDGARDownloader.liftW (safe_request env url))
        (fun r fr => failing_inv t0 fr
                     /\ forall resp, r = Ok resp -> status_code resp <> 200).
Proof.
  intros Hfail fr [Hc Hd]. unfold EDGARDownloader.liftW.
  rewrite safe_request_run. cbn [fst snd]. split.
  - split; [unfold clock in *; simpl; lia | exact Hd].
  - intros resp E.
    destruct (safe_request_outcome_resp _ _ E) as [Hf | ->].
    + exact (Hfail _ _ _ Hc Hf).
    + discriminate.
Qed.

Lemma mkdir_keeps_failing (env : Env) (path : string) (t0 : nat) :
  keeps (failing_inv t0) (EDGARDownloader.liftW (EDGARDownloader.mkdir env path)).
Proof.
  intros fr [Hc Hd]. unfold EDGARDownloader.liftW, EDGARDownloader.mkdir.
  destruct (mkdir_fails env (clock (EDGARDownloader.world fr)) path);
    (split; [unfold clock in *; simpl; lia | exact Hd]).
Qed.

Lemma failing_inv_modify (t0 : nat) (f : EDGARDownloader.Frame -> EDGARDownloader.Frame) :
  (forall fr, EDGARDownloader.world (f fr) = EDGARDownloader.world fr
              /\ EDGARDownloader.downloaded (f fr) = EDGARDownloader.downloaded fr) ->
  keeps (failing_inv t0) (modify f).
Proof.
  intros H fr [Hc Hd]. unfold modify. cbn [fst snd].
  destruct (H fr) as [Hw Hl]. unfold failing_inv. rewrite Hw, Hl. split; assumption.
Qed.

Lemma fetch_to_fails (env : Env) (url path : string) (t0 : nat) :
  fetches_fail_from env t0 ->
  keeps (failing_inv t0) (EDGARDownloader.fetch_to env url path).
Proof.
  intros Hfail. unfold EDGARDownloader.fetch_to.
  apply keeps_bind; [apply mkdir_keeps_failing | intros _].
  eapply hoare_bind; [apply failed_request, Hfail | | intros e fr [H _]; exact H].
  intros resp.
  apply (hoare_pre _ (failing_inv t0) (status_code resp <> 200)).
  { intros fr [H Hs]. split; [exact H | apply Hs; reflexivity]. }
  intros Hs. apply Z.eqb_neq in Hs. rewrite Hs. apply keeps_ret.
Qed.

Lemma fetch_then_mkdir_fails (env : Env) (urls : Py.dict string)
    (key path : string) (t0 : nat) :
  fetches_fail_from env t0 ->
  keeps (failing_inv t0) (EDGARDownloader.fetch_then_mkdir env urls key path).
Proof.
  intros Hfail. unfold EDGARDownloader.fetch_then_mkdir.
  apply keeps_bind; [apply keeps_lift_res | intros url].
  eapply hoare_bind; [apply failed_request, Hfail | | intros e fr [H _]; exact H].
  intros resp.
  apply (hoare_pre _ (failing_inv t0) (status_code resp <> 200)).
  { intros fr [H Hs]. split; [exact H | apply Hs; reflexivity]. }
  intros Hs. apply Z.eqb_neq in Hs. rewrite Hs.
  apply keeps_bind; [apply mkdir_keeps_failing | intros _; apply keeps_ret].
Qed.

Lemma download_documents_fail (env : Env)
    (form_type file_name d1 d2 : string) (urls : Py.dict string) (t0 : nat) :
  fetches_fail_from env t0 ->
  keeps (failing_inv t0)
    (EDGARDownloader.download_documents env form_type file_name d1 d2 urls).
Proof.
  intros Hfail.
  assert (Hfailed : forall what, keeps (failing_inv t0)
                                   (EDGARDownloader.append_failed what)).
  { intros what. apply failing_inv_modify. intros fr. split; reflexivity. }
  unfold EDGARDownloader.download_documents.
  apply keeps_bind.
  - destruct (existsb (Py.dict_mem urls) EDGARDownloader.primary_forms).
    + apply keeps_try; [|intros e; apply Hfailed].
      apply keeps_for_each. intros [key url]. unfold EDGARDownloader.html_step.
      destruct (String.eqb key form_type); [apply fetch_to_fails, Hfail|].
      destruct (Py.contains "xbrl" key).
      * apply keeps_bind; [|intros _; apply fetch_to_fails, Hfail].
        apply failing_inv_modify. intros fr. split; reflexivity.
      * destruct (Py.contains "EX" (Py.upper key));
          [apply fetch_to_fails, Hfail | apply keeps_ret].
    + apply keeps_try; [|intros e; apply Hfailed].
      apply fetch_then_mkdir_fails, Hfail.
  - intros _. apply keeps_try; [|intros e; apply Hfailed].
    apply fetch_then_mkdir_fails, Hfail.
Qed.

(** The two requests that come before the documents: the index page and
    the submission text. *)
Lemma required_urls_ticks (env : Env) (filename : string) (w : World) :
  match fst (EDGARDownloader.required_urls env filename w) with
  | Ok _ => clock (snd (EDGARDownloader.required_urls env filename w))
            = S (clock w)
  | Raise _ => True
  end.
Proof.
  unfold EDGARDownloader.required_urls, bind, lift_res, try_except.
  destruct (or_raise (Py.index_neg (Py.split "/" filename) 2) IndexError);
    [|exact I].
  destruct (or_raise (Py.index_neg (Py.split "/" filename) 1) IndexError);
    [|exact I].
  rewrite safe_request_run.
  destruct (safe_request_outcome _) as [response|e]; cbn [fst snd].
  - destruct (negb (status_code response =? 200)); [reflexivity|].
    unfold raise_for_status.
    destruct ((400 <=? status_code response) && (status_code response <? 600));
      reflexivity.
  - destruct (is_Exception e); [reflexivity | exact I].
Qed.

Lemma extract_fiscal_info_ticks (env : Env) (url : string) (w : World) :
  clock (snd (EDGARDownloader.extract_fiscal_info_from_txt env url w))
  = S (clock w).
Proof.
  unfold EDGARDownloader.extract_fiscal_info_from_txt, bind, try_except.
  rewrite safe_request_run.
  destruct (safe_request_outcome _) as [response|e]; cbn [fst snd].
  - unfold raise_for_status.
    destruct ((400 <=? status_code response) && (status_code response <? 600));
      reflexivity.
  - destruct (is_Exception e); reflexivity.
Qed.

Lemma download_filing_lists_nothing (env : Env)
    (filling : EDGARDownloader.Filing) (w : World) :
  fetches_fail_from env (clock w + 2) ->
  forall results,
    outcome (EDGARDownloader.download_filing env filling w) = Ok (Some results) ->
    EDGARDownloader.downloaded_files results = [].
Proof.
  intros Hfail.
  set (Q := fun (r : res (option EDGARDownloader.Results)) (_ : World) =>
              forall results, r = Ok (Some results) ->
                              EDGARDownloader.downloaded_files results = []).
  set (P := fun (k : nat) (s : World) => (clock w + k <= clock s)%nat).
  assert (Hraise : forall (I : World -> Prop) e s, I s -> Q (Raise e) s)
    by (intros I e s _ results H; discriminate H).
  assert (Hnone : forall (I : World -> Prop) s, I s -> Q (Ok None) s)
    by (intros I s _ results H; discriminate H).
  enough (H : hoare (P O) (EDGARDownloader.download_filing env filling) Q).
  { apply (H w). unfold P. lia. }
  unfold EDGARDownloader.download_filing.
  apply hoare_bind_keeps;
    [intros s Hs; exact Hs | | apply Hraise].
  intros [|].
  { apply hoare_ret. intros s _ results H. injection H as <-. reflexivity. }
  apply (hoare_bind _ _ _
           (fun r s => match r with Ok _ => P 1%nat s | Raise _ => True end)).
  { intros s Hs. pose proof (required_urls_ticks env
                               (SECDailyIndexDownloader.file_name filling) s) as Ht.
    destruct (fst (EDGARDownloader.required_urls env _ s)); [|exact I].
    unfold P in *. rewrite Ht. lia. }
  2: { intros e s _. apply (Hraise (fun _ => True)). exact I. }
  intros [[|item urls]|]; try (apply hoare_ret; apply Hnone).
  apply hoare_bind_keeps; [apply keeps_lift_res | | apply Hraise].
  intros complete_txt.
  apply (hoare_bind _ _ _ (fun _ s => P 2%nat s)).
  { intros s Hs. unfold P in *. rewrite extract_fiscal_info_ticks. lia. }
  2: { intros e s Hs. apply (Hraise (P 2%nat)). exact Hs. }
  intros fiscal_info.
  apply hoare_bind_keeps; [apply keeps_lift_res | | apply Hraise]. intros name.
  apply hoare_bind_keeps; [apply keeps_lift_res | | apply Hraise]. intros fiscal_year.
  apply hoare_bind_keeps; [apply keeps_lift_res | | apply Hraise]. intros fiscal_period.
  apply hoare_bind_keeps; [apply keeps_lift_res | | apply Hraise]. intros period_end_year.
  apply hoare_bind_keeps; [apply keeps_lift_res | | apply Hraise]. intros date_filed_year.
  apply hoare_bind_keeps; [apply keeps_lift_res | | apply Hraise]. intros file_name.
  unfold EDGARDownloader.create_folder_path.
  apply (hoare_bind _ _ _
           (fun r s => match r with
                       | Ok (_, fr) => EDGARDownloader.downloaded fr = []
                       | Raise _ => True
                       end)).
  - intros s Hs. unfold EDGARDownloader.run_frame.
    pose proof (download_documents_fail env
                  (SECDailyIndexDownloader.form_type filling) file_name
                  (EDGARDownloader.path_join (base_dir env)
                     (SECDailyIndexDownloader.cik filling))
                  (EDGARDownloader.path_join (target_dir env)
                     (SECDailyIndexDownloader.cik filling))
                  (item :: urls) (clock w + 2) Hfail
                  (EDGARDownloader.mkFrame s [] [] 0)) as Hk.
    destruct (EDGARDownloader.download_documents _ _ _ _ _ _ _) as [[a|e] fr];
      cbn [fst snd] in *; [|exact I].
    apply Hk. split; [exact Hs | reflexivity].
  - intros [[] fr] s Hd. unfold EDGARDownloader.commit. cbn [snd]. rewrite Hd.
    intros results H. cbn in H. injection H as <-. reflexivity.
  - intros e s _. apply (Hraise (fun _ => True)). exact I.
Qed.

(** C1. [download_filing] writes a completion record only when at least
    one document was downloaded and written during the call: if the call
    changes the store or calls [add_filing], it returns a result whose
    list of downloaded files is not empty and consists of the files
    written during the call; and whenever it returns a result with an
    empty list, [add_filing] was not called, the store is unchanged, no
    file was written, and [is_filing_downloaded] answers as before, so an
    absent filing stays absent.  That is the case when every document
    fetch fails: the first two requests of a call are those of the index
    page and of the submission text, and when no request from the third
    on is answered with status 200, whatever the first two are answered,
    the call adds nothing to the store and lists no file, whether it
    returns or raises; a call that changes the store or calls
    [add_filing] is therefore never one whose fetches all fail from the
    third request on. *)
Theorem record_written_only_with_downloaded_files
    (env : Env) (filling : EDGARDownloader.Filing) (w : World) :
  (table (snd (EDGARDownloader.download_filing env filling w)) <> table w
   \/ adds (snd (EDGARDownloader.download_filing env filling w)) <> adds w ->
   exists results,
     outcome (EDGARDownloader.download_filing env filling w) = Ok (Some results)
     /\ EDGARDownloader.downloaded_files results <> []
     /\ writes (snd (EDGARDownloader.download_filing env filling w))
        = List.rev (EDGARDownloader.downloaded_files results) ++ writes w)
  /\ (forall results,
        outcome (EDGARDownloader.download_filing env filling w) = Ok (Some results) ->
        EDGARDownloader.downloaded_files results = [] ->
        adds (snd (EDGARDownloader.download_filing env filling w)) = adds w
        /\ table (snd (EDGARDownloader.download_filing env filling w)) = table w
        /\ writes (snd (EDGARDownloader.download_filing env filling w)) = writes w
        /\ forall cik acc,
             outcome (Database.is_filing_downloaded cik acc
                        (snd (EDGARDownloader.download_filing env filling w)))
             = outcome (Database.is_filing_downloaded cik acc w))
  /\ (fetches_fail_from env (clock w + 2) ->
      adds (snd (EDGARDownloader.download_filing env filling w)) = adds w
      /\ table (snd (EDGARDownloader.download_filing env filling w)) = table w
      /\ (forall cik acc,
            outcome (Database.is_filing_downloaded cik acc
                       (snd (EDGARDownloader.download_filing env filling w)))
            = outcome (Database.is_filing_downloaded cik acc w))
      /\ (forall results,
            outcome (EDGARDownloader.download_filing env filling w)
            = Ok (Some results) ->
            EDGARDownloader.downloaded_files results = []
            /\ writes (snd (EDGARDownloader.download_filing env filling w))
               = writes w))
  /\ (table (snd (EDGARDownloader.download_filing env filling w)) <> table w
      \/ adds (snd (EDGARDownloader.download_filing env filling w)) <> adds w ->
      ~ fetches_fail_from env (clock w + 2)).
Proof.
  pose proof (download_filing_post env filling w w) as H.
  pose proof (download_filing_lists_nothing env filling w) as Hfail.
  assert (H0 : same_store w w) by (unfold same_store; auto).
  specialize (H H0). unfold outcome in *.
  destruct H as [[Ht [Ha Hr]] | [results [id [ok [Hr [Hd [_ [Hw Ha]]]]]]]].
  - split; [|split; [|split]].
    + intros [N|N]; contradiction.
    + intros results Hres Hd. destruct (Hr results Hres) as [_ Hw].
      repeat split; try assumption.
      intros cik acc. unfold Database.is_filing_downloaded; simpl.
      rewrite Ht. reflexivity.
    + intros _. split; [exact Ha|]. split; [exact Ht|]. split.
      * intros cik acc. unfold Database.is_filing_downloaded; simpl.
        rewrite Ht. reflexivity.
      * intros results Hres. exact (Hr results Hres).
    + intros [N|N]; contradiction.
  - split; [|split; [|split]].
    + intros _. exists results. repeat split; assumption.
    + intros results' Hres Hd'. rewrite Hr in Hres. injection Hres as <-.
      contradiction.
    + intros Hf. exfalso. apply Hd. exact (Hfail Hf results Hr).
    + intros _ Hf. apply Hd. exact (Hfail Hf results Hr).
Qed.

Lemma record_written_only_with_downloaded_files_witness :
  fetches_fail_from Samples.env_documents_fail (clock Samples.w0 + 2)
  /\ table (snd (EDGARDownloader.download_filing Samples.env_documents_fail
                   Samples.apple_10k Samples.w0)) = table Samples.w0
  /\ outcome (Database.is_filing_downloaded "0000320193" "0000320193-23-000106"
                (snd (EDGARDownloader.download_filing Samples.env_documents_fail
                        Samples.apple_10k Samples.w0)))
     = Ok false.
Proof.
  assert (Hfail : fetches_fail_from Samples.env_documents_fail
                    (clock Samples.w0 + 2)).
  { intros t url r Ht. simpl in Ht.
    unfold Samples.env_documents_fail. cbn [http_get].
    destruct (Nat.ltb_spec t 2) as [Hlt|_]; [lia|].
    intros E. injection E as <-. discriminate. }
  split; [exact Hfail|].
  destruct (proj1 (proj2 (proj2 (record_written_only_with_downloaded_files
                                   Samples.env_documents_fail Samples.apple_10k
                                   Samples.w0))) Hfail) as [_ [Ht [Hq _]]].
  split; [exact Ht|]. rewrite Hq. reflexivity.
Defined.

(** Both outcomes occur.  When the archive serves every document, the
    call returns the two files it wrote and the filing is recorded. *)
Lemma download_filing_records_a_success :
  option_map EDGARDownloader.downloaded_files
    (match outcome (EDGARDownloader.download_filing
                      (Samples.env_of Samples.archive_server)
                      Samples.apple_10k Samples.w0) with
     | Ok r => r
     | Raise _ => None
     end)
  = Some ["sec-data/0000320193/2023_10-K_Apple Inc._main.htm";
          "sec-xbrl/0000320193/2023_10-K_Apple Inc._financial_report.xlsx"]
  /\ outcome (Database.is_filing_downloaded "0000320193" "0000320193-23-000106"
                (snd (EDGARDownloader.download_filing
                        (Samples.env_of Samples.archive_server)
                        Samples.apple_10k Samples.w0)))
     = Ok true.
Proof. split; vm_compute; reflexivity. Qed.

(** When every document fetch fails, the call returns an empty list and
    the filing stays absent. *)
Lemma download_filing_leaves_a_failure_unrecorded :
  option_map EDGARDownloader.downloaded_files
    (match outcome (EDGARDownloader.download_filing Samples.env_documents_fail
                      Samples.apple_10k Samples.w0) with
     | Ok r => r
     | Raise _ => None
     end)
  = Some []
  /\ outcome (Database.is_filing_downloaded "0000320193" "0000320193-23-000106"
                (snd (EDGARDownloader.download_filing Samples.env_documents_fail
                        Samples.apple_10k Samples.w0)))
     = Ok false.
Proof. split; vm_compute; reflexivity. Qed.

(** * Further properties *)

(** ** FilingStore, continued *)

Lemma no_underscore_cons (c : ascii) (s : string) :
  Py.contains "_" (String c s) = false ->
  c <> "_"%char /\ Py.contains "_" s = false.
Proof.
  simpl. unfold Py.chr_eqb. intros H.
  apply orb_false_elim in H as [H1 H2].
  split; [|exact H2].
  intros ->. discriminate H1.
Qed.

(** X1. The identity [cik_accession] tells filings apart as long as the
    CIK holds no underscore: two such pairs with the same [filing_id] are
    the same pair. *)
Theorem make_filing_id_injective (c1 a1 c2 a2 : string) :
  Py.contains "_" c1 = false ->
  Py.contains "_" c2 = false ->
  Database.make_filing_id c1 a1 = Database.make_filing_id c2 a2 ->
  c1 = c2 /\ a1 = a2.
Proof.
  unfold Database.make_filing_id.
  revert c2. induction c1 as [|x c1 IH]; intros c2 H1 H2 E.
  - destruct c2 as [|y c2]; simpl in E.
    + injection E as E. auto.
    + injection E as Ey _. apply no_underscore_cons in H2 as [N _].
      exfalso. apply N. symmetry. exact Ey.
  - destruct c2 as [|y c2]; simpl in E.
    + injection E as Ex _. apply no_underscore_cons in H1 as [N _].
      exfalso. apply N. exact Ex.
    + injection E as Exy E.
      apply no_underscore_cons in H1 as [_ H1].
      apply no_underscore_cons in H2 as [_ H2].
      destruct (IH c2 H1 H2 E) as [-> ->]. subst y. auto.
Qed.

Lemma make_filing_id_injective_witness :
  Py.contains "_" "0000320193" = false
  /\ ("0000320193" = "0000320193" /\ "0000320193-23-000106" = "0000320193-23-000106").
Proof.
  split; [reflexivity|].
  exact (make_filing_id_injective "0000320193" "0000320193-23-000106"
           "0000320193" "0000320193-23-000106" eq_refl eq_refl eq_refl).
Defined.

(** With an underscore in the CIK two different pairs can share an id. *)
Lemma make_filing_id_collision :
  Database.make_filing_id "1_2" "3" = Database.make_filing_id "1" "2_3".
Proof. reflexivity. Qed.

(** X2. [add_filing] is an upsert or nothing: it never touches the record
    of another filing, a call that returns [False] leaves the table as it
    was, and the table grows by one record at most.  Adding the same
    record again after a success is not without effect: the second call
    replaces the record by one with the same columns but for the two
    timestamps, [created_at] and [updated_at], which become those of the
    second call. *)
Theorem add_filing_upsert (env : Env) (d : Database.FilingData) (w : World) :
  (forall id, id <> Database.filing_id d ->
     table (snd (Database.add_filing env d w)) !! id = table w !! id)
  /\ (outcome (Database.add_filing env d w) = Ok false ->
        table (snd (Database.add_filing env d w)) = table w)
  /\ (size (table (snd (Database.add_filing env d w))) <= S (size (table w)))%nat
  /\ (outcome (Database.add_filing env d w) = Ok true ->
        outcome (Database.add_filing env d (snd (Database.add_filing env d w)))
        = Ok true ->
        exists row,
          table (snd (Database.add_filing env d w)) !! Database.filing_id d
          = Some row
          /\ table (snd (Database.add_filing env d
                           (snd (Database.add_filing env d w))))
             = <[Database.filing_id d :=
                   mkRow (row_cik row) (row_accession_number row)
                     (row_form_type row) (row_company_name row)
                     (row_ticker row) (row_fiscal_year row)
                     (row_fiscal_period row) (row_filing_date row)
                     (row_period_end_date row) (row_file_path row)
                     (row_file_count row) (row_total_size row)
                     (row_download_status row)
                     (current_timestamp env
                        (clock (snd (Database.add_filing env d w))))
                     (now_isoformat env
                        (clock (snd (Database.add_filing env d w))))]>
                 (table (snd (Database.add_filing env d w)))).
Proof.
  unfold Database.add_filing, outcome.
  destruct (db_fails env (clock w)) eqn:Ef;
    destruct (Database.row_of d (current_timestamp env (clock w))
                (now_isoformat env (clock w))) as [row|] eqn:Er;
    cbn [fst snd table emit];
    (split; [|split; [|split]]); try reflexivity; try discriminate; try lia.
  - intros id Hid. rewrite lookup_insert_ne by congruence. reflexivity.
  - rewrite map_size_insert. destruct (table w !! Database.filing_id d); simpl; lia.
  - intros _ H2. exists row. split; [apply lookup_insert_eq|].
    match goal with
    | |- context [db_fails env ?c] => destruct (db_fails env c)
    end; [discriminate H2|].
    unfold Database.row_of in *.
    destruct (Database.cik d), (Database.accession_number d),
      (Database.form_type d); try discriminate Er.
    injection Er as <-. reflexivity.
Qed.

(** X3. [delete_filing_record] returns 1 when the filing was recorded and
    0 otherwise, removes that record only, and leaves the table as it was
    when there was nothing to delete. *)
Theorem delete_filing_record_count (cik acc : string) (w : World) :
  outcome (Database.delete_filing_record cik acc w)
  = Ok (if bool_decide (is_Some (table w !! Database.make_filing_id cik acc))
        then 1 else 0)
  /\ (forall id, id <> Database.make_filing_id cik acc ->
        table (snd (Database.delete_filing_record cik acc w)) !! id = table w !! id)
  /\ (table w !! Database.make_filing_id cik acc = None ->
        table (snd (Database.delete_filing_record cik acc w)) = table w)
  /\ (is_Some (table w !! Database.make_filing_id cik acc) ->
        S (size (table (snd (Database.delete_filing_record cik acc w))))
        = size (table w)).
Proof.
  unfold Database.delete_filing_record, outcome; simpl.
  repeat split.
  - intros id Hid. rewrite lookup_delete_ne by congruence. reflexivity.
  - intros H. apply delete_id, H.
  - intros H. rewrite map_size_delete_Some by exact H.
    destruct (size (table w)) eqn:E; [|reflexivity].
    apply map_size_empty_inv in E. rewrite E, lookup_empty in H.
    destruct H as [x Hx]. discriminate Hx.
Qed.

(** X4. Within the number of parameters that SQLite accepts, the batch
    check answers as the point lookup does: the id of a pair is in the
    returned set exactly when it is among the ids asked for and
    [is_filing_downloaded] is true of the pair.  A longer list is not
    split: the call raises [OperationalError].  In both cases the store is
    not changed. *)
Theorem batch_check_agrees_with_lookup
    (env : Env) (filing_ids : list string) (cik acc : string) (w : World) :
  snd (DatabaseQueries.batch_check_downloaded env filing_ids w) = w
  /\ ((length filing_ids <= Pos.to_nat (max_variable_number env))%nat ->
      exists found,
        outcome (DatabaseQueries.batch_check_downloaded env filing_ids w)
        = Ok found
        /\ (Database.make_filing_id cik acc ∈ found
            <-> In (Database.make_filing_id cik acc) filing_ids
                /\ outcome (Database.is_filing_downloaded cik acc w) = Ok true))
  /\ ((Pos.to_nat (max_variable_number env) < length filing_ids)%nat ->
      outcome (DatabaseQueries.batch_check_downloaded env filing_ids w)
      = Raise OperationalError).
Proof.
  unfold DatabaseQueries.batch_check_downloaded,
    DatabaseQueries.too_many_variables, outcome.
  destruct filing_ids as [|x ids] eqn:E.
  { split; [reflexivity|]. split.
    - intros _. exists ∅. split; [reflexivity|]. split.
      + intros H. apply elem_of_empty in H. contradiction.
      + intros [[] _].
    - simpl. lia. }
  rewrite <- E. clear E.
  destruct (Nat.ltb_spec (Pos.to_nat (max_variable_number env))
                         (length filing_ids)) as [Hlt|Hle].
  - split; [reflexivity|]. split; [lia | reflexivity].
  - split; [reflexivity|]. split; [|lia].
    intros _. eexists. split; [reflexivity|].
    rewrite elem_of_list_to_set, list_elem_of_In, filter_In.
    unfold Database.is_filing_downloaded; simpl.
    split; intros [H1 H2]; split; try exact H1.
    + rewrite H2. reflexivity.
    + injection H2 as H2. exact H2.
Qed.

Lemma batch_check_agrees_with_lookup_witness :
  outcome (DatabaseQueries.batch_check_downloaded
             (Samples.env_of Samples.archive_server)
             (repeat "0000320193_0000320193-23-000106" 1000) Samples.w0)
  = Raise OperationalError.
Proof.
  apply (batch_check_agrees_with_lookup (Samples.env_of Samples.archive_server)
           (repeat "0000320193_0000320193-23-000106" 1000)
           "0000320193" "0000320193-23-000106" Samples.w0).
  rewrite repeat_length. vm_compute. lia.
Defined.

(** *** The cached batch check *)

Lemma split_cached_spec (cache : gmap string bool) (ids : list string)
    (res0 : gmap string bool) (un0 : list string) :
  let st := fold_left
    (fun (st : gmap string bool * list string) id =>
       match cache !! id with
       | Some b => (<[id := b]> (fst st), snd st)
       | None => (fst st, snd st ++ [id])
       end) ids (res0, un0) in
  (forall id, fst st !! id
     = if bool_decide (id ∈ ids) then
         match cache !! id with Some b => Some b | None => res0 !! id end
       else res0 !! id)
  /\ snd st = un0 ++ List.filter (fun id => bool_decide (cache !! id = None)) ids.
Proof.
  revert res0 un0. induction ids as [|x ids IH]; intros res0 un0; simpl.
  - split; [intros id; reflexivity | rewrite app_nil_r; reflexivity].
  - destruct (cache !! x) as [b|] eqn:Ex; simpl.
    + destruct (IH (<[x := b]> res0) un0) as [H1 H2]. split.
      * intros id. rewrite H1.
        destruct (decide (x = id)) as [->|N].
        -- rewrite Ex, lookup_insert_eq.
           rewrite (bool_decide_eq_true_2 (id ∈ id :: ids)) by (apply elem_of_cons; left; reflexivity).
           destruct (bool_decide (id ∈ ids)); reflexivity.
        -- rewrite lookup_insert_ne by exact N.
           destruct (decide (id ∈ ids)) as [I|I].
           ++ rewrite !bool_decide_eq_true_2 by (rewrite ?elem_of_cons; auto). reflexivity.
           ++ rewrite !bool_decide_eq_false_2 by (rewrite ?elem_of_cons; intuition congruence). reflexivity.
      * rewrite H2.
        first [reflexivity
              | rewrite bool_decide_eq_false_2 by congruence; reflexivity].
    + destruct (IH res0 (un0 ++ [x])) as [H1 H2]. split.
      * intros id. rewrite H1.
        destruct (decide (x = id)) as [->|N].
        -- rewrite Ex.
           rewrite (bool_decide_eq_true_2 (id ∈ id :: ids)) by (apply elem_of_cons; left; reflexivity).
           destruct (bool_decide (id ∈ ids)); reflexivity.
        -- destruct (decide (id ∈ ids)) as [I|I].
           ++ rewrite !bool_decide_eq_true_2 by (rewrite ?elem_of_cons; auto). reflexivity.
           ++ rewrite !bool_decide_eq_false_2 by (rewrite ?elem_of_cons; intuition congruence). reflexivity.
      * rewrite H2, <- app_assoc.
        first [reflexivity
              | rewrite bool_decide_eq_true_2 by congruence; reflexivity].
Qed.

Lemma record_uncached_spec (w : World) (un : list string)
    (res0 cache0 : gmap string bool) :
  let st := fold_left (DatabaseQueries.record_uncached w) un (res0, cache0) in
  (forall id, fst st !! id
     = if bool_decide (id ∈ un)
       then Some (bool_decide (is_Some (table w !! id)))
       else res0 !! id)
  /\ (forall id b, cache0 !! id = Some b -> snd st !! id = Some b
                   \/ snd st !! id = Some (bool_decide (is_Some (table w !! id))))
  /\ (forall id b, snd st !! id = Some b ->
        cache0 !! id = Some b \/ b = bool_decide (is_Some (table w !! id)))
  /\ ((size cache0 <= DatabaseQueries.cache_size_limit)%nat ->
      (size (snd st) <= DatabaseQueries.cache_size_limit)%nat)
  /\ (size cache0 <= size (snd st))%nat.
Proof.
  revert res0 cache0. induction un as [|x un IH]; intros res0 cache0; simpl.
  - repeat split; auto.
  - set (c1 := if (size cache0 <? DatabaseQueries.cache_size_limit)%nat
               then <[x := bool_decide (is_Some (table w !! x))]> cache0
               else cache0).
    destruct (IH (<[x := bool_decide (is_Some (table w !! x))]> res0) c1)
      as [H1 [H2 [H3 [H4 H5]]]].
    assert (Hc1 : forall id b, c1 !! id = Some b ->
              cache0 !! id = Some b \/ b = bool_decide (is_Some (table w !! id))).
    { intros id b. unfold c1.
      destruct (size cache0 <? DatabaseQueries.cache_size_limit)%nat; [|auto].
      destruct (decide (x = id)) as [E0|N]; [subst id|].
      - rewrite lookup_insert_eq. intros E. injection E as <-. auto.
      - rewrite lookup_insert_ne by exact N. auto. }
    assert (Hc0 : forall id b, cache0 !! id = Some b ->
              c1 !! id = Some b
              \/ c1 !! id = Some (bool_decide (is_Some (table w !! id)))).
    { intros id b E. unfold c1.
      destruct (size cache0 <? DatabaseQueries.cache_size_limit)%nat; [|auto].
      destruct (decide (x = id)) as [E0|N]; [subst id|].
      - rewrite lookup_insert_eq. auto.
      - rewrite lookup_insert_ne by exact N. auto. }
    assert (Hs1 : (size cache0 <= size c1)%nat
                  /\ ((size cache0 <= DatabaseQueries.cache_size_limit)%nat ->
                      (size c1 <= DatabaseQueries.cache_size_limit)%nat)).
    { unfold c1.
      destruct (size cache0 <? DatabaseQueries.cache_size_limit)%nat eqn:El;
        [|split; auto].
      apply Nat.ltb_lt in El. rewrite map_size_insert.
      destruct (cache0 !! x); simpl; split; intros; lia. }
    repeat split.
    + intros id. rewrite H1.
      destruct (decide (x = id)) as [E0|N]; [subst id|].
      * rewrite (bool_decide_eq_true_2 (x ∈ x :: un)) by (apply elem_of_cons; left; reflexivity).
        rewrite lookup_insert_eq. destruct (bool_decide (x ∈ un)); reflexivity.
      * rewrite lookup_insert_ne by exact N.
        destruct (decide (id ∈ un)) as [I|I].
        -- rewrite (bool_decide_eq_true_2 (id ∈ x :: un)) by (apply elem_of_cons; auto).
           rewrite (bool_decide_eq_true_2 (id ∈ un)) by exact I. reflexivity.
        -- rewrite (bool_decide_eq_false_2 (id ∈ x :: un))
             by (rewrite elem_of_cons; intuition congruence).
           rewrite (bool_decide_eq_false_2 (id ∈ un)) by exact I. reflexivity.
    + intros id b E. destruct (Hc0 id b E) as [E1|E1];
        destruct (H2 id _ E1) as [E2|E2]; auto.
    + intros id b E. destruct (H3 id b E) as [E1|E1]; auto.
    + intros Hle. apply H4. apply Hs1, Hle.
    + destruct Hs1 as [Hs1 _]. exact (Nat.le_trans _ _ _ Hs1 H5).
Qed.

(** A list of one id never has too many parameters. *)
Lemma one_variable_is_accepted (env : Env) (id : string) :
  DatabaseQueries.too_many_variables env [id] = false.
Proof.
  unfold DatabaseQueries.too_many_variables. apply Nat.ltb_ge. simpl.
  pose proof (Pos2Nat.is_pos (max_variable_number env)). lia.
Qed.

(** X5. The cached batch check, when the ids it has no cached answer for
    are within the number of parameters that SQLite accepts, gives one
    answer per id asked for and no other, and with a cache that agrees
    with the table every answer is the table's.  When they are more, the
    query is not split: the call raises [OperationalError] and leaves the
    cache as it was.  In every case the cache neither passes its size
    limit nor shrinks, and a cache that agrees with the table still
    agrees afterwards. *)
Theorem cached_batch_check_sound
    (env : Env) (cache : gmap string bool) (filing_ids : list string)
    (w : World) :
  ((length (List.filter (fun id => bool_decide (cache !! id = None)) filing_ids)
    <= Pos.to_nat (max_variable_number env))%nat ->
   exists results,
     fst (DatabaseQueries.are_filings_downloaded_batch env cache filing_ids w)
     = Ok results
     /\ (forall id, is_Some (results !! id) <-> id ∈ filing_ids)
     /\ (DatabaseQueries.cache_consistent cache w ->
         forall id, id ∈ filing_ids ->
           results !! id = Some (bool_decide (is_Some (table w !! id)))))
  /\ ((Pos.to_nat (max_variable_number env)
       < length (List.filter (fun id => bool_decide (cache !! id = None))
                             filing_ids))%nat ->
      DatabaseQueries.are_filings_downloaded_batch env cache filing_ids w
      = (Raise OperationalError, cache))
  /\ ((size cache <= DatabaseQueries.cache_size_limit)%nat ->
      (size (snd (DatabaseQueries.are_filings_downloaded_batch env cache
                    filing_ids w))
       <= DatabaseQueries.cache_size_limit)%nat)
  /\ (size cache
      <= size (snd (DatabaseQueries.are_filings_downloaded_batch env cache
                      filing_ids w)))%nat
  /\ (DatabaseQueries.cache_consistent cache w ->
      DatabaseQueries.cache_consistent
        (snd (DatabaseQueries.are_filings_downloaded_batch env cache
                filing_ids w)) w).
Proof.
  unfold DatabaseQueries.are_filings_downloaded_batch.
  destruct filing_ids as [|x0 ids0] eqn:Eids.
  { cbn [List.filter length fst snd].
    split; [|split; [|split; [|split]]]; auto; try lia.
    intros _. exists ∅. split; [reflexivity|]. split.
    - intros id. split.
      + intros [v Hv]. rewrite lookup_empty in Hv. discriminate Hv.
      + intros Hin. inversion Hin.
    - intros _ id Hin. inversion Hin. }
  rewrite <- Eids. clear Eids.
  unfold DatabaseQueries.split_cached.
  destruct (split_cached_spec cache filing_ids ∅ []) as [S1 S2].
  simpl in S1, S2.
  destruct (fold_left _ filing_ids (∅, [])) as [results uncached] eqn:Efold.
  simpl in S1, S2. rewrite <- S2.
  assert (Hres : forall id, results !! id
            = if bool_decide (id ∈ filing_ids) then cache !! id else None).
  { intros id. rewrite S1, lookup_empty.
    destruct (bool_decide (id ∈ filing_ids)); [|reflexivity].
    destruct (cache !! id); reflexivity. }
  assert (Hun : forall id, id ∈ uncached <-> id ∈ filing_ids /\ cache !! id = None).
  { intros id. rewrite S2, !list_elem_of_In, filter_In, bool_decide_eq_true. reflexivity. }
  destruct (record_uncached_spec w uncached results cache) as [R1 [R2 [R3 [R4 R5]]]].
  assert (Hgoal :
    let st := fold_left (DatabaseQueries.record_uncached w) uncached (results, cache) in
    (forall id, is_Some (fst st !! id) <-> id ∈ filing_ids)
    /\ ((size cache <= DatabaseQueries.cache_size_limit)%nat ->
        (size (snd st) <= DatabaseQueries.cache_size_limit)%nat)
    /\ (size cache <= size (snd st))%nat
    /\ (DatabaseQueries.cache_consistent cache w ->
        (forall id, id ∈ filing_ids ->
           fst st !! id = Some (bool_decide (is_Some (table w !! id))))
        /\ DatabaseQueries.cache_consistent (snd st) w)).
  { cbv zeta. split; [|split; [exact R4 | split; [exact R5|]]].
    - intros id. rewrite R1, Hres. split.
      + intros [v Hv].
        destruct (decide (id ∈ uncached)) as [I|I]; [apply Hun in I; tauto|].
        rewrite (bool_decide_eq_false_2 (id ∈ uncached)) in Hv by exact I.
        destruct (decide (id ∈ filing_ids)) as [J|J]; [exact J|].
        rewrite (bool_decide_eq_false_2 (id ∈ filing_ids)) in Hv by exact J.
        discriminate Hv.
      + intros I.
        destruct (decide (id ∈ uncached)) as [J|J].
        * rewrite (bool_decide_eq_true_2 (id ∈ uncached)) by exact J. eauto.
        * rewrite (bool_decide_eq_false_2 (id ∈ uncached)) by exact J.
          rewrite (bool_decide_eq_true_2 (id ∈ filing_ids)) by exact I.
          destruct (cache !! id) eqn:E; [eauto|].
          exfalso. apply J, Hun. auto.
    - intros Hc. split.
      + intros id I. rewrite R1, Hres.
        destruct (decide (id ∈ uncached)) as [J|J].
        * rewrite (bool_decide_eq_true_2 (id ∈ uncached)) by exact J. reflexivity.
        * rewrite (bool_decide_eq_false_2 (id ∈ uncached)) by exact J.
          rewrite (bool_decide_eq_true_2 (id ∈ filing_ids)) by exact I.
          destruct (cache !! id) as [b|] eqn:E.
          -- rewrite (Hc id b E). reflexivity.
          -- exfalso. apply J, Hun. auto.
      + intros id b E.
        destruct (R3 id b E) as [E1|E1]; [apply (Hc id b E1) | exact E1]. }
  cbv zeta in Hgoal. destruct Hgoal as [G1 [G2 [G3 G4]]].
  destruct uncached as [|u us] eqn:Eu.
  { cbn [fold_left fst snd] in G1, G2, G3, G4. cbn [length fst snd].
    split; [|split; [|split; [|split]]].
    - intros _. exists results. split; [reflexivity|]. split; [exact G1|].
      intros Hc. apply (G4 Hc).
    - intros Hlt. lia.
    - exact G2.
    - exact G3.
    - intros Hc. apply (G4 Hc). }
  rewrite <- Eu in *. clear Eu.
  unfold DatabaseQueries.too_many_variables.
  destruct (Nat.ltb_spec (Pos.to_nat (max_variable_number env)) (length uncached))
    as [Hlt|Hle]; cbn [fst snd].
  - split; [intros Hle; lia|]. split; [reflexivity|]. auto.
  - split; [|split; [intros Hlt; lia|]].
    + intros _. eexists. split; [reflexivity|]. split; [exact G1|].
      intros Hc. apply (G4 Hc).
    + split; [exact G2|]. split; [exact G3|]. intros Hc. apply (G4 Hc).
Qed.

(** X6. The cache is never refreshed.  Once a batch check has cached the
    answer for a filing that is not recorded, a successful [add_filing] of
    that filing does not change what the cached batch check answers: it
    still says the filing is not downloaded, while [is_filing_downloaded]
    says it is. *)
Theorem cached_batch_check_goes_stale
    (env : Env) (d : Database.FilingData) (cik acc : string)
    (cache : gmap string bool) (w : World) :
  Database.filing_id d = Database.make_filing_id cik acc ->
  table w !! Database.make_filing_id cik acc = None ->
  cache !! Database.make_filing_id cik acc = None ->
  (size cache < DatabaseQueries.cache_size_limit)%nat ->
  outcome (Database.add_filing env d w) = Ok true ->
  (exists results,
     fst (DatabaseQueries.are_filings_downloaded_batch env
            (snd (DatabaseQueries.are_filings_downloaded_batch env cache
                    [Database.make_filing_id cik acc] w))
            [Database.make_filing_id cik acc]
            (snd (Database.add_filing env d w)))
     = Ok results
     /\ results !! Database.make_filing_id cik acc = Some false)
  /\ outcome (Database.is_filing_downloaded cik acc
                (snd (Database.add_filing env d w))) = Ok true.
Proof.
  intros Hid Habs Hc Hsize Hadd. split.
  - unfold DatabaseQueries.are_filings_downloaded_batch,
      DatabaseQueries.split_cached, DatabaseQueries.record_uncached.
    cbn [fold_left fst snd]. rewrite Hc. cbn [fst snd app].
    rewrite one_variable_is_accepted. cbn [fold_left fst snd].
    rewrite Habs.
    apply Nat.ltb_lt in Hsize. rewrite Hsize.
    rewrite lookup_insert_eq. cbn [fst snd].
    eexists. split; [reflexivity|].
    rewrite lookup_insert_eq. reflexivity.
  - unfold outcome, Database.is_filing_downloaded. cbn [fst].
    rewrite bool_decide_eq_true_2; [reflexivity|].
    rewrite <- Hid. apply lookup_after_add. exact Hadd.
Qed.

Lemma cached_batch_check_goes_stale_witness :
  (exists results,
     fst (DatabaseQueries.are_filings_downloaded_batch
            (Samples.env_of Samples.archive_server)
            (snd (DatabaseQueries.are_filings_downloaded_batch
                    (Samples.env_of Samples.archive_server) ∅
                    [Database.make_filing_id "0000320193" "0000320193-23-000106"]
                    Samples.w0))
            [Database.make_filing_id "0000320193" "0000320193-23-000106"]
            (snd (Database.add_filing (Samples.env_of Samples.archive_server)
                    Samples.apple_record Samples.w0)))
     = Ok results
     /\ results !! Database.make_filing_id "0000320193" "0000320193-23-000106"
        = Some false)
  /\ outcome (Database.is_filing_downloaded "0000320193" "0000320193-23-000106"
                (snd (Database.add_filing (Samples.env_of Samples.archive_server)
                        Samples.apple_record Samples.w0))) = Ok true.
Proof.
  apply (cached_batch_check_goes_stale (Samples.env_of Samples.archive_server)
           Samples.apple_record "0000320193" "0000320193-23-000106" ∅ Samples.w0);
    try reflexivity.
  unfold DatabaseQueries.cache_size_limit. rewrite map_size_empty. lia.
Defined.

(** X7. What [add_filing] stored, [get_fiscal_info] gives back: after a
    successful add of a record whose fiscal year and period are set and
    whose form type starts with [10-], it returns exactly these values
    and the ticker; for a filing that is not recorded it returns [None]. *)
Theorem get_fiscal_info_after_add
    (env : Env) (d : Database.FilingData) (cik acc fy fp form : string)
    (w w2 : World) :
  Database.filing_id d = Database.make_filing_id cik acc ->
  Database.fiscal_year d = Some fy -> fy <> EmptyString ->
  Database.fiscal_period d = Some fp -> fp <> EmptyString ->
  Database.form_type d = Some form -> Py.startswith "10-" form = true ->
  outcome (Database.add_filing env d w) = Ok true ->
  outcome (DatabaseQueries.get_fiscal_info cik acc
             (snd (Database.add_filing env d w)))
  = Ok (Some (fy, fp, form, Database.ticker d))
  /\ (table w2 !! Database.make_filing_id cik acc = None ->
      outcome (DatabaseQueries.get_fiscal_info cik acc w2) = Ok None).
Proof.
  intros Hid Hfy Nfy Hfp Nfp Hform H10 Hadd. split.
  - revert Hadd. unfold Database.add_filing, DatabaseQueries.get_fiscal_info, outcome.
    destruct (db_fails env (clock w)); [discriminate|].
    unfold Database.row_of. rewrite Hform.
    destruct (Database.cik d) as [c|]; [|discriminate].
    destruct (Database.accession_number d) as [a|]; [|discriminate].
    intros _. cbn -[Py.startswith]. rewrite <- Hid, lookup_insert_eq.
    cbn -[Py.startswith]. rewrite Hfy, Hfp, H10.
    destruct fy; [contradiction|]. destruct fp; [contradiction|]. reflexivity.
  - intros H. unfold DatabaseQueries.get_fiscal_info, outcome. simpl.
    rewrite H. reflexivity.
Qed.

Lemma get_fiscal_info_after_add_witness :
  outcome (DatabaseQueries.get_fiscal_info "0000320193" "0000320193-23-000106"
             (snd (Database.add_filing (Samples.env_of Samples.archive_server)
                     Samples.apple_record Samples.w0)))
  = Ok (Some ("2023", "FY", "10-K", Some "AAPL"))
  /\ (table Samples.w0 !! Database.make_filing_id "0000320193" "0000320193-23-000106"
      = None ->
      outcome (DatabaseQueries.get_fiscal_info "0000320193" "0000320193-23-000106"
                 Samples.w0) = Ok None).
Proof.
  apply (get_fiscal_info_after_add (Samples.env_of Samples.archive_server)
           Samples.apple_record "0000320193" "0000320193-23-000106"
           "2023" "FY" "10-K" Samples.w0 Samples.w0);
    try reflexivity; discriminate.
Defined.

Lemma total_count_step (counts : gmap string nat) (row : Row) :
  DatabaseQueries.total_count (DatabaseQueries.count_form counts row)
  = S (DatabaseQueries.total_count counts).
Proof.
  unfold DatabaseQueries.total_count, DatabaseQueries.count_form.
  destruct (counts !! row_form_type row) as [n|] eqn:E; simpl.
  - rewrite <- insert_delete_eq.
    rewrite map_fold_insert_L; [| intros; lia | apply lookup_delete_eq].
    rewrite (map_fold_delete_L _ _ (row_form_type row) n counts);
      [reflexivity | intros; lia | exact E].
  - rewrite map_fold_insert_L; [reflexivity | intros; lia | exact E].
Qed.

Lemma total_count_fold (rows : list Row) (counts : gmap string nat) :
  DatabaseQueries.total_count (fold_left DatabaseQueries.count_form rows counts)
  = (length rows + DatabaseQueries.total_count counts)%nat.
Proof.
  revert counts. induction rows as [|row rows IH]; intros counts; simpl.
  - reflexivity.
  - rewrite IH, total_count_step. lia.
Qed.

Lemma size_list_to_set_le (l : list string) :
  (size (list_to_set l : gset string) <= length l)%nat.
Proof.
  induction l as [|x l IH].
  - rewrite list_to_set_nil, size_empty. reflexivity.
  - rewrite list_to_set_cons, size_union_alt, size_singleton. simpl.
    pose proof (subseteq_size (list_to_set l ∖ {[x]} : gset string)
                  (list_to_set l) (subseteq_difference_l _ _ _ (reflexivity _))).
    lia.
Qed.

Lemma length_omap_le {A B} (f : A -> option B) (l : list A) :
  (length (omap f l) <= length l)%nat.
Proof.
  induction l as [|x l IH]; [reflexivity|].
  change (omap f (x :: l))
    with (match f x with Some y => y :: omap f l | None => omap f l end).
  destruct (f x); simpl; lia.
Qed.

(** X8. The statistics add up: the counts per form type sum to the number
    of filings, which is the number of records of the table, and neither
    the number of distinct companies nor the number of distinct fiscal
    years exceeds it; the store is not changed. *)
Theorem get_stats_adds_up (w : World) :
  snd (DatabaseQueries.get_stats w) = w
  /\ exists stats,
       outcome (DatabaseQueries.get_stats w) = Ok stats
       /\ DatabaseQueries.total_filings stats = size (table w)
       /\ DatabaseQueries.total_count (DatabaseQueries.form_types stats)
          = DatabaseQueries.total_filings stats
       /\ (DatabaseQueries.unique_companies stats
           <= DatabaseQueries.total_filings stats)%nat
       /\ (DatabaseQueries.years_covered stats
           <= DatabaseQueries.total_filings stats)%nat.
Proof.
  split; [reflexivity|]. eexists. split; [reflexivity|]. simpl.
  repeat split.
  - unfold DatabaseQueries.rows. rewrite length_fmap, length_map_to_list. reflexivity.
  - rewrite total_count_fold. unfold DatabaseQueries.total_count.
    rewrite map_fold_empty. lia.
  - etransitivity; [apply size_list_to_set_le|]. rewrite length_fmap. reflexivity.
  - etransitivity; [apply size_list_to_set_le|]. apply length_omap_le.
Qed.

(** ** RateLimiter, continued *)



(** X10. A bucket in order stays in order: when the tokens are between 0
    and the capacity and the clock is not before the last refill, then
    after [acquire] the tokens are again between 0 and the capacity, and
    the call slept at most [1 / refill_rate]. *)
Theorem acquire_keeps_bucket_in_order
    (l : RateLimit.SafeRateLimiter) (now slept : Q)
    (l' : RateLimit.SafeRateLimiter) :
  (0 < RateLimit.refill_rate l)%Q ->
  (0 <= RateLimit.tokens l)%Q ->
  (RateLimit.tokens l <= RateLimit.capacity l)%Q ->
  (RateLimit.last_refill l <= now)%Q ->
  RateLimit.acquire l now = Ok (true, slept, l') ->
  (0 <= RateLimit.tokens l')%Q
  /\ (RateLimit.tokens l' <= RateLimit.capacity l')%Q
  /\ (slept <= 1 / RateLimit.refill_rate l)%Q.
Proof.
  intros Hr H0 Hc Ht. unfold RateLimit.acquire.
  set (add := ((now - RateLimit.last_refill l) * RateLimit.refill_rate l)%Q).
  assert (Hadd : (0 <= add)%Q).
  { unfold add. apply Qmult_le_0_compat.
    - unfold Qminus. rewrite <- Qle_minus_iff. exact Ht.
    - apply Qlt_le_weak, Hr. }
  assert (Hcap : (0 <= RateLimit.capacity l)%Q) by exact (Qle_trans _ _ _ H0 Hc).
  set (tk := Qmin (RateLimit.capacity l) (RateLimit.tokens l + add)).
  assert (Htk0 : (0 <= tk)%Q).
  { unfold tk. apply Q.min_glb; [exact Hcap|].
    rewrite <- (Qplus_0_l 0). apply Qplus_le_compat; assumption. }
  assert (Htkc : (tk <= RateLimit.capacity l)%Q) by apply Q.le_min_l.
  assert (Hinv : (0 < / RateLimit.refill_rate l)%Q) by (apply Qinv_lt_0_compat, Hr).
  destruct (Qle_bool 1 tk) eqn:E1.
  - apply Qle_bool_iff in E1. intros E. injection E as <- <-. simpl.
    split; [|split].
    + unfold Qminus. rewrite <- Qle_minus_iff. exact E1.
    + eapply Qle_trans; [|exact Htkc].
      rewrite <- (Qplus_0_r tk) at 2. unfold Qminus.
      apply Qplus_le_compat; [apply Qle_refl | discriminate].
    + unfold Qdiv. rewrite Qmult_1_l. apply Qlt_le_weak, Hinv.
  - destruct (Qeq_bool (RateLimit.refill_rate l) 0); [discriminate|].
    destruct (Qle_bool 0 ((1 - tk) / RateLimit.refill_rate l)); [|discriminate].
    intros E. injection E as <- <-. simpl.
    split; [apply Qle_refl | split; [exact Hcap|]].
    unfold Qdiv. apply Qmult_le_compat_r; [|apply Qlt_le_weak, Hinv].
    rewrite <- (Qplus_0_r 1) at 2. unfold Qminus.
    apply Qplus_le_compat; [apply Qle_refl|].
    rewrite <- (Qopp_involutive 0) at 1.
    apply Qopp_le_compat. exact Htk0.
Qed.

Lemma acquire_keeps_bucket_in_order_witness :
  (0 <= RateLimit.tokens (RateLimit.mkLimiter 1 0 9 0))%Q
  /\ (RateLimit.tokens (RateLimit.mkLimiter 1 0 9 0)
      <= RateLimit.capacity (RateLimit.mkLimiter 1 0 9 0))%Q
  /\ ((1 # 9) <= 1 / 9)%Q.
Proof.
  refine (acquire_keeps_bucket_in_order (RateLimit.mkLimiter 1 0 9 0) 0 (1 # 9)
            (RateLimit.mkLimiter 1 0 9 0) eq_refl _ _ _ eq_refl);
    unfold Qle; simpl; lia.
Defined.

(** ** IndexPageParser, continued *)

Lemma len_append (a b : string) : Py.len (a +:+ b) = (Py.len a + Py.len b)%nat.
Proof. induction a as [|c a IH]; simpl; [reflexivity | rewrite <- IH; reflexivity]. Qed.

Lemma len_repeat_chr (c : ascii) (n : nat) : Py.len (Py.repeat_chr c n) = n.
Proof. induction n as [|n IH]; simpl; [reflexivity | rewrite <- IH at 2; reflexivity]. Qed.

(** [zfill] pads up to the width and never truncates. *)
Lemma len_zfill (width : nat) (s : string) :
  Py.len (Py.zfill width s) = Nat.max width (Py.len s).
Proof.
  unfold Py.zfill. destruct s as [|c s].
  - rewrite len_repeat_chr. simpl. lia.
  - destruct (Py.chr_eqb c "+" || Py.chr_eqb c "-").
    + change (Py.len (String c (Py.repeat_chr "0" (width - Py.len (String c s)) +:+ s)))
        with (S (Py.len (Py.repeat_chr "0" (width - Py.len (String c s)) +:+ s))).
      rewrite len_append, len_repeat_chr.
      change (Py.len (String c s)) with (S (Py.len s)). lia.
    + rewrite len_append, len_repeat_chr. lia.
Qed.

Lemma contains_append_r (sub a b : string) :
  Py.contains sub b = true -> Py.contains sub (a +:+ b) = true.
Proof.
  intros H. induction a as [|c a IH]; simpl; [exact H|].
  rewrite IH. apply orb_true_r.
Qed.

Lemma all_chr_rev_onto (p : ascii -> bool) (s acc : string) :
  Py.all_chr p s = true -> Py.all_chr p acc = true ->
  Py.all_chr p (Py.rev_onto s acc) = true.
Proof.
  revert acc. induction s as [|c s IH]; intros acc Hs Ha; simpl in *; [exact Ha|].
  apply andb_prop in Hs as [Hc Hs]. apply IH; [exact Hs|].
  simpl. rewrite Hc. exact Ha.
Qed.

Lemma all_chr_rev (p : ascii -> bool) (s : string) :
  Py.all_chr p s = true -> Py.all_chr p (Py.rev s) = true.
Proof. intros H. apply all_chr_rev_onto; [exact H | reflexivity]. Qed.

(** The pieces of [split] are made of characters of the string, the
    separator apart. *)
Lemma split_go_pieces (p : ascii -> bool) (sep : ascii) (s cur : string) :
  Py.all_chr p s = true ->
  Py.all_chr (fun c => p c && negb (Py.chr_eqb c sep)) cur = true ->
  Forall (fun piece => Py.all_chr (fun c => p c && negb (Py.chr_eqb c sep)) piece = true)
         (Py.split_go sep s cur).
Proof.
  revert cur. induction s as [|c s IH]; intros cur Hs Hc; simpl in *.
  - constructor; [apply all_chr_rev, Hc | constructor].
  - apply andb_prop in Hs as [Hpc Hs].
    destruct (Py.chr_eqb c sep) eqn:E.
    + constructor; [apply all_chr_rev, Hc | apply IH; [exact Hs | reflexivity]].
    + apply IH; [exact Hs|]. simpl. rewrite Hpc, E. exact Hc.
Qed.

Lemma index_neg_In {A} (l : list A) (k : nat) (x : A) :
  Py.index_neg l k = Some x -> In x l.
Proof.
  unfold Py.index_neg. destruct k as [|k]; [discriminate|].
  intros H. apply nth_error_In in H. apply in_rev. exact H.
Qed.

Lemma all_chr_weaken (p q : ascii -> bool) (s : string) :
  (forall c, p c = true -> q c = true) ->
  Py.all_chr p s = true -> Py.all_chr q s = true.
Proof.
  intros Hpq. induction s as [|c s IH]; simpl; [reflexivity|].
  intros H. apply andb_prop in H as [H1 H2]. rewrite (Hpq c H1). apply IH, H2.
Qed.

Lemma all_chr_true (s : string) : Py.all_chr (fun _ => true) s = true.
Proof. induction s as [|c s IH]; simpl; [reflexivity | exact IH]. Qed.

Lemma no_chr_not_contained (x : ascii) (s : string) :
  Py.all_chr (fun c => negb (Py.chr_eqb c x)) s = true ->
  Py.contains (String x EmptyString) s = false.
Proof.
  induction s as [|c s IH]; simpl; [reflexivity|].
  intros H. apply andb_prop in H as [H1 H2]. rewrite (IH H2).
  apply negb_true_iff in H1. unfold Py.chr_eqb in *.
  rewrite Ascii.eqb_sym, H1. reflexivity.
Qed.

(** X12. Every descriptor that [parse_daily_index_line] returns has a
    form type of the target set, a CIK of at least ten characters, a URL
    that starts with the archive root and names [edgar], and an accession
    number without slash or dot. *)
Theorem parsed_descriptor_is_well_formed
    (line : string) (d : SECDailyIndexDownloader.Filing) :
  SECDailyIndexDownloader.parse_daily_index_line line = Some d ->
  Py.in_list (SECDailyIndexDownloader.form_type d)
             SECDailyIndexDownloader.target_forms = true
  /\ (10 <= Py.len (SECDailyIndexDownloader.cik d))%nat
  /\ Py.startswith "https://www.sec.gov/Archives/"
       (SECDailyIndexDownloader.file_name d) = true
  /\ Py.contains "edgar" (SECDailyIndexDownloader.file_name d) = true
  /\ Py.contains "/" (SECDailyIndexDownloader.accession_number d) = false
  /\ Py.contains "." (SECDailyIndexDownloader.accession_number d) = false.
Proof.
  unfold SECDailyIndexDownloader.parse_daily_index_line,
    SECDailyIndexDownloader.parse_daily_index_line_try.
  destruct (Re.match_ SECDailyIndexDownloader.line_re (Py.strip line)) as [m|];
    [|discriminate].
  destruct (Py.index_neg (Py.split "/" (Re.group_text m "file_name")) 2) as [seg|];
    [|destruct (is_Exception IndexError); discriminate].
  destruct (Py.in_list (Re.group_text m "form_type")
              SECDailyIndexDownloader.target_forms) eqn:Eform; [|discriminate].
  destruct (Py.index_neg (Py.split "/" (Py.strip (Re.group_text m "file_name"))) 1)
    as [last|] eqn:Elast; [|destruct (is_Exception IndexError); discriminate].
  destruct (Py.split "." last) as [|acc rest] eqn:Eacc;
    [destruct (is_Exception IndexError); discriminate|].
  intros E. injection E as <-. simpl.
  split; [exact Eform|]. split; [rewrite len_zfill; lia|].
  assert (Hlast : Py.all_chr (fun c => true && negb (Py.chr_eqb c "/")) last = true).
  { apply index_neg_In in Elast.
    pose proof (split_go_pieces (fun _ => true) "/"
                  (Py.strip (Re.group_text m "file_name")) EmptyString
                  (all_chr_true _) eq_refl) as F.
    rewrite Forall_forall in F. apply F. apply list_elem_of_In. exact Elast. }
  assert (Hacc : Py.all_chr
            (fun c => (true && negb (Py.chr_eqb c "/")) && negb (Py.chr_eqb c ".")) acc
            = true).
  { pose proof (split_go_pieces _ "." last EmptyString Hlast eq_refl) as F.
    unfold Py.split in Eacc. rewrite Eacc in F. inversion F; assumption. }
  split; [|split; [|split]].
  - destruct (Py.contains "edgar" (Py.strip (Re.group_text m "file_name")));
      reflexivity.
  - destruct (Py.contains "edgar" (Py.strip (Re.group_text m "file_name"))) eqn:Ee.
    + apply contains_append_r, Ee.
    + reflexivity.
  - apply no_chr_not_contained.
    eapply all_chr_weaken; [|exact Hacc].
    intros c H. apply andb_prop in H as [H _]. exact H.
  - apply no_chr_not_contained.
    eapply all_chr_weaken; [|exact Hacc].
    intros c H. apply andb_prop in H as [_ H]. exact H.
Qed.

Lemma parsed_descriptor_is_well_formed_witness :
  Py.in_list (SECDailyIndexDownloader.form_type Samples.apple_10k)
             SECDailyIndexDownloader.target_forms = true
  /\ (10 <= Py.len (SECDailyIndexDownloader.cik Samples.apple_10k))%nat
  /\ Py.startswith "https://www.sec.gov/Archives/"
       (SECDailyIndexDownloader.file_name Samples.apple_10k) = true
  /\ Py.contains "edgar" (SECDailyIndexDownloader.file_name Samples.apple_10k) = true
  /\ Py.contains "/" (SECDailyIndexDownloader.accession_number Samples.apple_10k) = false
  /\ Py.contains "." (SECDailyIndexDownloader.accession_number Samples.apple_10k) = false.
Proof.
  apply (parsed_descriptor_is_well_formed Samples.line_10k Samples.apple_10k).
  vm_compute. reflexivity.
Defined.

(** A descriptor is returned for the target forms only. *)
Lemma parsed_form_is_target (line : string) (d : SECDailyIndexDownloader.Filing) :
  SECDailyIndexDownloader.parse_daily_index_line line = Some d ->
  Py.in_list (SECDailyIndexDownloader.form_type d)
             SECDailyIndexDownloader.target_forms = true.
Proof.
  unfold SECDailyIndexDownloader.parse_daily_index_line,
    SECDailyIndexDownloader.parse_daily_index_line_try.
  destruct (Re.match_ SECDailyIndexDownloader.line_re (Py.strip line)) as [m|];
    [|discriminate].
  destruct (Py.index_neg (Py.split "/" (Re.group_text m "file_name")) 2) as [seg|];
    [|destruct (is_Exception IndexError); discriminate].
  destruct (Py.in_list (Re.group_text m "form_type")
              SECDailyIndexDownloader.target_forms) eqn:Eform; [|discriminate].
  destruct (Py.index_neg (Py.split "/" (Py.strip (Re.group_text m "file_name"))) 1)
    as [last|]; [|destruct (is_Exception IndexError); discriminate].
  destruct (Py.split "." last) as [|acc rest];
    [destruct (is_Exception IndexError); discriminate|].
  intros E. injection E as <-. exact Eform.
Qed.

Lemma collect_filings_omap (lines : list string)
    (filings : list SECDailyIndexDownloader.Filing) :
  SECDailyIndexDownloader.collect_filings lines filings
  = filings ++ omap SECDailyIndexDownloader.parse_daily_index_line lines.
Proof.
  revert filings. induction lines as [|line lines IH]; intros filings.
  - simpl. rewrite app_nil_r. reflexivity.
  - change (omap SECDailyIndexDownloader.parse_daily_index_line (line :: lines))
      with (match SECDailyIndexDownloader.parse_daily_index_line line with
            | Some y => y :: omap SECDailyIndexDownloader.parse_daily_index_line lines
            | None => omap SECDailyIndexDownloader.parse_daily_index_line lines
            end).
    cbn -[Py.in_list SECDailyIndexDownloader.parse_daily_index_line].
    destruct (SECDailyIndexDownloader.parse_daily_index_line line) as [d|] eqn:E.
    + rewrite (parsed_form_is_target line d E), IH, <- app_assoc. reflexivity.
    + apply IH.
Qed.

(** X13. The descriptors of a fetched index file are, in listing order,
    the lines after the first separator that [parse_daily_index_line]
    accepts, one descriptor per such line and nothing else (the second
    test on the form type never removes any); there are at most as many
    as data lines. *)
Theorem pure_parse_lists_parsed_lines_in_order
    (env : Env) (idx_url : string) (w : World) (r : Response) (data_start : nat) :
  http_get env (clock w) idx_url = Resp r ->
  (status_code r <? 400) || (600 <=? status_code r) = true ->
  SECDailyIndexDownloader.find_data_start (Py.splitlines (text r)) 0
  = Some data_start ->
  outcome (SECDailyIndexDownloader.pure_parse_daily_single_index env idx_url w)
  = Ok (omap SECDailyIndexDownloader.parse_daily_index_line
          (skipn data_start (Py.splitlines (text r))))
  /\ (length (omap SECDailyIndexDownloader.parse_daily_index_line
                (skipn data_start (Py.splitlines (text r))))
      <= length (Py.splitlines (text r)) - data_start)%nat.
Proof.
  intros Hf Hs Hd. split.
  - rewrite (pure_parse_fetched env idx_url w r Hf Hs), Hd.
    rewrite collect_filings_omap. reflexivity.
  - etransitivity; [apply length_omap_le|]. rewrite length_skipn. reflexivity.
Qed.

Lemma pure_parse_lists_parsed_lines_in_order_witness :
  outcome (SECDailyIndexDownloader.pure_parse_daily_single_index
             (Samples.env_of (fun _ => Samples.page Samples.daily_index))
             "form.20231103.idx" Samples.w0)
  = Ok (omap SECDailyIndexDownloader.parse_daily_index_line
          (skipn 5 (Py.splitlines (text (mkResponse 200 Samples.daily_index)))))
  /\ (length (omap SECDailyIndexDownloader.parse_daily_index_line
                (skipn 5 (Py.splitlines (text (mkResponse 200 Samples.daily_index)))))
      <= length (Py.splitlines (text (mkResponse 200 Samples.daily_index))) - 5)%nat.
Proof.
  apply (pure_parse_lists_parsed_lines_in_order
           (Samples.env_of (fun _ => Samples.page Samples.daily_index))
           "form.20231103.idx" Samples.w0 (mkResponse 200 Samples.daily_index) 5%nat);
    vm_compute; reflexivity.
Defined.

(** X14. A failed fetch of an index file is not an error: on a status
    from 400 to 599 other than 429 and 403, and on a timeout, the parser
    returns the empty list, whatever the text; the missing-separator
    failure cannot arise there. *)
Theorem pure_parse_failed_fetch_is_empty
    (env : Env) (idx_url : string) (w : World) :
  (forall r, http_get env (clock w) idx_url = Resp r ->
     400 <= status_code r < 600 ->
     status_code r <> 429 -> status_code r <> 403 ->
     outcome (SECDailyIndexDownloader.pure_parse_daily_single_index env idx_url w)
     = Ok [])
  /\ (forall e, http_get env (clock w) idx_url = Throws e ->
        is_Timeout e = true ->
        outcome (SECDailyIndexDownloader.pure_parse_daily_single_index env idx_url w)
        = Ok []).
Proof.
  split.
  - intros r Hf Hs H429 H403.
    unfold SECDailyIndexDownloader.pure_parse_daily_single_index,
      try_except, bind, outcome.
    rewrite safe_request_run, Hf, safe_request_status.
    apply Z.eqb_neq in H429, H403. rewrite H429, H403. cbv [orb]. cbv beta iota.
    unfold raise_for_status.
    assert (Hr : (400 <=? status_code r) && (status_code r <? 600) = true) by lia.
    rewrite Hr. reflexivity.
  - intros e Hf Ht.
    unfold SECDailyIndexDownloader.pure_parse_daily_single_index,
      try_except, bind, outcome.
    rewrite safe_request_run, Hf.
    destruct e; try discriminate Ht; reflexivity.
Qed.

(** ** DownloadOrchestrator, continued *)

Lemma recorded_post_same (w s : World) (id : string)
    (r : res (option EDGARDownloader.Results)) :
  table s = table w -> adds s = adds w -> recorded_post w id r s.
Proof.
  intros Ht Ha. unfold recorded_post. rewrite Ht, Ha.
  split; [reflexivity | left; reflexivity].
Qed.

Lemma commit_recorded (env : Env) (filling : EDGARDownloader.Filing)
    (fiscal_info : EDGARDownloader.FiscalInfo)
    (company_name ticker file_name dir2 : string)
    (fr : EDGARDownloader.Frame) (w : World) :
  frame_inv w fr ->
  table w !! Database.make_filing_id (SECDailyIndexDownloader.cik filling)
               (SECDailyIndexDownloader.accession_number filling) = None ->
  recorded_post w
    (Database.make_filing_id (SECDailyIndexDownloader.cik filling)
       (SECDailyIndexDownloader.accession_number filling))
    (fst (EDGARDownloader.commit env filling fiscal_info company_name ticker
            file_name dir2 fr (EDGARDownloader.world fr)))
    (snd (EDGARDownloader.commit env filling fiscal_info company_name ticker
            file_name dir2 fr (EDGARDownloader.world fr))).
Proof.
  intros [Ht [Ha Hw]] Hnone. unfold EDGARDownloader.commit.
  destruct (EDGARDownloader.downloaded fr) as [|p ps] eqn:Ed.
  - simpl. apply recorded_post_same; assumption.
  - unfold bind, EDGARDownloader.directory_size.
    destruct (dir_size env (clock (EDGARDownloader.world fr)) dir2) as [n|]; simpl.
    + unfold Database.add_filing. simpl.
      match goal with
      | |- context [db_fails env ?c] => destruct (db_fails env c)
      end; simpl.
      * unfold recorded_post. split; [simpl; rewrite Ht; reflexivity|].
        right. exists false.
        unfold adds in *; simpl. rewrite Ha. split; [reflexivity | discriminate].
      * unfold recorded_post. split.
        -- simpl. rewrite Ht. apply insert_subseteq. exact Hnone.
        -- right. exists true. unfold adds in *; simpl. rewrite Ha.
           split; [reflexivity|]. intros _. rewrite lookup_insert_eq. eauto.
    + apply recorded_post_same; [exact Ht|]. unfold adds in *; simpl. exact Ha.
Qed.

Lemma download_filing_recorded (env : Env) (filling : EDGARDownloader.Filing)
    (w : World) :
  hoare (same_store w) (EDGARDownloader.download_filing env filling)
        (recorded_post w
           (Database.make_filing_id (SECDailyIndexDownloader.cik filling)
              (SECDailyIndexDownloader.accession_number filling))).
Proof.
  set (id := Database.make_filing_id (SECDailyIndexDownloader.cik filling)
               (SECDailyIndexDownloader.accession_number filling)).
  assert (Hsame : forall r s, same_store w s -> recorded_post w id r s).
  { intros r s [Ht [Ha _]]. apply recorded_post_same; assumption. }
  unfold EDGARDownloader.download_filing.
  apply (hoare_bind _ _ _
           (fun r s => same_store w s
                       /\ r = Ok (bool_decide (is_Some (table w !! id))))).
  - intros s Hs. simpl. split; [exact Hs|].
    destruct Hs as [Ht _]. rewrite Ht. reflexivity.
  - intros [|].
    { apply hoare_ret. intros s [Hs _]. apply Hsame, Hs. }
    apply (hoare_pre _ (same_store w) (table w !! id = None)).
    { intros s [Hs Hr]. split; [exact Hs|].
      injection Hr as Hr. symmetry in Hr. apply bool_decide_eq_false in Hr.
      apply eq_None_not_Some. exact Hr. }
    intros Hnone.
    assert (Hraise : forall e s, same_store w s -> recorded_post w id (Raise e) s)
      by (intros e; apply Hsame).
    apply hoare_bind_keeps; [apply required_urls_quiet | | exact Hraise].
    intros [[|item urls]|]; try (apply hoare_ret; apply Hsame).
    apply hoare_bind_keeps; [apply keeps_lift_res | | exact Hraise]. intros complete_txt.
    apply hoare_bind_keeps; [apply extract_fiscal_info_quiet | | exact Hraise].
    intros fiscal_info.
    apply hoare_bind_keeps; [apply keeps_lift_res | | exact Hraise]. intros name.
    apply hoare_bind_keeps; [apply keeps_lift_res | | exact Hraise]. intros fiscal_year.
    apply hoare_bind_keeps; [apply keeps_lift_res | | exact Hraise]. intros fiscal_period.
    apply hoare_bind_keeps; [apply keeps_lift_res | | exact Hraise]. intros period_end_year.
    apply hoare_bind_keeps; [apply keeps_lift_res | | exact Hraise]. intros date_filed_year.
    apply hoare_bind_keeps; [apply keeps_lift_res | | exact Hraise]. intros file_name.
    unfold EDGARDownloader.create_folder_path.
    eapply hoare_bind.
    + apply run_frame_post. apply download_documents_keeps.
    + intros [[] fr] s [Hinv Hs]. subst s. apply commit_recorded; assumption.
    + intros e s [Ht Ha]. apply recorded_post_same; assumption.
  - intros e s [Hs _]. apply Hsame, Hs.
Qed.

Lemma same_store_refl (w : World) : same_store w w.
Proof. repeat split. Qed.

Lemma download_filing_keeps_records (env : Env)
    (filling : EDGARDownloader.Filing) (w0 : World) :
  keeps (records_kept w0) (EDGARDownloader.download_filing env filling).
Proof.
  intros s Hs.
  destruct (download_filing_recorded env filling s s (same_store_refl s)) as [H _].
  unfold records_kept in *. etransitivity; eassumption.
Qed.

(** A step that leaves the store alone keeps its records. *)
Lemma quiet_keeps_records {A} (m : M World A) (w0 : World) :
  (forall w1, keeps (same_store w1) m) -> keeps (records_kept w0) m.
Proof.
  intros H s Hs. destruct (H s s (same_store_refl s)) as [Ht _].
  unfold records_kept in *. rewrite Ht. exact Hs.
Qed.

Lemma keeps_for_fold {S A B} (I : S -> Prop) (xs : list A) (acc : B)
    (body : B -> A -> M S B) :
  (forall acc x, keeps I (body acc x)) ->
  keeps I (DailyIndexDriver.for_fold xs acc body).
Proof.
  intros Hb. revert acc. induction xs as [|x xs IH]; intros acc; simpl.
  - apply keeps_ret.
  - apply keeps_bind; [apply Hb | intros acc'; apply IH].
Qed.

Lemma pure_parse_single_quiet (env : Env) (idx_url : string) (w0 : World) :
  keeps (same_store w0)
    (SECDailyIndexDownloader.pure_parse_daily_single_index env idx_url).
Proof.
  unfold SECDailyIndexDownloader.pure_parse_daily_single_index.
  apply keeps_try; [|intros e; apply keeps_ret].
  apply keeps_bind; [apply safe_request_quiet | intros response].
  apply keeps_bind; [apply raise_for_status_quiet | intros _].
  destruct (SECDailyIndexDownloader.find_data_start _ _);
    [apply keeps_ret | intros s Hs; exact Hs].
Qed.

Lemma get_idx_link_quiet (anchors : string -> list string) (env : Env)
    (year quarter : Z) (w0 : World) :
  keeps (same_store w0) (DailyIndexDriver.get_idx_link anchors env year quarter).
Proof.
  unfold DailyIndexDriver.get_idx_link.
  apply keeps_try; [|intros e; apply keeps_ret].
  apply keeps_bind; [apply safe_request_quiet | intros response].
  apply keeps_bind; [apply raise_for_status_quiet | intros _; apply keeps_ret].
Qed.

Lemma process_filing_keeps_records (env : Env) (idx_url : string)
    (stats : DailyIndexDriver.Stats) (filing : SECDailyIndexDownloader.Filing)
    (w0 : World) :
  keeps (records_kept w0) (DailyIndexDriver.process_filing env idx_url stats filing).
Proof.
  unfold DailyIndexDriver.process_filing.
  apply keeps_bind; [apply keeps_lift_res | intros _].
  apply keeps_bind.
  { apply quiet_keeps_records. intros w1. apply is_filing_downloaded_quiet. }
  intros [|]; [apply keeps_ret|].
  apply keeps_bind; [apply download_filing_keeps_records|].
  intros [results|]; [|apply keeps_ret].
  destruct (EDGARDownloader.downloaded_files results); apply keeps_ret.
Qed.

Lemma pure_parse_daily_index_keeps_records (env : Env)
    (all_idx_url : list string) (w0 : World) :
  keeps (records_kept w0) (DailyIndexDriver.pure_parse_daily_index env all_idx_url).
Proof.
  unfold DailyIndexDriver.pure_parse_daily_index.
  apply keeps_for_fold. intros stats idx_url.
  unfold DailyIndexDriver.process_index.
  apply keeps_bind.
  { apply quiet_keeps_records. intros w1. apply pure_parse_single_quiet. }
  intros filings.
  apply keeps_bind; [apply keeps_lift_res | intros _].
  apply keeps_for_fold. intros acc filing. apply process_filing_keeps_records.
Qed.

Lemma download_year_range_keeps_records (anchors : string -> list string)
    (env : Env) (start_year end_year : Z) (w0 : World) :
  keeps (records_kept w0)
    (DailyIndexDriver.download_year_range anchors env start_year end_year).
Proof.
  unfold DailyIndexDriver.download_year_range.
  apply keeps_for_fold. intros overall year.
  unfold DailyIndexDriver.process_year.
  apply keeps_bind; [|intros year_stats; apply keeps_ret].
  apply keeps_for_fold. intros year_stats quarter.
  unfold DailyIndexDriver.process_quarter.
  destruct (DailyIndexDriver.skipped_quarter year quarter); [apply keeps_ret|].
  apply keeps_bind.
  { apply quiet_keeps_records. intros w1. apply get_idx_link_quiet. }
  intros [|link links]; [apply keeps_ret|].
  apply keeps_bind; [apply pure_parse_daily_index_keeps_records|].
  intros quarter_stats. apply keeps_ret.
Qed.

(** X15. Downloading never removes or alters a record of the store:
    whatever the network, the file system and the storage engine do, and
    whether the call returns or raises, every record present before a
    call of [download_filing], of [pure_parse_daily_index] or of
    [download_year_range] is present, unchanged, after it. *)
Theorem downloads_keep_every_record (anchors : string -> list string)
    (env : Env) (w : World) :
  (forall filling,
     table w ⊆ table (snd (EDGARDownloader.download_filing env filling w)))
  /\ (forall all_idx_url,
        table w ⊆ table (snd (DailyIndexDriver.pure_parse_daily_index env
                                all_idx_url w)))
  /\ (forall start_year end_year,
        table w ⊆ table (snd (DailyIndexDriver.download_year_range anchors env
                                start_year end_year w))).
Proof.
  assert (H0 : records_kept w w) by (unfold records_kept; reflexivity).
  split; [|split].
  - intros filling. exact (download_filing_keeps_records env filling w w H0).
  - intros urls. exact (pure_parse_daily_index_keeps_records env urls w w H0).
  - intros y1 y2.
    exact (download_year_range_keeps_records anchors env y1 y2 w w H0).
Qed.

Lemma cons_neq_self {A} (x : A) (l : list A) : l <> x :: l.
Proof.
  intros H. apply (f_equal (@length A)) in H. simpl in H. lia.
Qed.

(** X16. A filing whose download was recorded is skipped from then on:
    when a call of [download_filing] ends with a successful call of
    [add_filing], a second call for the same filing, in whatever
    environment, returns at once the result marked as skipped, with no
    file listed, and makes no request and changes nothing. *)
Theorem download_filing_again_is_skipped (env env' : Env)
    (filling : EDGARDownloader.Filing) (w : World) (id : string) :
  adds (snd (EDGARDownloader.download_filing env filling w))
  = EvAdd id true :: adds w ->
  EDGARDownloader.download_filing env' filling
    (snd (EDGARDownloader.download_filing env filling w))
  = (Ok (Some (EDGARDownloader.mkResults filling [] [] true)),
     snd (EDGARDownloader.download_filing env filling w)).
Proof.
  intros Hadd.
  destruct (download_filing_recorded env filling w w (same_store_refl w))
    as [_ [Heq | [ok [Heq Hok]]]].
  - rewrite Heq in Hadd. exfalso. exact (cons_neq_self _ _ Hadd).
  - rewrite Heq in Hadd. injection Hadd as _ Hk. specialize (Hok Hk).
    unfold EDGARDownloader.download_filing at 1, bind,
      Database.is_filing_downloaded.
    rewrite bool_decide_eq_true_2 by exact Hok. reflexivity.
Qed.

Lemma download_filing_again_is_skipped_witness :
  EDGARDownloader.download_filing Samples.env_documents_fail Samples.apple_10k
    (snd (EDGARDownloader.download_filing
            (Samples.env_of Samples.archive_server) Samples.apple_10k Samples.w0))
  = (Ok (Some (EDGARDownloader.mkResults Samples.apple_10k [] [] true)),
     snd (EDGARDownloader.download_filing
            (Samples.env_of Samples.archive_server) Samples.apple_10k Samples.w0)).
Proof.
  apply (download_filing_again_is_skipped
           (Samples.env_of Samples.archive_server) Samples.env_documents_fail
           Samples.apple_10k Samples.w0 "0000320193_0000320193-23-000106").
  vm_compute. reflexivity.
Defined.

(** ** BatchDriver *)

Lemma returns_ret {S A} (a : A) (J : A -> Prop) :
  J a -> returns (S := S) (ret a) J.
Proof. intros H s _. exact H. Qed.

Lemma returns_bind {S A B} (m : M S A) (f : A -> M S B) (K : A -> Prop)
    (J : B -> Prop) :
  returns m K -> (forall a, K a -> returns (f a) J) -> returns (bind m f) J.
Proof.
  intros Hm Hf s _. specialize (Hm s I). unfold bind.
  destruct (m s) as [[a|e] s']; simpl in *; [|exact I].
  apply (Hf a Hm s' I).
Qed.

Lemma returns_any {S A} (m : M S A) : returns m (fun _ => True).
Proof. intros s _. destruct (fst (m s)); exact I. Qed.

Lemma returns_for_fold {S A B} (xs : list A) (acc : B)
    (body : B -> A -> M S B) (J : B -> Prop) :
  (forall acc x, J acc -> returns (body acc x) J) ->
  J acc -> returns (DailyIndexDriver.for_fold xs acc body) J.
Proof.
  intros Hb. revert acc. induction xs as [|x xs IH]; intros acc Hacc; simpl.
  - apply returns_ret, Hacc.
  - apply (returns_bind _ _ J); [apply Hb, Hacc | intros acc'; apply IH].
Qed.

Lemma returns_outcome {S A} (m : M S A) (J : A -> Prop) (s : S) (a : A) :
  returns m J -> outcome (m s) = Ok a -> J a.
Proof.
  intros H E. specialize (H s I). unfold outcome in E. rewrite E in H. exact H.
Qed.

Lemma balanced_zero : DailyIndexDriver.balanced DailyIndexDriver.zero_stats.
Proof. unfold DailyIndexDriver.balanced; simpl; lia. Qed.

Lemma balanced_add (a b : DailyIndexDriver.Stats) :
  DailyIndexDriver.balanced a -> DailyIndexDriver.balanced b ->
  DailyIndexDriver.balanced (DailyIndexDriver.add_stats a b).
Proof. unfold DailyIndexDriver.balanced; simpl; lia. Qed.

Lemma process_filing_balanced (env : Env) (idx_url : string)
    (stats : DailyIndexDriver.Stats) (filing : SECDailyIndexDownloader.Filing) :
  DailyIndexDriver.balanced stats ->
  returns (DailyIndexDriver.process_filing env idx_url stats filing)
          DailyIndexDriver.balanced.
Proof.
  intros Hb. unfold DailyIndexDriver.process_filing.
  apply (returns_bind _ _ (fun _ => True)); [apply returns_any | intros _ _].
  apply (returns_bind _ _ (fun _ => True)); [apply returns_any | intros already _].
  destruct already.
  { apply returns_ret. unfold DailyIndexDriver.balanced in *; simpl; lia. }
  apply (returns_bind _ _ (fun _ => True)); [apply returns_any | intros result _].
  destruct result as [results|];
    [destruct (EDGARDownloader.downloaded_files results)|];
    apply returns_ret; unfold DailyIndexDriver.balanced in *; simpl; lia.
Qed.

Lemma pure_parse_daily_index_balanced (env : Env) (all_idx_url : list string) :
  returns (DailyIndexDriver.pure_parse_daily_index env all_idx_url)
          DailyIndexDriver.balanced.
Proof.
  unfold DailyIndexDriver.pure_parse_daily_index.
  apply returns_for_fold; [|apply balanced_zero].
  intros stats idx_url Hb. unfold DailyIndexDriver.process_index.
  apply (returns_bind _ _ (fun _ => True)); [apply returns_any | intros filings _].
  apply (returns_bind _ _ (fun _ => True)); [apply returns_any | intros _ _].
  apply returns_for_fold; [|exact Hb].
  intros acc filing. apply process_filing_balanced.
Qed.

Lemma download_year_range_balanced (anchors : string -> list string)
    (env : Env) (start_year end_year : Z) :
  returns (DailyIndexDriver.download_year_range anchors env start_year end_year)
          DailyIndexDriver.balanced.
Proof.
  unfold DailyIndexDriver.download_year_range.
  apply returns_for_fold; [|apply balanced_zero].
  intros overall year Hb. unfold DailyIndexDriver.process_year.
  apply (returns_bind _ _ DailyIndexDriver.balanced).
  - apply returns_for_fold; [|apply balanced_zero].
    intros year_stats quarter Hy. unfold DailyIndexDriver.process_quarter.
    destruct (DailyIndexDriver.skipped_quarter year quarter);
      [apply returns_ret, Hy|].
    apply (returns_bind _ _ (fun _ => True)); [apply returns_any|].
    intros [|link links] _; [apply returns_ret, Hy|].
    apply (returns_bind _ _ DailyIndexDriver.balanced);
      [apply pure_parse_daily_index_balanced|].
    intros quarter_stats Hq. apply returns_ret, balanced_add; assumption.
  - intros year_stats Hy. apply returns_ret, balanced_add; assumption.
Qed.

(** X17. The counters that [pure_parse_daily_index] returns add up:
    every filing found was skipped, downloaded or failed, exactly one of
    the three, so [total_found = downloaded + skipped + failed]; no
    counter is negative, and [errors] is never incremented. *)
Theorem pure_parse_daily_index_counts_add_up (env : Env)
    (all_idx_url : list string) (w : World) (stats : DailyIndexDriver.Stats) :
  outcome (DailyIndexDriver.pure_parse_daily_index env all_idx_url w) = Ok stats ->
  DailyIndexDriver.total_found stats
  = DailyIndexDriver.downloaded stats + DailyIndexDriver.skipped stats
    + DailyIndexDriver.failed stats
  /\ DailyIndexDriver.errors stats = 0
  /\ 0 <= DailyIndexDriver.downloaded stats
  /\ 0 <= DailyIndexDriver.skipped stats
  /\ 0 <= DailyIndexDriver.failed stats.
Proof.
  intros E.
  exact (returns_outcome _ _ _ _ (pure_parse_daily_index_balanced env all_idx_url) E).
Qed.

Lemma pure_parse_daily_index_counts_add_up_witness :
  let stats := DailyIndexDriver.mkStats 1 0 0 0 1 in
  DailyIndexDriver.total_found stats
  = DailyIndexDriver.downloaded stats + DailyIndexDriver.skipped stats
    + DailyIndexDriver.failed stats
  /\ DailyIndexDriver.errors stats = 0
  /\ 0 <= DailyIndexDriver.downloaded stats
  /\ 0 <= DailyIndexDriver.skipped stats
  /\ 0 <= DailyIndexDriver.failed stats.
Proof.
  intros stats.
  apply (pure_parse_daily_index_counts_add_up DriverSamples.env
           ["https://www.sec.gov/Archives/edgar/daily-index/2023/QTR4/form.20231103.idx"]
           Samples.w0 stats).
  vm_compute. reflexivity.
Defined.

(** X18. The totals that [download_year_range] returns add up in the
    same way over all the quarters and years of the range: the sums kept
    per quarter, per year and overall preserve
    [total_found = downloaded + skipped + failed], with no negative
    counter and [errors] at zero. *)
Theorem download_year_range_counts_add_up (anchors : string -> list string)
    (env : Env) (start_year end_year : Z) (w : World)
    (stats : DailyIndexDriver.Stats) :
  outcome (DailyIndexDriver.download_year_range anchors env start_year end_year w)
  = Ok stats ->
  DailyIndexDriver.total_found stats
  = DailyIndexDriver.downloaded stats + DailyIndexDriver.skipped stats
    + DailyIndexDriver.failed stats
  /\ DailyIndexDriver.errors stats = 0
  /\ 0 <= DailyIndexDriver.downloaded stats
  /\ 0 <= DailyIndexDriver.skipped stats
  /\ 0 <= DailyIndexDriver.failed stats.
Proof.
  intros E.
  exact (returns_outcome _ _ _ _
           (download_year_range_balanced anchors env start_year end_year) E).
Qed.

Lemma download_year_range_counts_add_up_witness :
  let stats := DailyIndexDriver.mkStats 1 3 0 0 4 in
  DailyIndexDriver.total_found stats
  = DailyIndexDriver.downloaded stats + DailyIndexDriver.skipped stats
    + DailyIndexDriver.failed stats
  /\ DailyIndexDriver.errors stats = 0
  /\ 0 <= DailyIndexDriver.downloaded stats
  /\ 0 <= DailyIndexDriver.skipped stats
  /\ 0 <= DailyIndexDriver.failed stats.
Proof.
  intros stats.
  apply (download_year_range_counts_add_up DriverSamples.anchors
           DriverSamples.env 2023 2023 Samples.w0 stats).
  vm_compute. reflexivity.
Defined.



(** ** FiscalMetadata *)

(** X20. The quarter that [determine_QTR_from_date] assigns to a parsed
    date depends on the month alone: the four tests on the last days of
    March, June, September and December never change the answer, and the
    months up to April give Q1, up to July Q2, up to October Q3, the
    others Q4. *)
Theorem quarter_depends_on_the_month_alone (month day : Z) :
  EDGARDownloader.quarter_of month day
  = if month <=? 4 then "Q1"
    else if month <=? 7 then "Q2"
    else if month <=? 10 then "Q3"
    else "Q4".
Proof.
  unfold EDGARDownloader.quarter_of.
  destruct (Z.eqb_spec month 3) as [->|N3]; [destruct (day >=? 28); reflexivity|].
  destruct (Z.eqb_spec month 6) as [->|N6]; [destruct (day >=? 28); reflexivity|].
  destruct (Z.eqb_spec month 9) as [->|N9]; [destruct (day >=? 28); reflexivity|].
  destruct (Z.eqb_spec month 12) as [->|N12]; [destruct (day >=? 28); reflexivity|].
  reflexivity.
Qed.

Lemma in_list_annual (s : string) :
  Py.in_list s ["10-K"; "10-K/A"] = true -> s = "10-K" \/ s = "10-K/A".
Proof.
  unfold Py.in_list. simpl. intros H.
  apply orb_prop in H as [H|H]; [left; apply String.eqb_eq, H|].
  apply orb_prop in H as [H|H]; [right; apply String.eqb_eq, H | discriminate H].
Qed.

(** X21. [create_filename] cannot name an annual report whose fiscal
    year is unknown: for the forms 10-K and 10-K/A, when [fiscal_year] is
    missing or empty, every call raises: on a missing date, on a date
    that is not YYYYMMDD, and otherwise because the estimated year is an
    integer, on which [replace] is called. *)
Theorem create_filename_fails_without_fiscal_year
    (fiscal_info : EDGARDownloader.FiscalInfo)
    (report_date filing_date : option string) (cik company_name : string) :
  EDGARDownloader.opt_in (EDGARDownloader.fi_get fiscal_info "form_type")
                         ["10-K"; "10-K/A"] = true ->
  Py.truthy (EDGARDownloader.fi_get fiscal_info "fiscal_year") = false ->
  EDGARDownloader.create_filename fiscal_info report_date filing_date cik
    company_name = Raise AttributeError
  \/ EDGARDownloader.create_filename fiscal_info report_date filing_date cik
       company_name = Raise ValueError.
Proof.
  intros Hform Hfy. unfold EDGARDownloader.create_filename.
  destruct (EDGARDownloader.fi_get fiscal_info "form_type") as [form|] eqn:Ef;
    [|discriminate Hform].
  assert (Hq : EDGARDownloader.opt_in (Some form) ["10-Q"; "10-Q/A"] = false).
  { simpl in Hform. destruct (in_list_annual form Hform) as [->| ->]; reflexivity. }
  rewrite Hq, Hform, Hfy.
  destruct (EDGARDownloader.replace_opt "-" ""
              (EDGARDownloader.pick_date report_date filing_date)) as [d|e] eqn:Ed.
  - unfold EDGARDownloader.estimate_10K_fiscal_year,
      EDGARDownloader.strptime_Ymd, EDGARDownloader.checked_date.
    destruct (Re.match_ _ d) as [m|]; [|right; reflexivity].
    destruct (negb _); [right; reflexivity|].
    destruct (_ && _); [|right; reflexivity].
    destruct (_ <=? 5); left; reflexivity.
  - unfold EDGARDownloader.replace_opt in Ed.
    destruct (EDGARDownloader.pick_date report_date filing_date);
      [discriminate Ed|]. injection Ed as <-. left. reflexivity.
Qed.

Lemma create_filename_fails_without_fiscal_year_witness :
  EDGARDownloader.create_filename [("form_type", Some "10-K")]
    (Some "2023-09-30") (Some "2023-11-03") "0000320193" "Apple Inc."
  = Raise AttributeError
  \/ EDGARDownloader.create_filename [("form_type", Some "10-K")]
       (Some "2023-09-30") (Some "2023-11-03") "0000320193" "Apple Inc."
     = Raise ValueError.
Proof.
  apply create_filename_fails_without_fiscal_year; reflexivity.
Defined.

(** X22. Without the index page [download_filing] gives up at once: for
    a filing not yet recorded, when the fetch of the [-index.htm] page
    answers with a status other than 200 (429 and 403 apart), the call
    returns [None] after that single request; nothing else is fetched,
    nothing is written and nothing is recorded. *)
Theorem download_filing_gives_up_without_index
    (env : Env) (filling : EDGARDownloader.Filing) (w : World)
    (seg : string) (r : Response) :
  table w !! Database.make_filing_id (SECDailyIndexDownloader.cik filling)
               (SECDailyIndexDownloader.accession_number filling) = None ->
  Py.index_neg (Py.split "/" (SECDailyIndexDownloader.file_name filling)) 2
  = Some seg ->
  http_get env (clock w)
    (Py.replace ".txt" "-index.htm" (SECDailyIndexDownloader.file_name filling))
  = Resp r ->
  status_code r <> 200 -> status_code r <> 429 -> status_code r <> 403 ->
  EDGARDownloader.download_filing env filling w
  = (Ok None,
     emit (EvGet (Py.replace ".txt" "-index.htm"
                    (SECDailyIndexDownloader.file_name filling))) w).
Proof.
  intros Hnone Hseg Hf H200 H429 H403.
  destruct (last_segment_exists "/" (SECDailyIndexDownloader.file_name filling))
    as [last Hlast].
  unfold EDGARDownloader.download_filing, bind at 1,
    Database.is_filing_downloaded.
  rewrite bool_decide_eq_false_2
    by (rewrite Hnone; intros [x Hx]; discriminate Hx).
  cbv beta iota.
  unfold EDGARDownloader.required_urls, bind, lift_res, try_except.
  rewrite Hseg, Hlast. unfold or_raise. cbv beta iota.
  rewrite safe_request_run, Hf, safe_request_status.
  apply Z.eqb_neq in H200, H429, H403. rewrite H429, H403. cbv [orb].
  cbv beta iota. rewrite H200. reflexivity.
Qed.

Lemma download_filing_gives_up_without_index_witness :
  EDGARDownloader.download_filing
    (Samples.env_of (fun _ => Samples.status_only 404)) Samples.apple_10k
    Samples.w0
  = (Ok None, emit (EvGet Samples.index_url) Samples.w0).
Proof.
  apply (download_filing_gives_up_without_index
           (Samples.env_of (fun _ => Samples.status_only 404))
           Samples.apple_10k Samples.w0 "320193" (mkResponse 404 ""));
    vm_compute; try reflexivity; discriminate.
Defined.

Lemma fi_get_set (d : EDGARDownloader.FiscalInfo) (k k' : string)
    (v : option string) :
  EDGARDownloader.fi_get (Py.dict_set d k v) k'
  = if String.eqb k k' then v else EDGARDownloader.fi_get d k'.
Proof.
  unfold EDGARDownloader.fi_get. rewrite dict_get_set.
  destruct (String.eqb k k'); reflexivity.
Qed.

Lemma in_list_quarterly_not_annual (s : string) :
  Py.in_list s ["10-Q"; "10-Q/A"] = true ->
  Py.in_list s ["10-K"; "10-K/A"] = false.
Proof.
  unfold Py.in_list. simpl. intros H.
  apply orb_prop in H as [H|H]; [apply String.eqb_eq in H; subst; reflexivity|].
  apply orb_prop in H as [H|H]; [|discriminate H].
  apply String.eqb_eq in H; subst; reflexivity.
Qed.

Lemma in_list_periodic (s : string) :
  Py.in_list s ["10-Q"; "10-Q/A"; "10-K"; "10-K/A"]
  = Py.in_list s ["10-Q"; "10-Q/A"] || Py.in_list s ["10-K"; "10-K/A"].
Proof.
  unfold Py.in_list. simpl.
  destruct (String.eqb s "10-Q"), (String.eqb s "10-Q/A"); reflexivity.
Qed.

(** X23. The fiscal period that [extract_fiscal_info_from_txt] reads off
    a submission follows the form type: an annual report (10-K, 10-K/A)
    is always given FY, whatever its fiscal period tag says; a quarterly
    report (10-Q, 10-Q/A) with a fiscal period tag is given the text of
    the tag; a submission of any other form, or of none, is given no
    fiscal period at all. *)
Theorem fiscal_period_follows_the_form (content : string) :
  (EDGARDownloader.opt_in
     (EDGARDownloader.fi_get (EDGARDownloader.fiscal_info_of_text content) "form_type")
     ["10-K"; "10-K/A"] = true ->
   EDGARDownloader.fi_get (EDGARDownloader.fiscal_info_of_text content) "fiscal_period"
   = Some "FY")
  /\ (forall m,
        EDGARDownloader.opt_in
          (EDGARDownloader.fi_get (EDGARDownloader.fiscal_info_of_text content) "form_type")
          ["10-Q"; "10-Q/A"] = true ->
        Re.search EDGARDownloader.re_fiscal_period content = Some m ->
        EDGARDownloader.fi_get (EDGARDownloader.fiscal_info_of_text content) "fiscal_period"
        = Some (Re.group_text m "1"))
  /\ (EDGARDownloader.opt_in
        (EDGARDownloader.fi_get (EDGARDownloader.fiscal_info_of_text content) "form_type")
        ["10-Q"; "10-Q/A"; "10-K"; "10-K/A"] = false ->
      EDGARDownloader.fi_get (EDGARDownloader.fiscal_info_of_text content) "fiscal_period"
      = None).
Proof.
  unfold EDGARDownloader.fiscal_info_of_text.
  generalize (Re.search EDGARDownloader.re_period_of_report content) as por.
  generalize (Re.search EDGARDownloader.re_fiscal_year content) as fy.
  generalize (Re.search EDGARDownloader.re_submission_type content) as st.
  generalize (Re.search EDGARDownloader.re_company_name content) as cn.
  generalize (Re.search EDGARDownloader.re_date_filed content) as df.
  generalize (Re.search EDGARDownloader.re_fiscal_period content) as fp.
  intros fp df cn st fy por.
  destruct st as [mst|]; destruct fy as [mfy|]; destruct por as [mpor|];
    destruct df as [mdf|]; destruct cn as [mcn|]; cbv zeta;
    rewrite ?fi_get_set;
    cbn -[Re.group_text Py.slice_to Py.slice Py.slice_from Py.upper Py.strip
          EDGARDownloader.determine_QTR_from_date Py.in_list];
    try (destruct (Re.group_text mfy "1");
         cbn -[Re.group_text Py.slice_to Py.slice Py.slice_from Py.upper Py.strip
               EDGARDownloader.determine_QTR_from_date Py.in_list]);
    try (pose proof (in_list_periodic (Py.upper (Re.group_text mst "1"))) as Hper;
         pose proof (in_list_quarterly_not_annual (Py.upper (Re.group_text mst "1")))
           as Hdis;
         destruct (Py.in_list (Py.upper (Re.group_text mst "1")) ["10-Q"; "10-Q/A"])
           eqn:EQ;
         [pose proof (Hdis eq_refl) as EK
         |destruct (Py.in_list (Py.upper (Re.group_text mst "1")) ["10-K"; "10-K/A"])
            eqn:EK];
         clear Hdis);
    try (destruct fp as [mfp|]);
    try match goal with
        | |- context [match ?s with EmptyString => _ | String _ _ => _ end] =>
            destruct s
        end;
    rewrite ?fi_get_set;
    cbn -[Re.group_text Py.slice_to Py.slice Py.slice_from Py.upper Py.strip
          EDGARDownloader.determine_QTR_from_date Py.in_list];
    rewrite ?Hper, ?EQ, ?EK;
    (split; [|split]); intros; try discriminate; try reflexivity;
    try congruence.
Qed.

(** ** FileNaming *)

Lemma all_chr_append (p : ascii -> bool) (a b : string) :
  Py.all_chr p (a +:+ b) = Py.all_chr p a && Py.all_chr p b.
Proof.
  induction a as [|c a IH]; simpl; [reflexivity|].
  rewrite IH. apply andb_assoc.
Qed.

Lemma replace_go_all_chr (p : ascii -> bool) (old new s : string) (skip : nat) :
  Py.all_chr p new = true -> Py.all_chr p s = true ->
  Py.all_chr p (Py.replace_go old new s skip) = true.
Proof.
  intros Hn. revert skip. induction s as [|c s IH]; intros skip Hs; simpl in *.
  - reflexivity.
  - apply andb_prop in Hs as [Hc Hs].
    destruct skip as [|k]; [|apply IH, Hs].
    destruct (Py.startswith old (String c s)).
    + rewrite all_chr_append, Hn. apply IH, Hs.
    + simpl. rewrite Hc. apply IH, Hs.
Qed.

Lemma replace_all_chr (p : ascii -> bool) (old new s : string) :
  Py.all_chr p new = true -> Py.all_chr p s = true ->
  Py.all_chr p (Py.replace old new s) = true.
Proof.
  intros Hn Hs. unfold Py.replace.
  destruct old; [exact Hs | apply replace_go_all_chr; assumption].
Qed.

(** Replacing a character leaves none of it. *)
Lemma replace_chr_removes (x : ascii) (new s : string) :
  Py.all_chr (fun c => negb (Py.chr_eqb c x)) new = true ->
  Py.all_chr (fun c => negb (Py.chr_eqb c x)) (Py.replace (String x EmptyString) new s)
  = true.
Proof.
  intros Hn. unfold Py.replace.
  induction s as [|c s IH]; [reflexivity|].
  cbn [Py.replace_go Py.startswith Py.len String.length Nat.sub].
  unfold Py.chr_eqb in *. rewrite andb_true_r.
  destruct (Ascii.eqb x c) eqn:E.
  - rewrite all_chr_append, Hn. exact IH.
  - cbn [Py.all_chr]. rewrite Ascii.eqb_sym, E. exact IH.
Qed.

Lemma lstrip_all_chr (p : ascii -> bool) (s : string) :
  Py.all_chr p s = true -> Py.all_chr p (Py.lstrip s) = true.
Proof.
  induction s as [|c s IH]; simpl; [reflexivity|]. intros H.
  destruct (Py.isspace c); [apply IH; apply andb_prop in H as [_ H]; exact H|].
  exact H.
Qed.

Lemma strip_all_chr (p : ascii -> bool) (s : string) :
  Py.all_chr p s = true -> Py.all_chr p (Py.strip s) = true.
Proof.
  intros H. unfold Py.strip, Py.rstrip.
  apply all_chr_rev, lstrip_all_chr, all_chr_rev, lstrip_all_chr, H.
Qed.

(** X24. A name that [create_filename] returns contains no slash,
    whatever the form type, the dates and the company name hold: every
    part of it went through a replacement of the slash. *)
Theorem create_filename_has_no_slash
    (fiscal_info : EDGARDownloader.FiscalInfo)
    (report_date filing_date : option string) (cik company_name name : string) :
  EDGARDownloader.create_filename fiscal_info report_date filing_date cik
    company_name = Ok name ->
  Py.contains "/" name = false.
Proof.
  set (p := fun c => negb (Py.chr_eqb c "/")).
  assert (Hu : Py.all_chr p "_" = true) by reflexivity.
  assert (Hslash : forall s, Py.all_chr p (Py.replace "/" "_" s) = true)
    by (intros s; apply (replace_chr_removes "/" "_" s); reflexivity).
  assert (Hname : Py.all_chr p
            (Py.strip (Py.replace EDGARDownloader.backslash "_"
                         (Py.replace "/" "_" company_name))) = true).
  { apply strip_all_chr, replace_all_chr; [reflexivity | apply Hslash]. }
  assert (Hform : Py.all_chr p
            match EDGARDownloader.fi_get fiscal_info "form_type" with
            | Some (String c t) => Py.replace " " "" (Py.replace "/" "_" (String c t))
            | _ => "UNKNOWN"
            end = true).
  { destruct (EDGARDownloader.fi_get fiscal_info "form_type") as [[|c t]|];
      try reflexivity.
    apply replace_all_chr; [reflexivity | apply Hslash]. }
  intros H. apply (no_chr_not_contained "/"). fold p.
  unfold EDGARDownloader.create_filename in H.
  revert Hname Hform H.
  generalize (Py.strip (Py.replace EDGARDownloader.backslash "_"
                          (Py.replace "/" "_" company_name))) as cn.
  generalize (match EDGARDownloader.fi_get fiscal_info "form_type" with
              | Some (String c t) => Py.replace " " "" (Py.replace "/" "_" (String c t))
              | _ => "UNKNOWN"
              end) as cf.
  intros cf cn Hname Hform H.
  assert (Hfin : forall d, Py.all_chr p d = true ->
                           Py.all_chr p (d +:+ "_" +:+ cn) = true).
  { intros d Hd. rewrite !all_chr_append, Hd, Hname. reflexivity. }
  repeat match type of H with
         | (if ?c then _ else _) = _ => destruct c
         | match ?x with _ => _ end = _ => destruct x
         end;
    try discriminate H; injection H as <-; apply Hfin;
    try apply Hslash.
  rewrite !all_chr_append, Hform.
  apply andb_true_intro. split; [exact (Hslash _) | reflexivity].
Qed.

Lemma create_filename_has_no_slash_witness :
  Py.contains "/" "2023_10-K_A_AC_DC Corp" = false.
Proof.
  apply (create_filename_has_no_slash
           [("form_type", Some "10-K/A"); ("fiscal_year", Some "2023")]
           None None "0000320193" "AC/DC Corp").
  reflexivity.
Defined.

(** ** IndexPageParser, the sections *)

Lemma find_from_absent (sub s : string) (i : Z) :
  Py.contains sub s = false -> Py.find_from sub s i = -1.
Proof.
  revert i. induction s as [|c s IH]; intros i H; simpl in *.
  - apply orb_false_elim in H as [H _]. rewrite H. reflexivity.
  - apply orb_false_elim in H as [H1 H2]. rewrite H1. apply IH, H2.
Qed.

Lemma startswith_len (p s : string) :
  Py.startswith p s = true -> (Py.len p <= Py.len s)%nat.
Proof.
  revert s. induction p as [|a p IH]; intros s H; simpl in *; [lia|].
  destruct s as [|b s]; [discriminate H|].
  apply andb_prop in H as [_ H]. apply IH in H. simpl. lia.
Qed.

Lemma find_from_bounds (sub s : string) (i : Z) :
  Py.find_from sub s i = -1
  \/ (i <= Py.find_from sub s i
      /\ Py.find_from sub s i + Z.of_nat (Py.len sub) <= i + Z.of_nat (Py.len s)).
Proof.
  revert i. induction s as [|c s IH]; intros i.
  - cbn [Py.find_from]. destruct (Py.startswith sub "") eqn:E; [|left; reflexivity].
    right. apply startswith_len in E. lia.
  - cbn [Py.find_from]. destruct (Py.startswith sub (String c s)) eqn:E.
    + right. apply startswith_len in E. lia.
    + destruct (IH (i + 1)) as [H|[H1 H2]]; [left; exact H|].
      right. change (Py.len (String c s)) with (S (Py.len s)). lia.
Qed.

Lemma take_0 (s : string) : Py.take 0 s = EmptyString.
Proof. destruct s; reflexivity. Qed.

(** A slice whose start is the last character, or beyond its end, is
    empty. *)
Lemma slice_from_absent (s : string) (b : Z) :
  b = -1 \/ (0 <= b /\ b + 1 <= Z.of_nat (Py.len s)) ->
  Py.slice s (-1) b = EmptyString.
Proof.
  intros H. unfold Py.slice.
  replace (Py.clamp_index (Py.len s) b - Py.clamp_index (Py.len s) (-1))%nat
    with O; [apply take_0|].
  unfold Py.clamp_index. cbv zeta.
  destruct H as [->|[H1 H2]].
  - lia.
  - change (-1 <? 0) with true. cbv iota.
    destruct (Z.ltb_spec b 0); lia.
Qed.

(** X25. A page that has neither the Document Format Files heading nor
    the Data Files heading yields no entry at all: both sections are
    empty slices, whether or not the end marker is there, and the parser
    returns two empty maps. *)
Theorem page_without_headings_has_no_entries (html_content : string) :
  Py.contains "<p>Document Format Files</p>" html_content = false ->
  Py.contains "<p>Data Files</p>" html_content = false ->
  IndexParser.extract_sec_filing_data html_content
  = IndexParser.mkFilingIndex [] [].
Proof.
  intros Hdoc Hdata.
  assert (E1 : IndexParser.doc_section html_content = EmptyString).
  { unfold IndexParser.doc_section, Py.find.
    rewrite (find_from_absent _ _ 0 Hdoc), (find_from_absent _ _ 0 Hdata).
    apply slice_from_absent. left. reflexivity. }
  assert (E2 : IndexParser.data_section html_content = EmptyString).
  { unfold IndexParser.data_section, Py.find.
    rewrite (find_from_absent _ _ 0 Hdata).
    apply slice_from_absent.
    destruct (find_from_bounds "<!-- END DOCUMENT DIV -->" html_content 0)
      as [H|[H1 H2]]; [left; exact H | right].
    change (Z.of_nat (Py.len "<!-- END DOCUMENT DIV -->")) with 25 in H2.
    lia. }
  unfold IndexParser.extract_sec_filing_data. rewrite E1, E2. reflexivity.
Qed.

Lemma page_without_headings_has_no_entries_witness :
  IndexParser.extract_sec_filing_data
    "<html><body><table><tr><td>1</td></tr></table><!-- END DOCUMENT DIV --></body></html>"
  = IndexParser.mkFilingIndex [] [].
Proof.
  apply page_without_headings_has_no_entries; reflexivity.
Defined.
